(** * butterflow [setup.py]: the dependency-discovery and build-specification
      pipeline, embedded in Rocq.

    The script is Python 2 ([#!/usr/bin/env python2], and its own gate
    refuses any other major version), so [str] is a byte string, [map]
    returns a list, and [os.path.basename None] raises [AttributeError].

    Layout: the string primitives of the Python runtime that the script
    uses, the script's pure functions, the model of the outside world
    (subprocesses, the dynamic-library search, the import system, the
    environment dictionary), the effectful functions in a small
    state-and-exception monad, and then the theorems. *)

From Stdlib Require Import ZArith Ascii String DecimalString.
From stdpp Require Import base tactics option list gmap strings fin_maps.

Local Open Scope Z_scope.

(** ** Python string primitives *)

Module PyStr.

(** [str.isspace] of one byte in the C locale: space, \t, \n, \v, \f, \r. *)
Definition is_space (c : ascii) : bool :=
  let n := nat_of_ascii c in
  (n =? 32)%nat || ((9 <=? n)%nat && (n <=? 13)%nat).

Fixpoint lstrip (s : string) : string :=
  match s with
  | EmptyString => EmptyString
  | String c s' => if is_space c then lstrip s' else s
  end.

Fixpoint rstrip (s : string) : string :=
  match s with
  | EmptyString => EmptyString
  | String c s' =>
      match rstrip s' with
      | EmptyString => if is_space c then EmptyString else String c EmptyString
      | r => String c r
      end
  end.

(** [s.strip()] *)
Definition strip (s : string) : string := rstrip (lstrip s).

(** [s[n:]] for [0 <= n] *)
Fixpoint drop (n : nat) (s : string) : string :=
  match n, s with
  | O, _ => s
  | S _, EmptyString => EmptyString
  | S n', String _ s' => drop n' s'
  end.

(** [s[:n]] for [0 <= n] *)
Fixpoint take (n : nat) (s : string) : string :=
  match n, s with
  | O, _ => EmptyString
  | S _, EmptyString => EmptyString
  | S n', String c s' => String c (take n' s')
  end.

(** [s.startswith(p)] *)
Fixpoint startswith (s p : string) {struct p} : bool :=
  match p with
  | EmptyString => true
  | String a p' =>
      match s with
      | EmptyString => false
      | String b s' => Ascii.eqb a b && startswith s' p'
      end
  end.

(** [x.find(y)]: the lowest index at which [y] occurs in [x], or [-1]. *)
Fixpoint find (x y : string) : Z :=
  if startswith x y then 0
  else match x with
       | EmptyString => -1
       | String _ x' => let r := find x' y in if r =? -1 then -1 else r + 1
       end.

(** [y in x] on strings is the substring test. *)
Definition contains (x y : string) : bool := negb (find x y =? -1).

(** [p.rfind('/')]: the highest index of a slash, or [-1]. *)
Fixpoint rfind_slash (p : string) : Z :=
  match p with
  | EmptyString => -1
  | String c p' =>
      let r := rfind_slash p' in
      if r =? -1 then (if Ascii.eqb c "/" then 0 else -1) else r + 1
  end.

(** [posixpath.basename]: [i = p.rfind('/') + 1; return p[i:]]. *)
Definition basename (p : string) : string :=
  drop (Z.to_nat (rfind_slash p + 1)) p.

(** [posixpath.dirname], used once at module level, is not modelled. *)

(** [s.split(sep)] for a non-empty separator: cut at every occurrence, left
    to right, keeping empty pieces. [cur] is the piece being read and [skip]
    the number of separator characters still to pass over. *)
Fixpoint split_go (sep cur : string) (skip : nat) (s : string) : list string :=
  match s with
  | EmptyString => [cur]
  | String c s' =>
      match skip with
      | S k => split_go sep cur k s'
      | O =>
          if startswith s sep
          then cur :: split_go sep EmptyString (String.length sep - 1)%nat s'
          else split_go sep (cur +:+ String c EmptyString) O s'
      end
  end.

Definition split (s sep : string) : list string :=
  split_go sep EmptyString O s.



Definition eqb (a b : string) : bool := bool_decide (a = b).

(** ['{}'.format(n)] for a non-negative integer. *)
Definition of_nat (n : nat) : string := NilZero.string_of_uint (Nat.to_uint n).

(** What a pipe opened with [universal_newlines=True] hands to [read()]:
    a carriage return in front of a line feed is dropped, every other
    carriage return becomes a line feed. *)
Fixpoint universal_newlines (s : string) : string :=
  match s with
  | EmptyString => EmptyString
  | String c s' =>
      if Ascii.eqb c "013" then
        match s' with
        | String c' _ =>
            if Ascii.eqb c' "010" then universal_newlines s'
            else String "010" (universal_newlines s')
        | EmptyString => String "010" EmptyString
        end
      else String c (universal_newlines s')
  end.

End PyStr.

(** ** The pure functions of the script *)

(** [chop_at], the local helper of [get_lib_short_name]. *)
Definition chop_at (x y : string) : string :=
  let idx := PyStr.find x y in
  if negb (idx =? -1) then PyStr.take (Z.to_nat idx) x else x.

Definition get_lib_short_name (name : string) : string :=
  let name := PyStr.strip name in
  let name := PyStr.basename name in
  let name := if PyStr.startswith name "-l" then PyStr.drop 2 name else name in
  let name := if PyStr.startswith name "lib" then PyStr.drop 3 name else name in
  let name := chop_at name ".so" in
  let name := chop_at name ".dylib" in
  let name := chop_at name ".a" in
  name.

(** [build_lst] receives arbitrary Python values. Those that occur at its
    call sites are byte strings, lists, and [None]; a tuple and an integer
    stand for "any other type". List elements are hashable scalars. *)
Inductive atom :=
| AStr (s : string)
| ANone
| AInt (z : Z).

Inductive pyval :=
| PAtom (a : atom)
| PList (l : list atom)
| PTuple (l : list atom).

#[global] Instance atom_eq_dec : EqDecision atom.
Proof. solve_decision. Defined.

#[global] Instance atom_countable : Countable atom.
Proof.
  refine (inj_countable'
    (fun a => match a with
              | AStr s => inl s
              | ANone => inr (inl tt)
              | AInt z => inr (inr z)
              end)
    (fun x => match x with
              | inl s => AStr s
              | inr (inl _) => ANone
              | inr (inr z) => AInt z
              end) _).
  intros []; reflexivity.
Defined.

(** [isinstance(x, str)] and [isinstance(x, list)] *)
Definition is_str (x : pyval) : bool :=
  match x with PAtom (AStr _) => true | _ => false end.
Definition is_list (x : pyval) : bool :=
  match x with PList _ => true | _ => false end.

(** The body of the outer [for] of [build_lst]: two independent [if]s. *)
Definition build_lst_step (item_set : gset atom) (x : pyval) : gset atom :=
  let item_set :=
    match x with
    | PAtom (AStr s) => {[ AStr s ]} ∪ item_set
    | _ => item_set
    end in
  match x with
  | PList l => foldl (fun acc y => {[ y ]} ∪ acc) item_set l
  | _ => item_set
  end.

(** [list(item_set)]: the order is the set's own, so the model fixes none
    beyond what [elements] happens to give. *)
Definition build_lst (items : list pyval) : list atom :=
  elements (foldl build_lst_step ∅ items).

(** ** The outside world *)

(** The runtime exceptions that can escape the script's functions. The
    script holds no [raise] of its own; the only handlers are the
    [except ImportError] of [check_dependencies] and the module-level
    handler around [brew --prefix]. *)
Inductive exn :=
| OSError          (* a subprocess could not be launched *)
| IndexError       (* [x[0]] on an empty string, [y[1]] on a short list *)
| KeyError         (* [env[k]] on a missing key *)
| AttributeError   (* [os.path.basename None] under Python 2 *)
| OtherError.      (* anything else an import may raise *)

Inductive result (A : Type) :=
| Ok (a : A)
| Raise (e : exn).
Arguments Ok {A} a.
Arguments Raise {A} e.

Inductive import_outcome :=
| Imported
| ImportError
| ImportRaises (e : exn).

(** What the script cannot decide by itself, fixed for one run. *)
Record world := {
  py_ver_X : nat;                       (* sys.version_info.major *)
  py_ver_Y : nat;                       (* sys.version_info.minor *)
  platform : string;                    (* sys.platform *)
  homebrew_site_pkgs : option string;   (* module global, set before the gate *)
  (** a subprocess: argv and environment to [None] when the program cannot
      be launched, else its exit status and what it wrote to stdout *)
  spawn : list string → gmap string string → option (Z * string);
  (** [ctypes.util.find_library] *)
  find_library : string → option string;
  (** [import cv2] under the given [sys.path] *)
  import_cv2 : list string → import_outcome
}.

(** Every contact with the outside, in the order it happens. *)
Inductive event :=
| EvSpawn (argv : list string) (env : gmap string string)
| EvFindLibrary (short_name : string)
| EvImport (path : list string).

(** Dictionaries are heap objects, reached through references, so that a
    write through one reference is seen through every alias of it. *)
Record state := {
  heap : gmap nat (gmap string string);
  trace : list event;
  sys_path : list string
}.

(** The reference held by [os.environ]. *)
Definition os_environ : nat := 0%nat.

Definition M (A : Type) : Type := state → result A * state.

Definition ret {A} (a : A) : M A := fun s => (Ok a, s).
Definition raise {A} (e : exn) : M A := fun s => (Raise e, s).
Definition bind {A B} (m : M A) (f : A → M B) : M B :=
  fun s => match m s with
           | (Ok a, s') => f a s'
           | (Raise e, s') => (Raise e, s')
           end.

Notation "'let*' x ':=' m 'in' k" := (bind m (fun x => k))
  (at level 10, x pattern, m at level 100, k at level 200).

Definition log (e : event) : M unit :=
  fun s => (Ok tt, {| heap := heap s; trace := trace s ++ [e]; sys_path := sys_path s |}).

(** [d.copy()]: a fresh object with the same contents. *)
Definition dict_copy (l : nat) : M nat :=
  fun s =>
    let l' := fresh (dom (heap s)) in
    (Ok l', {| heap := <[ l' := default ∅ (heap s !! l) ]> (heap s);
               trace := trace s; sys_path := sys_path s |}).

(** [k in d] *)
Definition dict_mem (l : nat) (k : string) : M bool :=
  fun s => (Ok (bool_decide (is_Some (default ∅ (heap s !! l) !! k))), s).

(** [d[k]] *)
Definition dict_get (l : nat) (k : string) : M string :=
  fun s => match default ∅ (heap s !! l) !! k with
           | Some v => (Ok v, s)
           | None => (Raise KeyError, s)
           end.

(** [d[k] = v]: in place. *)
Definition dict_set (l : nat) (k v : string) : M unit :=
  fun s => (Ok tt, {| heap := <[ l := <[ k := v ]> (default ∅ (heap s !! l)) ]> (heap s);
                      trace := trace s; sys_path := sys_path s |}).

(** The contents a subprocess sees when it is handed the dictionary. *)
Definition dict_read (l : nat) : M (gmap string string) :=
  fun s => (Ok (default ∅ (heap s !! l)), s).

(** [l.insert(i, x)] for [0 <= i]: before position [i], at the end when the
    list is shorter. *)
Definition py_insert {A} (i : nat) (x : A) (l : list A) : list A :=
  take i l ++ x :: drop i l.

Definition sys_path_insert (i : nat) (x : string) : M unit :=
  fun s => (Ok tt, {| heap := heap s; trace := trace s;
                      sys_path := py_insert i x (sys_path s) |}).

Definition get_sys_path : M (list string) := fun s => (Ok (sys_path s), s).

(** ** The effectful functions of the script *)

Section Script.

Variable w : world.

(** Launching a child: [OSError] when the program is not there. *)
Definition launch (argv : list string) (env : nat) : M (Z * string) :=
  let* d := dict_read env in
  let* _ := log (EvSpawn argv d) in
  match spawn w argv d with
  | None => raise OSError
  | Some r => ret r
  end.

(** [subprocess.call(argv, ...)]: the exit status. *)
Definition subprocess_call (argv : list string) (env : nat) : M Z :=
  let* r := launch argv env in ret (fst r).

(** [subprocess.Popen(argv, stdout=PIPE, ...).stdout.read()] *)
Definition popen_read (argv : list string) (env : nat) : M string :=
  let* r := launch argv env in ret (snd r).

Definition local_pkg_config_paths : string :=
  "/usr/local/lib/pkgconfig:" +:+ "/usr/local/pkgconfig:" +:+ "/usr/share/pkgconfig".

Definition get_extra_envs : M nat :=
  let* env := dict_copy os_environ in
  let* present := dict_mem env "PKG_CONFIG_PATH" in
  if present then
    let* pkg_config_path := dict_get env "PKG_CONFIG_PATH" in
    let pkg_config_path := pkg_config_path +:+ ":" +:+ local_pkg_config_paths in
    let* _ := dict_set env "PKG_CONFIG_PATH" pkg_config_path in
    ret env
  else
    let* _ := dict_set env "PKG_CONFIG_PATH" local_pkg_config_paths in
    ret env.

Definition have_command (name : string) : M bool :=
  let* proc := subprocess_call ["which"; name] os_environ in
  ret (proc =? 0).

(** [not res] for [res] a string or [None]. *)
Definition falsy (res : option string) : bool :=
  match res with
  | None => true
  | Some s => PyStr.eqb s ""
  end.

Definition call_find_library (short_name : string) : M (option string) :=
  let* _ := log (EvFindLibrary short_name) in
  ret (find_library w short_name).

Definition have_library (name : string) : M bool :=
  let short_name := get_lib_short_name name in
  let* res := call_find_library short_name in
  if falsy res then
    let* env := get_extra_envs in
    let* proc := subprocess_call ["pkg-config"; "--exists"; name] env in
    ret (proc =? 0)
  else
    ret true.

Definition have_library_object_file (libname name : string) : M bool :=
  let* found := have_library libname in
  if found then
    let call := ["pkg-config"; "--libs"; libname] in
    let* env := get_extra_envs in
    let* res := popen_read call env in
    let res := PyStr.strip res in
    let res := PyStr.split res " " in
    let res := map get_lib_short_name res in
    ret (bool_decide (get_lib_short_name name ∈ res))
  else
    ret false.

(** [x[0]] on a string *)
Definition head_char (x : string) : result ascii :=
  match x with
  | EmptyString => Raise IndexError
  | String c _ => Ok c
  end.

(** The [for] loop of [pkg_config_res]; [lst] is the list being appended to. *)
Fixpoint pkg_config_res_loop (res lst : list string) : result (list string) :=
  match res with
  | [] => Ok lst
  | x :: rest =>
      if PyStr.eqb x "" then pkg_config_res_loop rest lst
      else
        let x := PyStr.strip x in
        match head_char x with
        | Raise e => Raise e
        | Ok c =>
            let x := if Ascii.eqb c "-" then PyStr.drop 1 x else x in
            match head_char x with
            | Raise e => Raise e
            | Ok c =>
                if PyStr.contains "lLI" (String c EmptyString)
                then pkg_config_res_loop rest (lst ++ [PyStr.drop 1 x])
                else pkg_config_res_loop rest (lst ++ [get_lib_short_name x])
            end
        end
  end.

Definition lift {A} (r : result A) : M A := fun s => (r, s).

Definition pkg_config_res (opts : list string) : M (list string) :=
  let call := ["pkg-config"] ++ opts in
  let* env := get_extra_envs in
  let* res := popen_read call env in
  let res := PyStr.strip res in
  let res := PyStr.split res " " in
  lift (pkg_config_res_loop res []).

(** The scan of [get_lib_installed_path] over the pieces of the listing. *)
Fixpoint installed_path_scan (libname : string) (res : list string)
  : result (option string) :=
  match res with
  | [] => Ok None
  | x :: rest =>
      if PyStr.startswith x libname then
        let y := PyStr.split x "=>" in
        match y !! 1%nat with
        | Some p => Ok (Some (PyStr.strip p))
        | None => Raise IndexError
        end
      else installed_path_scan libname rest
  end.

Definition newline_tab : string := String "010" (String "009" EmptyString).

(** [subprocess.Popen(argv, stdout=PIPE, universal_newlines=True).stdout.read()] *)
Definition popen_read_text (argv : list string) (env : nat) : M string :=
  let* res := popen_read argv env in
  ret (PyStr.universal_newlines res).

Definition get_lib_installed_path (libname : string) : M (option string) :=
  let call := ["ldconfig"; "-p"] in
  let* res := popen_read_text call os_environ in
  if negb (PyStr.contains res libname) then ret None
  else
    let res := PyStr.split res newline_tab in
    lift (installed_path_scan libname res).

(** [os.path.basename] applied to a value that may be [None]. *)
Definition os_path_basename (p : option string) : M string :=
  match p with
  | Some p => ret (PyStr.basename p)
  | None => raise AttributeError
  end.

Definition get_lib_filename_namespec (libname : string) : M string :=
  let* p := get_lib_installed_path libname in
  let* b := os_path_basename p in
  ret (":" +:+ b).

(** A [for] loop whose body may [return]: [Some r] is the returned value,
    [None] means the loop ran to its end. *)
Fixpoint for_each {A R} (l : list A) (body : A → M (option R)) : M (option R) :=
  match l with
  | [] => ret None
  | x :: rest =>
      let* r := body x in
      match r with
      | Some v => ret (Some v)
      | None => for_each rest body
      end
  end.

Definition py_ver : string :=
  PyStr.of_nat (py_ver_X w) +:+ "." +:+ PyStr.of_nat (py_ver_Y w).

Definition required_tools : list string :=
  ["pkg-config"]
  ++ (if PyStr.startswith (platform w) "linux" then ["ldconfig"] else [])
  ++ ["python" +:+ py_ver +:+ "-config"].

Definition required_libraries : list string :=
  ["opencv"; "avformat"; "avcodec"; "avutil"; "OpenCL"].

Definition required_object_files : list (string * string) :=
  [("opencv", "libopencv_ocl.so");
   ("opencv", "libopencv_core.so");
   ("opencv", "libopencv_imgproc.so")].

Definition try_import_cv2 : M (option (bool * option string)) :=
  let* path := get_sys_path in
  let* _ := log (EvImport path) in
  match import_cv2 w path with
  | Imported => ret None
  | ImportError =>
      ret (Some (false, Some "opencv built with BUILD_opencv_python=ON required"))
  | ImportRaises e => raise e
  end.

Definition check_dependencies : M (bool * option string) :=
  if negb (py_ver_X w =? 2)%nat then
    ret (false, Some ("Python " +:+ py_ver +:+ " is not version 2.x"))
  else
  let* r := for_each required_tools (fun x =>
    let* ok := have_command x in
    if negb ok
    then ret (Some (false, Some (x +:+ " is needed to complete the build process")))
    else ret None) in
  match r with Some v => ret v | None =>
  let* r := for_each required_libraries (fun x =>
    let* ok := have_library x in
    if negb ok
    then ret (Some (false,
           Some (x +:+ " library is needed to complete the build process")))
    else ret None) in
  match r with Some v => ret v | None =>
  let* r := for_each required_object_files (fun '(x, y) =>
    let* ok := have_library_object_file x y in
    if negb ok
    then ret (Some (false,
           Some (x +:+ " library is missing object file " +:+ y)))
    else ret None) in
  match r with Some v => ret v | None =>
  let local_site_pkgs := "/usr/local/lib/python" +:+ py_ver +:+ "/site-packages" in
  let local_dist_pkgs := "/usr/local/lib/python" +:+ py_ver +:+ "/dist-packages" in
  let systm_site_pkgs := "/usr/lib/python" +:+ py_ver +:+ "/site-packages" in
  let systm_dist_pkgs := "/usr/lib/python" +:+ py_ver +:+ "/dist-packages" in
  let* _ := sys_path_insert 1 local_site_pkgs in
  let* _ := sys_path_insert 2 local_dist_pkgs in
  let* _ := sys_path_insert 3 systm_site_pkgs in
  let* _ := sys_path_insert 4 systm_dist_pkgs in
  let* _ := match homebrew_site_pkgs w with
            | Some h => sys_path_insert 1 h
            | None => ret tt
            end in
  let* r := try_import_cv2 in
  match r with Some v => ret v | None =>
  ret (true, None)
  end end end end.

End Script.

(** ** Definitions used to state the properties *)

(** No character of [s] is a slash. *)
Fixpoint slash_free (s : string) : bool :=
  match s with
  | EmptyString => true
  | String c s' => negb (Ascii.eqb c "/") && slash_free s'
  end.

(** Follows the spec's words for NameNormalizer: "strip leading [-l];
    strip leading [lib]; truncate at first match of [.so]/[.dylib]/[.a]". *)
Definition strip_leading (p s : string) : string :=
  if PyStr.startswith s p then PyStr.drop (String.length p) s else s.

Fixpoint truncate_at_first_match (pats : list string) (s : string) : string :=
  if existsb (PyStr.startswith s) pats then EmptyString
  else match s with
       | EmptyString => EmptyString
       | String c s' => String c (truncate_at_first_match pats s')
       end.

Definition spec_normalize (raw : string) : string :=
  truncate_at_first_match [".so"; ".dylib"; ".a"]
    (strip_leading "lib" (strip_leading "-l" raw)).

(** A canonical name that one more pass leaves alone: nothing to trim at
    either end and neither marker in front. *)
Definition settled (n : string) : Prop :=
  PyStr.strip n = n ∧ PyStr.startswith n "-l" = false ∧ PyStr.startswith n "lib" = false.

(** The three [chop_at] calls of [get_lib_short_name] in a row. *)
Definition chop_suffixes (s : string) : string :=
  chop_at (chop_at (chop_at s ".so") ".dylib") ".a".

(** [sep.join(l)] *)
Fixpoint join_with (sep : string) (l : list string) : string :=
  match l with
  | [] => EmptyString
  | [x] => x
  | x :: rest => x +:+ sep +:+ join_with sep rest
  end.

(** Follows the spec's words for EnvironmentAugmenter: the three fixed local
    package-config search directories, appended to the existing value of
    the search-path variable, joined with the path separator. *)
Definition local_pkg_config_dirs : list string :=
  ["/usr/local/lib/pkgconfig"; "/usr/local/pkgconfig"; "/usr/share/pkgconfig"].

Definition spec_augmented (e : gmap string string) : gmap string string :=
  <[ "PKG_CONFIG_PATH" :=
       join_with ":" (option_list (e !! "PKG_CONFIG_PATH") ++ local_pkg_config_dirs) ]> e.

(** The state after an action that allocated one dictionary and did nothing
    else. *)
Definition with_dict (s : state) (l : nat) (d : gmap string string) : state :=
  {| heap := <[ l := d ]> (heap s); trace := trace s; sys_path := sys_path s |}.

Definition with_events (s : state) (evs : list event) : state :=
  {| heap := heap s; trace := trace s ++ evs; sys_path := sys_path s |}.

(** The state a resolver call ends in: one more dictionary when
    [pkg-config] was asked, and the contacts added to the trace. *)
Definition after_probe (s : state) (asked : bool) (e : gmap string string)
    (evs : list event) : state :=
  if asked
  then with_events (with_dict s (fresh (dom (heap s))) (spec_augmented e)) evs
  else with_events s evs.

(** The contents of [os.environ] in a state. *)
Definition ambient (s : state) : gmap string string :=
  default ∅ (heap s !! os_environ).

(** The errors [get_lib_filename_namespec] is documented to fail with: its
    docstring describes the returned namespec and nothing else, and the
    script holds no [raise]. *)
Definition namespec_documented_errors : list exn := [].

(** *** Probes as pure functions of the world

    What a probe answers and which contacts it makes, given the contents [e]
    of [os.environ]. *)

Definition probe_spawn (w : world) (argv : list string) (d : gmap string string)
  : result (Z * string) * list event :=
  (match spawn w argv d with None => Raise OSError | Some r => Ok r end,
   [EvSpawn argv d]).

Definition probe_command (w : world) (e : gmap string string) (name : string)
  : result bool * list event :=
  match probe_spawn w ["which"; name] e with
  | (Ok r, evs) => (Ok (fst r =? 0), evs)
  | (Raise x, evs) => (Raise x, evs)
  end.

Definition probe_library (w : world) (e : gmap string string) (name : string)
  : result bool * list event :=
  let short_name := get_lib_short_name name in
  if falsy (find_library w short_name) then
    match probe_spawn w ["pkg-config"; "--exists"; name] (spec_augmented e) with
    | (Ok r, evs) => (Ok (fst r =? 0), EvFindLibrary short_name :: evs)
    | (Raise x, evs) => (Raise x, EvFindLibrary short_name :: evs)
    end
  else (Ok true, [EvFindLibrary short_name]).

(** The pieces [have_library_object_file] compares against. *)
Definition object_file_pieces (out : string) : list string :=
  map get_lib_short_name (PyStr.split (PyStr.strip out) " ").

Definition probe_object_file (w : world) (e : gmap string string)
    (libname name : string) : result bool * list event :=
  match probe_library w e libname with
  | (Ok true, evs) =>
      match probe_spawn w ["pkg-config"; "--libs"; libname] (spec_augmented e) with
      | (Ok r, evs') =>
          (Ok (bool_decide (get_lib_short_name name ∈ object_file_pieces (snd r))),
           evs ++ evs')
      | (Raise x, evs') => (Raise x, evs ++ evs')
      end
  | (Ok false, evs) => (Ok false, evs)
  | (Raise x, evs) => (Raise x, evs)
  end.


(** An action that leaves [os.environ] and [sys.path] alone, answers [r],
    makes the contacts [evs] and ends in [s']. *)
Definition steps {A} (m : M A) (s : state) (r : result A) (evs : list event)
    (s' : state) : Prop :=
  m s = (r, s')
  ∧ heap s' !! os_environ = heap s !! os_environ
  ∧ trace s' = trace s ++ evs
  ∧ sys_path s' = sys_path s.

(** *** Concrete worlds and states, for the examples *)

Definition env_plain : gmap string string := {[ "PATH" := "/usr/bin:/bin" ]}.

Definition env_with_search_path : gmap string string :=
  <[ "PKG_CONFIG_PATH" := "/opt/lib/pkgconfig" ]> env_plain.

Definition state_start (e : gmap string string) : state :=
  {| heap := {[ os_environ := e ]};
     trace := [];
     sys_path := [""; "/usr/lib/python2.7"] |}.

Definition newline : string := String "010" EmptyString.
Definition tab : string := String "009" EmptyString.

(** A machine on which no program at all can be started. *)
Definition world_bare : world :=
  {| py_ver_X := 2; py_ver_Y := 7; platform := "linux2";
     homebrew_site_pkgs := None;
     spawn := fun _ _ => None;
     find_library := fun _ => None;
     import_cv2 := fun _ => ImportError |}.

(** What [ldconfig -p] prints on a machine without OpenCL. *)
Definition listing_without_opencl : string :=
  "2 libs found in cache `/etc/ld.so.cache'" +:+ newline_tab +:+
  "libz.so.1 (libc6,x86-64) => /lib/x86_64-linux-gnu/libz.so.1" +:+ newline_tab +:+
  "libavutil.so.54 (libc6,x86-64) => /usr/lib/x86_64-linux-gnu/libavutil.so.54" +:+ newline.

Definition listing_with_opencl : string :=
  "2 libs found in cache `/etc/ld.so.cache'" +:+ newline_tab +:+
  "libz.so.1 (libc6,x86-64) => /lib/x86_64-linux-gnu/libz.so.1" +:+ newline_tab +:+
  "libOpenCL.so.1 (libc6,x86-64) => /usr/lib/x86_64-linux-gnu/libOpenCL.so.1" +:+ newline.

(** A Linux machine with the tools but none of the libraries: [which]
    finds everything, [pkg-config] knows no package. *)
Definition world_no_libraries : world :=
  {| py_ver_X := 2; py_ver_Y := 7; platform := "linux2";
     homebrew_site_pkgs := None;
     spawn := fun argv _ =>
       match argv with
       | ["which"; _] => Some (0, EmptyString)
       | ["ldconfig"; "-p"] => Some (0, listing_without_opencl)
       | "pkg-config" :: _ => Some (1, EmptyString)
       | _ => None
       end;
     find_library := fun _ => None;
     import_cv2 := fun _ => ImportError |}.

(** A Linux machine with everything the gate asks for; [pkg-config --libs]
    prints [libs_out] for every package. *)
Definition world_complete (libs_out : string) : world :=
  {| py_ver_X := 2; py_ver_Y := 7; platform := "linux2";
     homebrew_site_pkgs := None;
     spawn := fun argv _ =>
       match argv with
       | ["which"; _] => Some (0, EmptyString)
       | ["ldconfig"; "-p"] => Some (0, listing_with_opencl)
       | ["pkg-config"; "--exists"; _] => Some (0, EmptyString)
       | ["pkg-config"; "--libs"; _] => Some (0, libs_out)
       | ["pkg-config"; "--cflags"; _] =>
           Some (0, "-I/usr/include/foo -DFOO" +:+ newline)
       | _ => None
       end;
     find_library := fun _ => None;
     import_cv2 := fun _ => Imported |}.

Definition opencv_libs_out : string :=
  "-L/usr/lib/x86_64-linux-gnu -lopencv_core -lopencv_ocl -lopencv_imgproc" +:+ newline.

(** The same machine under Python 3. *)
Definition world_python3 : world :=
  {| py_ver_X := 3; py_ver_Y := 4; platform := "linux2";
     homebrew_site_pkgs := None;
     spawn := spawn (world_complete opencv_libs_out);
     find_library := fun _ => None;
     import_cv2 := fun _ => Imported |}.

(** *** PkgConfigQuery *)

(** The kinds of FlagToken the spec names. *)
Inductive flag_kind :=
| LibraryName
| LibraryDir
| IncludeDir
| Other.

(** One leading dash off, when there is one. *)
Definition strip_one_dash (x : string) : string :=
  match x with
  | EmptyString => EmptyString
  | String c r => if Ascii.eqb c "-" then r else x
  end.

(** The kind, by the first character of what is left. *)
Definition classify (x : string) : flag_kind :=
  match x with
  | EmptyString => Other
  | String c _ =>
      if Ascii.eqb c "l" then LibraryName
      else if Ascii.eqb c "L" then LibraryDir
      else if Ascii.eqb c "I" then IncludeDir
      else Other
  end.


(** What the code keeps for one piece of the output. *)
Definition flag_value (t : string) : string :=
  let x := strip_one_dash (PyStr.strip t) in
  match classify x with
  | Other => get_lib_short_name x
  | _ => PyStr.drop 1 x
  end.

(** A piece the loop can index: something is left of it after trimming
    and taking the dash off. *)
Definition indexable (t : string) : Prop :=
  strip_one_dash (PyStr.strip t) ≠ EmptyString.

(** The pieces [pkg_config_res] walks over. *)
Definition output_pieces (out : string) : list string :=
  PyStr.split (PyStr.strip out) " ".

(** *** DependencyGate *)

(** The requirements of the gate. *)
Inductive requirement :=
| ReqVersion                          (* the major version of the runtime *)
| ReqTool (x : string)                (* an external tool *)
| ReqLibrary (x : string)             (* a shared library *)
| ReqObjectFile (x y : string)        (* an object file inside a library *)
| ReqImport.                          (* the binding module *)

(** The documented order: version, tools, libraries, object files, import. *)
Definition documented_order (w : world) : list requirement :=
  [ReqVersion]
  ++ map ReqTool (required_tools w)
  ++ map ReqLibrary required_libraries
  ++ map (fun p => ReqObjectFile (fst p) (snd p)) required_object_files
  ++ [ReqImport].

(** [sys.path] as the import step sees it. *)
Definition gate_sys_path (w : world) (path : list string) : list string :=
  let path := py_insert 1 ("/usr/local/lib/python" +:+ py_ver w +:+ "/site-packages") path in
  let path := py_insert 2 ("/usr/local/lib/python" +:+ py_ver w +:+ "/dist-packages") path in
  let path := py_insert 3 ("/usr/lib/python" +:+ py_ver w +:+ "/site-packages") path in
  let path := py_insert 4 ("/usr/lib/python" +:+ py_ver w +:+ "/dist-packages") path in
  match homebrew_site_pkgs w with
  | Some h => py_insert 1 h path
  | None => path
  end.

(** Whether one requirement holds, and the contacts made to find out. *)
Definition eval_requirement (w : world) (e : gmap string string)
    (path : list string) (r : requirement) : result bool * list event :=
  match r with
  | ReqVersion => (Ok (py_ver_X w =? 2)%nat, [])
  | ReqTool x => probe_command w e x
  | ReqLibrary x => probe_library w e x
  | ReqObjectFile x y => probe_object_file w e x y
  | ReqImport =>
      (match import_cv2 w (gate_sys_path w path) with
       | Imported => Ok true
       | ImportError => Ok false
       | ImportRaises x => Raise x
       end, [EvImport (gate_sys_path w path)])
  end.

(** The diagnostic of a failed requirement. *)
Definition failure_message (w : world) (r : requirement) : string :=
  match r with
  | ReqVersion => "Python " +:+ py_ver w +:+ " is not version 2.x"
  | ReqTool x => x +:+ " is needed to complete the build process"
  | ReqLibrary x => x +:+ " library is needed to complete the build process"
  | ReqObjectFile x y => x +:+ " library is missing object file " +:+ y
  | ReqImport => "opencv built with BUILD_opencv_python=ON required"
  end.

(** A gate over a list of requirements: evaluate them in order and stop at
    the first that does not hold. *)
Fixpoint gate_spec (w : world) (e : gmap string string) (path : list string)
    (reqs : list requirement) : result (bool * option string) * list event :=
  match reqs with
  | [] => (Ok (true, None), [])
  | r :: rest =>
      match eval_requirement w e path r with
      | (Ok true, evs) =>
          (fst (gate_spec w e path rest), evs ++ snd (gate_spec w e path rest))
      | (Ok false, evs) => (Ok (false, Some (failure_message w r)), evs)
      | (Raise x, evs) => (Raise x, evs)
      end
  end.

(** What a loop of the gate hands on: [None] when it ran to its end. *)
Definition loop_result (r : result (bool * option string))
  : result (option (bool * option string)) :=
  match r with
  | Ok (true, _) => Ok None
  | Ok v => Ok (Some v)
  | Raise x => Raise x
  end.

(** The contacts made for a list of requirements, all of them evaluated. *)
Definition contacts (w : world) (e : gmap string string) (path : list string)
    (reqs : list requirement) : list event :=
  concat (map (fun r => snd (eval_requirement w e path r)) reqs).

(** ** More of the script *)

(** [brew_pkg_installed] *)
Definition brew_pkg_installed (w : world) (pkg : string) : M bool :=
  let* found := have_command w "brew" in
  if found then
    let* env := get_extra_envs in
    let* brew_ls := popen_read w ["brew"; "ls"; "--versions"; pkg] env in
    let brew_ls := PyStr.strip brew_ls in
    ret (negb (PyStr.eqb brew_ls ""))
  else
    ret false.

(** A piece of [pkg-config] output on which the loop of [pkg_config_res]
    indexes an empty string: only whitespace, or a dash alone. *)
Definition unindexable (t : string) : Prop :=
  t ≠ "" ∧ (PyStr.strip t = "" ∨ PyStr.strip t = "-").

(** The requirements in front of the import. *)
Definition requirements_before_import (w : world) : list requirement :=
  [ReqVersion]
  ++ map ReqTool (required_tools w)
  ++ map ReqLibrary required_libraries
  ++ map (fun p => ReqObjectFile (fst p) (snd p)) required_object_files.

(** A machine without Homebrew, and one with Homebrew and a brewed OpenCV. *)
Definition world_without_brew : world :=
  {| py_ver_X := 2; py_ver_Y := 7; platform := "darwin";
     homebrew_site_pkgs := None;
     spawn := fun argv _ =>
       match argv with
       | ["which"; "brew"] => Some (1, EmptyString)
       | ["which"; _] => Some (0, EmptyString)
       | _ => None
       end;
     find_library := fun _ => None;
     import_cv2 := fun _ => ImportError |}.

Definition world_with_brew : world :=
  {| py_ver_X := 2; py_ver_Y := 7; platform := "darwin";
     homebrew_site_pkgs := Some "/usr/local/lib/python2.7/site-packages/";
     spawn := fun argv _ =>
       match argv with
       | ["which"; _] => Some (0, "/usr/local/bin/brew" +:+ newline)
       | ["brew"; "ls"; "--versions"; "opencv"] => Some (0, "opencv 2.4.9" +:+ newline)
       | ["brew"; "ls"; "--versions"; _] => Some (1, EmptyString)
       | _ => None
       end;
     find_library := fun _ => None;
     import_cv2 := fun _ => ImportError |}.

Definition carriage_return : string := String "013" EmptyString.

(** A linker-cache listing whose lines end in a carriage return, or in a
    carriage return and a line feed. *)
Definition listing_with_carriage_returns : string :=
  "1 libs found in cache `/etc/ld.so.cache'" +:+ carriage_return +:+ tab +:+
  "libfoo.so.1 (libc6,x86-64) => /opt/libfoo.so.1" +:+ carriage_return +:+ newline.

(** A machine on which the library search knows [opencv_core] under that
    name alone and answers the empty string for [z], and on which
    [pkg-config] starts only when its search path is the augmented one and
    then knows one package, under the name [libavcodec.so]. *)
Definition world_resolver : world :=
  {| py_ver_X := 2; py_ver_Y := 7; platform := "linux2";
     homebrew_site_pkgs := None;
     spawn := fun argv env =>
       match argv with
       | ["pkg-config"; "--exists"; name] =>
           if bool_decide (env !! "PKG_CONFIG_PATH"
                           = Some "/usr/local/lib/pkgconfig:/usr/local/pkgconfig:/usr/share/pkgconfig")
           then Some (if PyStr.eqb name "libavcodec.so" then 0 else 1, EmptyString)
           else None
       | _ => None
       end;
     find_library := fun n =>
       if PyStr.eqb n "opencv_core" then Some "libopencv_core.so.2.4"
       else if PyStr.eqb n "z" then Some EmptyString
       else None;
     import_cv2 := fun _ => ImportError |}.

Definition world_carriage_returns : world :=
  {| py_ver_X := 2; py_ver_Y := 7; platform := "linux2";
     homebrew_site_pkgs := None;
     spawn := fun argv _ =>
       match argv with
       | ["ldconfig"; "-p"] => Some (0, listing_with_carriage_returns)
       | _ => None
       end;
     find_library := fun _ => None;
     import_cv2 := fun _ => ImportError |}.

(** ** The module-level code of the script

    The statements outside any [def], in their order: the Homebrew prefix
    (lines 208-224), the flags and the first [Extension] (275-327), the
    OpenCV and OpenCL part and the second [Extension] (329-375), the gate
    (377-380). *)

Module PyPath.

Fixpoint ends_with_slash (s : string) : bool :=
  match s with
  | EmptyString => false
  | String c EmptyString => Ascii.eqb c "/"
  | String _ s' => ends_with_slash s'
  end.

(** One turn of the loop of [posixpath.join]. *)
Definition join_step (path b : string) : string :=
  if PyStr.startswith b "/" then b
  else if PyStr.eqb path "" || ends_with_slash path then path +:+ b
  else path +:+ "/" +:+ b.

(** [os.path.join(a, *p)] *)
Definition join (a : string) (p : list string) : string :=
  foldl join_step a p.

(** [head.rstrip('/')] *)
Fixpoint rstrip_slashes (s : string) : string :=
  match s with
  | EmptyString => EmptyString
  | String c s' =>
      match rstrip_slashes s' with
      | EmptyString => if Ascii.eqb c "/" then EmptyString else String c EmptyString
      | r => String c r
      end
  end.

(** [head != '/' * len(head)] fails exactly when [head] is slashes only. *)
Fixpoint only_slashes (s : string) : bool :=
  match s with
  | EmptyString => true
  | String c s' => Ascii.eqb c "/" && only_slashes s'
  end.

(** [posixpath.dirname]: [i = p.rfind('/') + 1; head = p[:i]], then the
    trailing slashes off unless [head] is empty or slashes only. *)
Definition dirname (p : string) : string :=
  let i := Z.to_nat (PyStr.rfind_slash p + 1) in
  let head := PyStr.take i p in
  if negb (PyStr.eqb head "") && negb (only_slashes head)
  then rstrip_slashes head
  else head.

End PyPath.

(** The three list objects of the module that are changed in place after
    they are made. An [Extension] that is given one of them is given the
    object, not its contents at the time. *)
Inductive listref :=
| Linkflags
| Includes
| Ldflags.

Record lists := {
  linkflags : list string;
  includes : list string;
  ldflags : list string
}.

Definition deref (st : lists) (r : listref) : list string :=
  match r with
  | Linkflags => linkflags st
  | Includes => includes st
  | Ldflags => ldflags st
  end.

(** [l.extend(xs)], and [l.append(x)] as [extend] with one element. *)
Definition list_extend (st : lists) (r : listref) (xs : list string) : lists :=
  match r with
  | Linkflags => {| linkflags := linkflags st ++ xs; includes := includes st;
                    ldflags := ldflags st |}
  | Includes => {| linkflags := linkflags st; includes := includes st ++ xs;
                   ldflags := ldflags st |}
  | Ldflags => {| linkflags := linkflags st; includes := includes st;
                  ldflags := ldflags st ++ xs |}
  end.

Definition list_append (st : lists) (r : listref) (x : string) : lists :=
  list_extend st r [x].

(** A list argument of [Extension]: one of the shared objects, or a list
    made for this call. *)
Inductive list_arg :=
| Shared (r : listref)
| Own (l : list atom).

(** The keyword arguments of an [Extension] call. *)
Record extension := {
  ext_name : string;
  extra_compile_args : list string;
  extra_link_args : listref;
  include_dirs : list atom;
  libraries : list atom;
  library_dirs : list_arg;
  sources : list string;
  depends : list string;
  language : string
}.

(** How the module ends: [print(error); exit(1)], or the call of [setup]
    with the two extensions and the list objects as they are by then. *)
Inductive outcome :=
| Exit1 (printed : option string)
| Setup (py_libav_info py_motion : extension) (st : lists).

Definition as_list (l : list string) : pyval := PList (map AStr l).
Definition as_str (s : string) : pyval := PAtom (AStr s).
Definition none : pyval := PAtom ANone.

(** The world with the module global [homebrew_site_pkgs] set. *)
Definition with_homebrew_site_pkgs (w : world) (h : option string) : world :=
  {| py_ver_X := py_ver_X w; py_ver_Y := py_ver_Y w; platform := platform w;
     homebrew_site_pkgs := h;
     spawn := spawn w; find_library := find_library w; import_cv2 := import_cv2 w |}.

(** [try: m except Exception: h] *)
Definition try_except {A} (m : M A) (h : M A) : M A :=
  fun s => match m s with
           | (Ok a, s') => (Ok a, s')
           | (Raise _, s') => h s'
           end.

(** Lines 211-221: the prefix from [brew --prefix], or from the environment
    when [brew] cannot be run, or [None]. *)
Definition find_homebrew_prefix (w : world) : M (option string) :=
  try_except
    (let* env := get_extra_envs in
     let* out := popen_read w ["brew"; "--prefix"] env in
     ret (Some (PyStr.strip out)))
    (let* present := dict_mem os_environ "HOMEBREW_PREFIX" in
     if present then
       let* v := dict_get os_environ "HOMEBREW_PREFIX" in ret (Some v)
     else ret None).

(** Lines 222-224. *)
Definition site_pkgs_of_prefix (w : world) (homebrew_prefix : option string)
  : option string :=
  match homebrew_prefix with
  | Some p => Some (PyPath.join p ["lib/python" +:+ py_ver w +:+ "/site-packages/"])
  | None => None
  end.

Definition is_linux (w : world) : bool := PyStr.startswith (platform w) "linux".
Definition is_darwin (w : world) : bool := PyStr.startswith (platform w) "darwin".

Definition initial_lists : lists :=
  {| linkflags := [];
     includes := ["/usr/include"; "/usr/local/include"];
     ldflags := ["/usr/lib"; "/usr/local/lib"] |}.

(** Lines 282-311: the Python prefix and the platform branch in front of
    the first [Extension]. Returns [py_includes], [py_libs] and the lists. *)
Definition python_flags (w : world) (homebrew_prefix : option string)
  : M (pyval * pyval * lists) :=
  let st := initial_lists in
  let* env := get_extra_envs in
  let* py_prefix := popen_read w ["python" +:+ py_ver w +:+ "-config"; "--prefix"] env in
  let py_prefix := PyStr.strip py_prefix in
  if is_linux w then
    let* py_includes := pkg_config_res w ["--cflags"; "python-" +:+ py_ver w] in
    let* py_libs := pkg_config_res w ["--libs"; "python-" +:+ py_ver w] in
    let st := list_extend st Linkflags ["-shared"; "-Wl,--export-dynamic"] in
    ret (as_list py_includes, as_list py_libs, st)
  else if is_darwin w then
    let st := list_extend st Linkflags ["-arch"; "x86_64"] in
    let st :=
      match homebrew_prefix with
      | Some hp =>
          let st := list_append st Includes (PyPath.join hp ["include"]) in
          list_append st Ldflags (PyPath.join hp ["lib"])
      | None => st
      end in
    let st := list_append st Ldflags (PyPath.join py_prefix ["lib"]) in
    let py_includes := PyPath.join py_prefix ["include"; "python" +:+ py_ver w] in
    let st := list_append st Linkflags
                (PyPath.join py_prefix ["lib/libpython" +:+ py_ver w +:+ ".dylib"]) in
    ret (as_str py_includes, none, st)
  else
    ret (none, none, st).

(** [os.path.dirname] applied to a value that may be [None]. *)
Definition os_path_dirname (p : option string) : M string :=
  match p with
  | Some p => ret (PyPath.dirname p)
  | None => raise AttributeError
  end.

(** Lines 330-352: the OpenCV include flags and the platform branch in
    front of the second [Extension]. Returns [cv_includes], [cl_ldflag],
    [cl_lib] and the lists. *)
Definition opencl_flags (w : world) (homebrew_prefix : option string) (st : lists)
  : M (list string * pyval * pyval * lists) :=
  let* cv_includes := pkg_config_res w ["--cflags"; "opencv"] in
  if is_linux w then
    let* p := get_lib_installed_path w "libOpenCL" in
    let* cl_ldflag := os_path_dirname p in
    let* cl_lib := get_lib_filename_namespec w "libOpenCL" in
    ret (cv_includes, as_str cl_ldflag, as_str cl_lib, st)
  else if is_darwin w then
    let st :=
      match site_pkgs_of_prefix w homebrew_prefix with
      | Some hsp => list_append st Includes (PyPath.join hsp ["numpy/core/include"])
      | None =>
          list_append st Includes
            ("/System/Library/Frameworks/" +:+ "Python.framework/Versions/"
             +:+ py_ver w +:+ "/Extras/lib/" +:+ "python/numpy/core/include")
      end in
    let st := list_extend st Linkflags ["-framework"; "OpenCL"] in
    ret (cv_includes, none, none, st)
  else
    ret (cv_includes, none, none, st).

Section Module.

Variable w : world.
(** [ROOT_PATH], the directory of the script. *)
Variable root_path : string.

Definition B_MEDIA : string := PyPath.join root_path ["butterflow"; "media"].
Definition B_MOTION : string := PyPath.join root_path ["butterflow"; "motion"].
Definition B_VENDOR : string := PyPath.join root_path ["butterflow"; "3rdparty"].

Definition libav_libs : list string := ["avcodec"; "avformat"; "avutil"].
Definition cv_libs : list string := ["opencv_core"; "opencv_ocl"; "opencv_imgproc"].

Definition make_py_libav_info (py_includes py_libs : pyval) (st : lists) : extension :=
  {| ext_name := "butterflow.media.py_libav_info";
     extra_compile_args := ["-g"; "-Wall"];
     extra_link_args := Linkflags;
     include_dirs := build_lst [as_str B_MEDIA; as_list (includes st); py_includes];
     libraries := build_lst [as_list libav_libs; py_libs];
     library_dirs := Shared Ldflags;
     sources := [PyPath.join B_MEDIA ["py_libav_info.c"]];
     depends := [PyPath.join B_MEDIA ["py_libav_info.h"]];
     language := "c" |}.

Definition make_py_motion (py_includes py_libs : pyval) (cv_includes : list string)
    (cl_ldflag cl_lib : pyval) (st : lists) : extension :=
  {| ext_name := "butterflow.motion.py_motion";
     extra_compile_args := ["-g"; "-Wall"; "-std=c++11"];
     extra_link_args := Linkflags;
     include_dirs := build_lst [as_str B_VENDOR; as_str B_MOTION; as_list (includes st);
                                as_list cv_includes; py_includes];
     libraries := build_lst [as_list cv_libs; py_libs; cl_lib];
     library_dirs := Own (build_lst [as_list (ldflags st); cl_ldflag]);
     sources := [PyPath.join B_VENDOR ["opencv-ndarray-conversion"; "conversion.cpp"];
                 PyPath.join B_MOTION ["ocl_interpolate.cpp"];
                 PyPath.join B_MOTION ["ocl_optical_flow.cpp"];
                 PyPath.join B_MOTION ["py_motion.cpp"]];
     depends := [PyPath.join B_VENDOR ["opencv-ndarray-conversion"; "conversion.h"];
                 PyPath.join B_MOTION ["ocl_interpolate.h"];
                 PyPath.join B_MOTION ["ocl_optical_flow.h"];
                 PyPath.join B_MOTION ["py_motion.h"]];
     language := "c++" |}.

(** Everything in front of the call of [check_dependencies]. *)
Definition assemble : M (option string * extension * extension * lists) :=
  let* homebrew_prefix := find_homebrew_prefix w in
  let* (py_includes, py_libs, st) := python_flags w homebrew_prefix in
  let py_libav_info := make_py_libav_info py_includes py_libs st in
  let* (cv_includes, cl_ldflag, cl_lib, st) := opencl_flags w homebrew_prefix st in
  let py_motion := make_py_motion py_includes py_libs cv_includes cl_ldflag cl_lib st in
  ret (homebrew_prefix, py_libav_info, py_motion, st).

(** The module, from its first statement to the call of [setup]. *)
Definition script : M outcome :=
  let* (homebrew_prefix, py_libav_info, py_motion, st) := assemble in
  let w' := with_homebrew_site_pkgs w (site_pkgs_of_prefix w homebrew_prefix) in
  let* (ok, error) := check_dependencies w' in
  if negb ok then ret (Exit1 error)
  else ret (Setup py_libav_info py_motion st).

End Module.

(** A contact made while the flags are assembled: a subprocess other than
    [which]. The gate opens with [which], and only the gate searches for a
    library or imports. *)
Definition assembly_event (ev : event) : Prop :=
  match ev with
  | EvSpawn argv _ => head argv ≠ Some "which"
  | _ => False
  end.

(** [s'] comes from [s] by assembly contacts only, with [os.environ] and
    [sys.path] as they were. *)
Definition quiet (s s' : state) : Prop :=
  heap s' !! os_environ = heap s !! os_environ
  ∧ sys_path s' = sys_path s
  ∧ ∃ evs, trace s' = trace s ++ evs ∧ Forall assembly_event evs.

Definition tame {A} (m : M A) : Prop :=
  ∀ s e, heap s !! os_environ = Some e → quiet s (snd (m s)).

(** A Darwin machine with Homebrew, a brewed Python and OpenCV. *)
Definition world_darwin : world :=
  {| py_ver_X := 2; py_ver_Y := 7; platform := "darwin";
     homebrew_site_pkgs := None;
     spawn := fun argv _ =>
       match argv with
       | ["which"; _] => Some (0, EmptyString)
       | ["brew"; "--prefix"] => Some (0, "/usr/local" +:+ newline)
       | ["python2.7-config"; "--prefix"] =>
           Some (0, "/usr/local/Cellar/python/2.7.8/Frameworks/Python.framework/Versions/2.7"
                    +:+ newline)
       | ["pkg-config"; "--exists"; _] => Some (0, EmptyString)
       | ["pkg-config"; "--libs"; _] => Some (0, opencv_libs_out)
       | ["pkg-config"; "--cflags"; _] =>
           Some (0, "-I/usr/local/include/opencv -I/usr/local/include" +:+ newline)
       | _ => None
       end;
     find_library := fun _ => None;
     import_cv2 := fun _ => Imported |}.

(** A Linux machine with everything but an OpenCL entry in the linker
    cache; [pkg-config] knows OpenCL all the same. *)
Definition world_linux_without_opencl_entry : world :=
  {| py_ver_X := 2; py_ver_Y := 7; platform := "linux2";
     homebrew_site_pkgs := None;
     spawn := fun argv _ =>
       match argv with
       | ["which"; _] => Some (0, EmptyString)
       | ["ldconfig"; "-p"] => Some (0, listing_without_opencl)
       | ["python2.7-config"; "--prefix"] => Some (0, "/usr" +:+ newline)
       | ["pkg-config"; "--exists"; _] => Some (0, EmptyString)
       | ["pkg-config"; "--libs"; _] => Some (0, opencv_libs_out)
       | ["pkg-config"; "--cflags"; _] =>
           Some (0, "-I/usr/include/python2.7" +:+ newline)
       | _ => None
       end;
     find_library := fun _ => None;
     import_cv2 := fun _ => Imported |}.

(** A complete Linux machine. *)
Definition world_linux : world :=
  {| py_ver_X := 2; py_ver_Y := 7; platform := "linux2";
     homebrew_site_pkgs := None;
     spawn := fun argv _ =>
       match argv with
       | ["ldconfig"; "-p"] => Some (0, listing_with_opencl)
       | _ => spawn world_linux_without_opencl_entry argv ∅
       end;
     find_library := fun _ => None;
     import_cv2 := fun _ => Imported |}.

(** What [pkg-config --libs python-2.7] prints. *)
Definition python_libs_out : string :=
  "-L/usr/lib/python2.7/config-x86_64-linux-gnu -lpython2.7" +:+ newline.

(** A linker-cache listing with an OpenCL entry, its lines ended by a
    carriage return alone. *)
Definition listing_with_opencl_and_carriage_returns : string :=
  "2 libs found in cache `/etc/ld.so.cache'" +:+ carriage_return +:+ tab +:+
  "libz.so.1 (libc6,x86-64) => /lib/x86_64-linux-gnu/libz.so.1"
  +:+ carriage_return +:+ tab +:+
  "libOpenCL.so.1 (libc6,x86-64) => /usr/lib/x86_64-linux-gnu/libOpenCL.so.1"
  +:+ carriage_return.

(** A complete Linux machine whose [ldconfig] ends its lines with a
    carriage return and whose [pkg-config] knows the Python libraries. *)
Definition world_linux_carriage_returns : world :=
  {| py_ver_X := 2; py_ver_Y := 7; platform := "linux2";
     homebrew_site_pkgs := None;
     spawn := fun argv _ =>
       match argv with
       | ["ldconfig"; "-p"] => Some (0, listing_with_opencl_and_carriage_returns)
       | ["pkg-config"; "--libs"; "python-2.7"] => Some (0, python_libs_out)
       | _ => spawn world_linux_without_opencl_entry argv ∅
       end;
     find_library := fun _ => None;
     import_cv2 := fun _ => Imported |}.

(** An action that ends in an exception. *)
Definition fails {A} (m : M A) (s : state) : Prop :=
  ∃ x, fst (m s) = Raise x.

(** ** Facts about the string primitives *)

Module PyStrFacts.
Import PyStr.

Lemma app_cons a s t : String a s +:+ t = String a (s +:+ t).
Proof. reflexivity. Qed.

Lemma app_nil_l t : "" +:+ t = t.
Proof. reflexivity. Qed.

Lemma startswith_nil s : startswith s "" = true.
Proof. destruct s; reflexivity. Qed.

Lemma startswith_app s p : startswith s p = true ↔ ∃ t, s = p +:+ t.
Proof.
  revert s. induction p as [|a p IH]; intros s; simpl.
  - split; [intros _; exists s; reflexivity | reflexivity].
  - destruct s as [|b s]; simpl.
    + split; [discriminate | intros [t Ht]; discriminate].
    + rewrite andb_true_iff, Ascii.eqb_eq, IH. split.
      * intros [-> [t ->]]. exists t. reflexivity.
      * intros [t Ht]. rewrite app_cons in Ht. injection Ht as -> ->.
        split; [reflexivity | exists t; reflexivity].
Qed.

Lemma startswith_refl s : startswith s s = true.
Proof. induction s; simpl; [reflexivity|]. rewrite Ascii.eqb_refl. assumption. Qed.

Lemma startswith_trans s p q :
  startswith s p = true → startswith p q = true → startswith s q = true.
Proof.
  revert s p. induction q as [|a q IH]; intros s p; simpl; [reflexivity|].
  destruct p as [|b p]; [discriminate|]. simpl.
  destruct s as [|c s]; [discriminate|].
  rewrite !andb_true_iff, !Ascii.eqb_eq. intros [-> H1] [-> H2].
  split; [reflexivity | eapply IH; eassumption].
Qed.

Lemma startswith_length s p :
  startswith s p = true → (String.length p ≤ String.length s)%nat.
Proof.
  revert s; induction p as [|a p IH]; intros [|b s]; simpl; try lia; try discriminate.
  rewrite andb_true_iff. intros [_ H]. apply IH in H. lia.
Qed.

Lemma length_drop n s : String.length (drop n s) = (String.length s - n)%nat.
Proof.
  revert s; induction n as [|n IH]; intros [|c s]; simpl; try reflexivity.
  apply IH.
Qed.

(** *** [find] and [chop_at] *)

Lemma find_range x y : find x y = -1 ∨ 0 ≤ find x y.
Proof.
  induction x as [|c x IH]; simpl.
  - destruct (startswith "" y); lia.
  - destruct (startswith (String c x) y); [lia|].
    destruct (Z.eqb_spec (find x y) (-1)); lia.
Qed.

Lemma chop_at_nil y : chop_at "" y = "".
Proof. unfold chop_at. simpl. destruct (startswith "" y); reflexivity. Qed.

Lemma chop_at_cons c x y :
  chop_at (String c x) y =
  if startswith (String c x) y then "" else String c (chop_at x y).
Proof.
  unfold chop_at. simpl find.
  destruct (startswith (String c x) y); [reflexivity|].
  destruct (Z.eqb_spec (find x y) (-1)) as [E|E]; simpl; [reflexivity|].
  destruct (find_range x y) as [?|Hge]; [contradiction|].
  destruct (Z.eqb_spec (find x y + 1) (-1)); [lia|]. simpl.
  rewrite Z2Nat.inj_add by lia. rewrite Nat.add_comm. reflexivity.
Qed.

Lemma chop_at_prefix x y : startswith x (chop_at x y) = true.
Proof.
  induction x as [|c x IH]; [rewrite chop_at_nil; reflexivity|].
  rewrite chop_at_cons. destruct (startswith (String c x) y); [reflexivity|].
  simpl. rewrite Ascii.eqb_refl. exact IH.
Qed.

Lemma chop_at_id x y : find x y = -1 → chop_at x y = x.
Proof. unfold chop_at. intros ->. reflexivity. Qed.

Lemma find_none_cons c x y :
  find (String c x) y = -1 ↔ startswith (String c x) y = false ∧ find x y = -1.
Proof.
  simpl find. destruct (startswith (String c x) y).
  - split; [discriminate | intros [? _]; discriminate].
  - destruct (Z.eqb_spec (find x y) (-1)) as [E|E].
    + tauto.
    + destruct (find_range x y); split; try lia; intros [_ ?]; lia.
Qed.

(** A prefix of a string without [y] is without [y]. *)
Lemma find_none_prefix x x0 y :
  startswith x x0 = true → find x y = -1 → find x0 y = -1.
Proof.
  revert x. induction x0 as [|c x0 IH]; intros x Hp Hx.
  - simpl. destruct (startswith "" y) eqn:E; [|reflexivity].
    assert (startswith x y = true) as Hs by (eapply startswith_trans; eassumption).
    destruct x; simpl in Hx; rewrite Hs in Hx; discriminate.
  - destruct x as [|b x]; [discriminate|]. simpl in Hp.
    apply andb_true_iff in Hp as [Hb Hp]. apply Ascii.eqb_eq in Hb. subst b.
    apply find_none_cons in Hx as [Hs Hx]. apply find_none_cons. split.
    + destruct (startswith (String c x0) y) eqn:E; [|reflexivity].
      rewrite <- Hs. symmetry. eapply startswith_trans; [|exact E].
      simpl. rewrite Ascii.eqb_refl. exact Hp.
    + eapply IH; eassumption.
Qed.

(** After [chop_at x y] no [y] is left, for a non-empty [y]. *)
Lemma find_chop_at x y : y ≠ "" → find (chop_at x y) y = -1.
Proof.
  intros Hy. induction x as [|c x IH].
  - rewrite chop_at_nil. destruct y; [contradiction|]. reflexivity.
  - rewrite chop_at_cons. destruct (startswith (String c x) y) eqn:E.
    + destruct y; [contradiction|]. reflexivity.
    + apply find_none_cons. split; [|exact IH].
      destruct (startswith (String c (chop_at x y)) y) eqn:E'; [|reflexivity].
      rewrite <- E. symmetry. eapply startswith_trans; [|exact E'].
      simpl. rewrite Ascii.eqb_refl. apply chop_at_prefix.
Qed.

Lemma length_chop_at x y : (String.length (chop_at x y) ≤ String.length x)%nat.
Proof. apply startswith_length, chop_at_prefix. Qed.

Lemma chop_at_length_eq x y :
  String.length (chop_at x y) = String.length x → chop_at x y = x.
Proof.
  induction x as [|c x IH]; [rewrite chop_at_nil; reflexivity|].
  rewrite chop_at_cons. destruct (startswith (String c x) y); simpl; [discriminate|].
  intros H. f_equal. apply IH. lia.
Qed.


(** *** Slashes and [basename] *)

Lemma rfind_slash_range p : rfind_slash p = -1 ∨ 0 ≤ rfind_slash p.
Proof.
  induction p as [|c p IH]; simpl; [lia|].
  destruct (Z.eqb_spec (rfind_slash p) (-1)); [destruct (Ascii.eqb c "/")|]; lia.
Qed.

Lemma rfind_slash_none p : rfind_slash p = -1 ↔ slash_free p = true.
Proof.
  induction p as [|c p IH]; simpl; [tauto|].
  destruct (Z.eqb_spec (rfind_slash p) (-1)) as [E|E].
  - destruct (Ascii.eqb c "/"); simpl; [|tauto].
    split; [lia | discriminate].
  - destruct (rfind_slash_range p) as [?|Hge]; [contradiction|].
    split; [lia|]. rewrite andb_true_iff. intros [_ H]. apply IH in H. contradiction.
Qed.

Lemma basename_cons c p :
  basename (String c p) =
  if slash_free p then (if Ascii.eqb c "/" then p else String c p)
  else basename p.
Proof.
  unfold basename. simpl rfind_slash.
  destruct (Z.eqb_spec (rfind_slash p) (-1)) as [E|E].
  - rewrite (proj1 (rfind_slash_none p) E).
    destruct (Ascii.eqb c "/"); reflexivity.
  - destruct (slash_free p) eqn:F; [apply rfind_slash_none in F; contradiction|].
    destruct (rfind_slash_range p) as [?|Hge]; [contradiction|].
    replace (Z.to_nat (rfind_slash p + 1 + 1)) with (S (Z.to_nat (rfind_slash p + 1))) by lia.
    reflexivity.
Qed.

Lemma basename_slash_free p : slash_free (basename p) = true.
Proof.
  induction p as [|c p IH]; [reflexivity|].
  rewrite basename_cons. destruct (slash_free p) eqn:F; [|exact IH].
  destruct (Ascii.eqb c "/") eqn:E; [exact F|]. simpl. rewrite E, F. reflexivity.
Qed.

Lemma basename_id p : slash_free p = true → basename p = p.
Proof.
  intros H. apply rfind_slash_none in H. unfold basename. rewrite H. reflexivity.
Qed.

Lemma length_basename p : (String.length (basename p) ≤ String.length p)%nat.
Proof. unfold basename. rewrite length_drop. lia. Qed.

Lemma slash_free_drop n s : slash_free s = true → slash_free (drop n s) = true.
Proof.
  revert s; induction n as [|n IH]; intros [|c s]; simpl; try tauto.
  rewrite andb_true_iff. intros [_ H]. apply IH, H.
Qed.

Lemma slash_free_prefix s p :
  startswith s p = true → slash_free s = true → slash_free p = true.
Proof.
  revert s; induction p as [|a p IH]; intros s; [reflexivity|].
  destruct s as [|b s]; [discriminate|]. simpl.
  rewrite !andb_true_iff, Ascii.eqb_eq. intros [-> Hp] [Hb Hs].
  split; [exact Hb | eapply IH; eassumption].
Qed.

(** *** [strip] *)

Lemma length_lstrip s : (String.length (lstrip s) ≤ String.length s)%nat.
Proof. induction s as [|c s IH]; simpl; [lia|]. destruct (is_space c); simpl; lia. Qed.

Lemma lstrip_length_eq s : String.length (lstrip s) = String.length s → lstrip s = s.
Proof.
  destruct s as [|c s]; simpl; [reflexivity|].
  destruct (is_space c); [|reflexivity].
  pose proof (length_lstrip s). lia.
Qed.

Lemma length_rstrip s : (String.length (rstrip s) ≤ String.length s)%nat.
Proof.
  induction s as [|c s IH]; simpl; [lia|].
  destruct (rstrip s); [destruct (is_space c)|]; simpl in *; lia.
Qed.

Lemma rstrip_length_eq s : String.length (rstrip s) = String.length s → rstrip s = s.
Proof.
  induction s as [|c s IH]; simpl; [reflexivity|].
  pose proof (length_rstrip s) as Hle.
  destruct (rstrip s) as [|d r] eqn:E.
  - destruct (is_space c); simpl in *; [lia|].
    intros H. destruct s; [reflexivity | simpl in H; lia].
  - simpl. intros H. f_equal. apply IH. simpl. lia.
Qed.

Lemma length_strip s : (String.length (strip s) ≤ String.length s)%nat.
Proof.
  unfold strip. pose proof (length_rstrip (lstrip s)). pose proof (length_lstrip s). lia.
Qed.

Lemma strip_length_eq s : String.length (strip s) = String.length s → strip s = s.
Proof.
  unfold strip. intros H.
  pose proof (length_rstrip (lstrip s)). pose proof (length_lstrip s).
  assert (lstrip s = s) as E by (apply lstrip_length_eq; lia).
  rewrite E in *. apply rstrip_length_eq. exact H.
Qed.

End PyStrFacts.

(** ** NameNormalizer: [get_lib_short_name] *)

Section Normalizer.
Import PyStr PyStrFacts.

(** A pattern that is in front of [s] is still in front after cutting at
    another pattern, since every pattern opens with the only dot it has. *)
Ltac peel H s :=
  repeat (destruct s as [|? s]; cbn [startswith] in H; [discriminate H|];
          apply andb_true_iff in H as [?%Ascii.eqb_eq H]; subst).

Lemma dylib_survives_so s :
  startswith s ".dylib" = true → startswith (chop_at s ".so") ".dylib" = true.
Proof.
  intros H. peel H s. rewrite !chop_at_cons. vm_compute. reflexivity.
Qed.

Lemma a_survives_so s :
  startswith s ".a" = true → startswith (chop_at s ".so") ".a" = true.
Proof.
  intros H. peel H s. rewrite !chop_at_cons. vm_compute. reflexivity.
Qed.

Lemma a_survives_dylib s :
  startswith s ".a" = true → startswith (chop_at s ".dylib") ".a" = true.
Proof.
  intros H. peel H s. rewrite !chop_at_cons. vm_compute. reflexivity.
Qed.

Lemma chop_keeps_absent s p q :
  startswith s q = false → startswith (chop_at s p) q = false.
Proof.
  intros H. destruct (startswith (chop_at s p) q) eqn:E; [|reflexivity].
  rewrite <- H. symmetry. eapply startswith_trans; [apply chop_at_prefix | exact E].
Qed.

Lemma chop_suffixes_spec s :
  chop_suffixes s = truncate_at_first_match [".so"; ".dylib"; ".a"] s.
Proof.
  unfold chop_suffixes. induction s as [|c s IH]; [reflexivity|].
  cbn [truncate_at_first_match existsb].
  destruct (startswith (String c s) ".so") eqn:Eso.
  { rewrite chop_at_cons, Eso. reflexivity. }
  destruct (startswith (String c s) ".dylib") eqn:Edy.
  { pose proof (dylib_survives_so _ Edy) as H.
    destruct (chop_at (String c s) ".so") as [|d r] eqn:Ec; [discriminate H|].
    rewrite chop_at_cons, H. reflexivity. }
  destruct (startswith (String c s) ".a") eqn:Ea.
  { pose proof (a_survives_dylib _ (a_survives_so _ Ea)) as H.
    destruct (chop_at (chop_at (String c s) ".so") ".dylib") as [|d r] eqn:Ec;
      [discriminate H|].
    rewrite chop_at_cons, H. reflexivity. }
  cbn [orb].
  pose proof (chop_keeps_absent _ ".so" _ Edy) as Hdy.
  pose proof (chop_keeps_absent _ ".dylib" _ (chop_keeps_absent _ ".so" _ Ea)) as Ha.
  rewrite chop_at_cons, Eso in Hdy, Ha |- *.
  rewrite chop_at_cons, Hdy in Ha |- *.
  rewrite chop_at_cons, Ha. f_equal. exact IH.
Qed.

Lemma get_lib_short_name_unfold name :
  get_lib_short_name name =
  chop_suffixes (strip_leading "lib" (strip_leading "-l" (basename (strip name)))).
Proof. reflexivity. Qed.


(** What every canonical name looks like: no slash, none of the suffixes. *)
Lemma short_name_shape name :
  let n := get_lib_short_name name in
  slash_free n = true ∧ find n ".so" = -1 ∧ find n ".dylib" = -1 ∧ find n ".a" = -1.
Proof.
  intros n. subst n. rewrite get_lib_short_name_unfold. unfold chop_suffixes.
  set (b := strip_leading "lib" (strip_leading "-l" (basename (strip name)))).
  assert (slash_free b = true) as Hb.
  { subst b. unfold strip_leading.
    pose proof (basename_slash_free (strip name)) as H0.
    repeat (case_match; [apply slash_free_drop|]); assumption. }
  split; [|split; [|split]].
  - do 3 (eapply slash_free_prefix; [apply chop_at_prefix|]). exact Hb.
  - do 2 (eapply find_none_prefix; [apply chop_at_prefix|]).
    apply find_chop_at. discriminate.
  - eapply find_none_prefix; [apply chop_at_prefix|].
    apply find_chop_at. discriminate.
  - apply find_chop_at. discriminate.
Qed.

Lemma length_strip_leading p s :
  (String.length (strip_leading p s) ≤ String.length s)%nat.
Proof. unfold strip_leading. case_match; [rewrite length_drop|]; lia. Qed.

Lemma strip_leading_length_eq p s :
  p ≠ "" → String.length (strip_leading p s) = String.length s →
  startswith s p = false.
Proof.
  intros Hp. unfold strip_leading. destruct (startswith s p) eqn:E; [|reflexivity].
  rewrite length_drop. apply startswith_length in E.
  destruct p; [contradiction|]. simpl in *. lia.
Qed.

Lemma strip_leading_id p s : startswith s p = false → strip_leading p s = s.
Proof. unfold strip_leading. intros ->. reflexivity. Qed.

Lemma length_chop_suffixes s : (String.length (chop_suffixes s) ≤ String.length s)%nat.
Proof.
  unfold chop_suffixes.
  pose proof (length_chop_at s ".so").
  pose proof (length_chop_at (chop_at s ".so") ".dylib").
  pose proof (length_chop_at (chop_at (chop_at s ".so") ".dylib") ".a"). lia.
Qed.

(** One more pass changes a canonical name exactly when it is not settled. *)
Lemma short_name_fixed_iff name :
  let n := get_lib_short_name name in
  get_lib_short_name n = n ↔ settled n.
Proof.
  intros n. destruct (short_name_shape name) as (Hsl & Hso & Hdy & Ha).
  fold n in Hsl, Hso, Hdy, Ha. clearbody n.
  unfold settled. split.
  - intros Hfix.
    pose proof (f_equal String.length Hfix) as Hlen.
    rewrite get_lib_short_name_unfold in Hlen.
    pose proof (length_chop_suffixes
      (strip_leading "lib" (strip_leading "-l" (basename (strip n))))) as H1.
    pose proof (length_strip_leading "lib" (strip_leading "-l" (basename (strip n)))) as H2.
    pose proof (length_strip_leading "-l" (basename (strip n))) as H3.
    pose proof (length_basename (strip n)) as H4.
    pose proof (length_strip n) as H5.
    assert (strip n = n) as Es by (apply strip_length_eq; lia).
    rewrite Es in H1, H2, H3, Hlen. rewrite (basename_id n Hsl) in H1, H2, H3, Hlen.
    assert (startswith n "-l" = false) as El
      by (apply strip_leading_length_eq; [discriminate | lia]).
    rewrite (strip_leading_id _ _ El) in H1, H2, Hlen.
    assert (startswith n "lib" = false) as Elib
      by (apply strip_leading_length_eq; [discriminate | lia]).
    auto.
  - intros (Es & El & Elib).
    rewrite get_lib_short_name_unfold, Es, (basename_id n Hsl).
    rewrite (strip_leading_id _ _ El), (strip_leading_id _ _ Elib).
    unfold chop_suffixes.
    rewrite (chop_at_id n ".so" Hso), (chop_at_id n ".dylib" Hdy).
    apply chop_at_id, Ha.
Qed.

(** C4, as amended. Canonicalization is not idempotent on every string: the
    function removes one [-l] and one [lib] and trims once, so a second pass
    can remove more. It is idempotent at [x] exactly when the first
    result has nothing to trim at either end and neither marker in front,
    as is the case for [-lavcodec] and [libopencv_core.so.3.4]. *)
Theorem normalize_idempotent_iff_settled :
  (∀ x : string,
      get_lib_short_name (get_lib_short_name x) = get_lib_short_name x
      ↔ settled (get_lib_short_name x))
  ∧ get_lib_short_name "-lavcodec" = "avcodec"
  ∧ get_lib_short_name "libopencv_core.so.3.4" = "opencv_core"
  ∧ get_lib_short_name (get_lib_short_name "-lavcodec") = get_lib_short_name "-lavcodec"
  ∧ get_lib_short_name (get_lib_short_name "libopencv_core.so.3.4")
    = get_lib_short_name "libopencv_core.so.3.4".
Proof.
  split; [intros x; apply short_name_fixed_iff|].
  repeat split; reflexivity.
Qed.

(** C4, counterexample: on [liblibfoo] the second pass removes a second
    [lib]. *)
Lemma normalize_not_idempotent :
  ¬ (∀ x : string,
       get_lib_short_name (get_lib_short_name x) = get_lib_short_name x).
Proof. intros H. specialize (H "liblibfoo"). vm_compute in H. discriminate H. Qed.

(** C8, as amended. Before the three steps the spec names, the function
    removes surrounding whitespace and keeps only the last path component;
    on what is left it strips a leading [-l], then a leading [lib], then
    cuts at the earliest place where [.so], [.dylib] or [.a] begins. It is a
    total function of its argument and touches nothing else. *)
Theorem normalize_refines_spec_after_basename :
  ∀ raw : string,
    get_lib_short_name raw = spec_normalize (basename (strip raw)).
Proof.
  intros raw. rewrite get_lib_short_name_unfold, chop_suffixes_spec. reflexivity.
Qed.

(** C8, counterexample: a path keeps its directory under the three steps
    alone, and loses it in the code. *)
Lemma normalize_is_not_spec_normalize :
  get_lib_short_name "/usr/lib/libavcodec.so" = "avcodec"
  ∧ spec_normalize "/usr/lib/libavcodec.so" = "/usr/lib/libavcodec"
  ∧ ¬ (∀ raw : string, get_lib_short_name raw = spec_normalize raw).
Proof.
  split; [reflexivity|]. split; [reflexivity|].
  intros H. specialize (H "/usr/lib/libavcodec.so"). vm_compute in H. discriminate H.
Qed.

End Normalizer.

(** ** BuildUnitAssembler: [build_lst] *)

Section BuildLst.

Lemma elem_of_add_all (a : atom) (l : list atom) (acc0 : gset atom) :
  a ∈ foldl (fun acc y => {[ y ]} ∪ acc) acc0 l ↔ (a ∈ acc0 ∨ a ∈ l).
Proof.
  revert acc0. induction l as [|y l IH]; intros acc0; simpl.
  - split; [auto | intros [H|H]; [exact H | apply elem_of_nil in H; contradiction]].
  - rewrite IH, elem_of_union, elem_of_singleton, elem_of_cons. tauto.
Qed.

Lemma elem_of_build_lst_step (a : atom) (acc0 : gset atom) (x : pyval) :
  a ∈ build_lst_step acc0 x ↔
  (a ∈ acc0 ∨ (∃ s, a = AStr s ∧ x = PAtom (AStr s)) ∨ (∃ l, x = PList l ∧ a ∈ l)).
Proof.
  destruct x as [[s| |z]|l|l]; simpl.
  - rewrite elem_of_union, elem_of_singleton. split.
    + intros [->|H]; [right; left; eauto | left; exact H].
    + intros [H|[(s' & -> & [= ->])|(l & [=] & _)]]; auto.
  - split; [auto|]. intros [H|[(s' & _ & [=])|(l & [=] & _)]]; exact H.
  - split; [auto|]. intros [H|[(s' & _ & [=])|(l & [=] & _)]]; exact H.
  - rewrite elem_of_add_all. split.
    + intros [H|H]; [left; exact H | right; right; eauto].
    + intros [H|[(s' & _ & [=])|(l' & [= <-] & H)]]; auto.
  - split; [auto|]. intros [H|[(s' & _ & [=])|(l' & [=] & _)]]; exact H.
Qed.

Lemma elem_of_build_set (a : atom) (items : list pyval) (acc0 : gset atom) :
  a ∈ foldl build_lst_step acc0 items ↔
  (a ∈ acc0 ∨ (∃ s, a = AStr s ∧ PAtom (AStr s) ∈ items)
         ∨ (∃ l, PList l ∈ items ∧ a ∈ l)).
Proof.
  revert acc0. induction items as [|x items IH]; intros acc0; simpl.
  - split; [auto|]. intros [H|[(s & _ & H)|(l & H & _)]]; [exact H| |];
      apply elem_of_nil in H; contradiction.
  - rewrite IH, elem_of_build_lst_step. split.
    + intros [[H|[(s & -> & ->)|(l & -> & H)]]|[(s & -> & H)|(l & H & Hl)]].
      * left; exact H.
      * right; left. exists s. split; [reflexivity | apply elem_of_cons; auto].
      * right; right. exists l. split; [apply elem_of_cons; auto | exact H].
      * right; left. exists s. split; [reflexivity | apply elem_of_cons; auto].
      * right; right. exists l. split; [apply elem_of_cons; auto | exact Hl].
    + intros [H|[(s & -> & H)|(l & H & Hl)]].
      * auto.
      * apply elem_of_cons in H as [<-|H]; [left; right; left; eauto|].
        right; left; eauto.
      * apply elem_of_cons in H as [<-|H]; [left; right; right; eauto|].
        right; right; eauto.
Qed.





End BuildLst.

(** ** EnvironmentAugmenter: [get_extra_envs] *)

Section Environment.

Lemma fresh_not_allocated (s : state) : heap s !! fresh (dom (heap s)) = None.
Proof. apply not_elem_of_dom, is_fresh. Qed.

(** What one call does to the state, exactly. *)
Lemma get_extra_envs_run (s : state) (e : gmap string string) :
  heap s !! os_environ = Some e →
  get_extra_envs s =
  (Ok (fresh (dom (heap s))), with_dict s (fresh (dom (heap s))) (spec_augmented e)).
Proof.
  intros He. unfold get_extra_envs, bind, dict_copy, dict_mem, dict_get, dict_set, ret.
  unfold with_dict, spec_augmented.
  cbn [heap trace sys_path]. rewrite He, lookup_insert_eq. cbn [from_option id].
  destruct (e !! "PKG_CONFIG_PATH") as [v|] eqn:Ev.
  - rewrite bool_decide_eq_true_2 by eauto.
    cbn [heap trace sys_path]. rewrite lookup_insert_eq. cbn [from_option id].
    rewrite Ev. cbn [heap trace sys_path].
    rewrite lookup_insert_eq. cbn [from_option id].
    rewrite insert_insert_eq. reflexivity.
  - rewrite bool_decide_eq_false_2 by (intros [? [=]]).
    cbn [heap trace sys_path]. rewrite lookup_insert_eq. cbn [from_option id].
    rewrite insert_insert_eq. reflexivity.
Qed.

(** C7. With [os.environ] holding [e], [get_extra_envs] returns a reference
    to a dictionary that did not exist before, hence no alias of
    [os.environ]; afterwards [os.environ] still holds [e], every other
    dictionary is as it was, and the new one is [e] with the search-path
    variable set to its old value followed by the three fixed directories,
    colon-joined, or to the three directories alone when it was absent. No
    subprocess is started and [sys.path] is not touched. *)
Theorem get_extra_envs_private_copy :
  ∀ (s : state) (e : gmap string string),
    heap s !! os_environ = Some e →
    ∃ l : nat,
      fst (get_extra_envs s) = Ok l
      ∧ l ≠ os_environ
      ∧ heap s !! l = None
      ∧ heap (snd (get_extra_envs s)) !! os_environ = Some e
      ∧ (∀ l', l' ≠ l → heap (snd (get_extra_envs s)) !! l' = heap s !! l')
      ∧ heap (snd (get_extra_envs s)) !! l = Some (spec_augmented e)
      ∧ spec_augmented e !! "PKG_CONFIG_PATH" =
          Some (match e !! "PKG_CONFIG_PATH" with
                | Some old =>
                    old +:+ ":/usr/local/lib/pkgconfig:/usr/local/pkgconfig:/usr/share/pkgconfig"
                | None => "/usr/local/lib/pkgconfig:/usr/local/pkgconfig:/usr/share/pkgconfig"
                end)
      ∧ (∀ k, k ≠ "PKG_CONFIG_PATH" → spec_augmented e !! k = e !! k)
      ∧ trace (snd (get_extra_envs s)) = trace s
      ∧ sys_path (snd (get_extra_envs s)) = sys_path s.
Proof.
  intros s e He. exists (fresh (dom (heap s))).
  rewrite (get_extra_envs_run s e He). cbn [fst snd with_dict heap trace sys_path].
  pose proof (fresh_not_allocated s) as Hfresh.
  assert (fresh (dom (heap s)) ≠ os_environ) as Hne by (intros E; rewrite E in Hfresh; congruence).
  split; [reflexivity|]. split; [exact Hne|]. split; [exact Hfresh|].
  split; [rewrite lookup_insert_ne by exact Hne; exact He|].
  split; [intros l' Hl'; apply lookup_insert_ne; congruence|].
  split; [apply lookup_insert_eq|].
  split.
  { unfold spec_augmented. rewrite lookup_insert_eq.
    destruct (e !! "PKG_CONFIG_PATH"); reflexivity. }
  split; [intros k Hk; unfold spec_augmented; apply lookup_insert_ne; congruence|].
  split; reflexivity.
Qed.

Lemma get_extra_envs_private_copy_witness :
  ∃ l : nat,
    fst (get_extra_envs (state_start env_with_search_path)) = Ok l
    ∧ l ≠ os_environ
    ∧ heap (snd (get_extra_envs (state_start env_with_search_path))) !! os_environ
      = Some env_with_search_path
    ∧ spec_augmented env_with_search_path !! "PKG_CONFIG_PATH"
      = Some ("/opt/lib/pkgconfig" +:+
              ":/usr/local/lib/pkgconfig:/usr/local/pkgconfig:/usr/share/pkgconfig").
Proof.
  assert (heap (state_start env_with_search_path) !! os_environ
          = Some env_with_search_path) as He by (vm_compute; reflexivity).
  destruct (get_extra_envs_private_copy (state_start env_with_search_path)
              env_with_search_path He)
    as (l & H1 & H2 & _ & H4 & _ & _ & H7 & _).
  exists l. split; [exact H1|]. split; [exact H2|]. split; [exact H4|]. exact H7.
Defined.

End Environment.

(** ** CommandProbe, InstalledPathLookup, LibraryResolver *)

Section Probes.

Variable w : world.

Lemma launch_run (argv : list string) (l : nat) (s : state) :
  launch w argv l s =
  (fst (probe_spawn w argv (default ∅ (heap s !! l))),
   with_events s [EvSpawn argv (default ∅ (heap s !! l))]).
Proof.
  unfold launch, probe_spawn, bind, dict_read, log, raise, ret, with_events.
  cbn [fst heap trace sys_path]. destruct (spawn w argv _); reflexivity.
Qed.

Lemma subprocess_call_run (argv : list string) (l : nat) (s : state) :
  subprocess_call w argv l s =
  (match spawn w argv (default ∅ (heap s !! l)) with
   | None => Raise OSError
   | Some r => Ok (fst r)
   end, with_events s [EvSpawn argv (default ∅ (heap s !! l))]).
Proof.
  unfold subprocess_call, bind. rewrite launch_run. unfold probe_spawn. cbn [fst].
  destruct (spawn w argv _); reflexivity.
Qed.

Lemma popen_read_run (argv : list string) (l : nat) (s : state) :
  popen_read w argv l s =
  (match spawn w argv (default ∅ (heap s !! l)) with
   | None => Raise OSError
   | Some r => Ok (snd r)
   end, with_events s [EvSpawn argv (default ∅ (heap s !! l))]).
Proof.
  unfold popen_read, bind. rewrite launch_run. unfold probe_spawn. cbn [fst].
  destruct (spawn w argv _); reflexivity.
Qed.

Lemma have_command_run (name : string) (s : state) :
  have_command w name s =
  (fst (probe_command w (ambient s) name),
   with_events s (snd (probe_command w (ambient s) name))).
Proof.
  unfold have_command, bind, probe_command, probe_spawn, ambient.
  rewrite subprocess_call_run.
  destruct (spawn w _ _); reflexivity.
Qed.

Lemma get_lib_installed_path_run (libname : string) (s : state) :
  get_lib_installed_path w libname s =
  (match spawn w ["ldconfig"; "-p"] (ambient s) with
   | None => Raise OSError
   | Some r =>
       if negb (PyStr.contains (PyStr.universal_newlines (snd r)) libname) then Ok None
       else installed_path_scan libname
              (PyStr.split (PyStr.universal_newlines (snd r)) newline_tab)
   end, with_events s [EvSpawn ["ldconfig"; "-p"] (ambient s)]).
Proof.
  unfold get_lib_installed_path, popen_read_text, bind, ambient. rewrite popen_read_run.
  destruct (spawn w _ _) as [r|]; [|reflexivity].
  unfold ret. cbn beta iota. destruct (negb _); reflexivity.
Qed.

Lemma get_lib_filename_namespec_run (libname : string) (s : state) :
  get_lib_filename_namespec w libname s =
  (match fst (get_lib_installed_path w libname s) with
   | Ok (Some p) => Ok (":" +:+ PyStr.basename p)
   | Ok None => Raise AttributeError
   | Raise e => Raise e
   end, snd (get_lib_installed_path w libname s)).
Proof.
  unfold get_lib_filename_namespec, bind.
  destruct (get_lib_installed_path w libname s) as [[[p|]|e] s']; reflexivity.
Qed.

End Probes.

(** C3, as amended. When [which] can be started, [have_command] answers
    whether it exited with status 0; when [ldconfig] can be started and its
    listing, read with universal newlines, does not mention the name,
    [get_lib_installed_path] answers [None]. When the program cannot be
    started, neither function answers: the [OSError] of the launch reaches
    the caller. *)
Theorem launch_failure_reaches_caller :
  ∀ (w : world) (name : string) (s : state),
    (spawn w ["which"; name] (ambient s) = None →
     have_command w name s
     = (Raise OSError, with_events s [EvSpawn ["which"; name] (ambient s)]))
    ∧ (∀ c out, spawn w ["which"; name] (ambient s) = Some (c, out) →
       have_command w name s
       = (Ok (c =? 0), with_events s [EvSpawn ["which"; name] (ambient s)]))
    ∧ (spawn w ["ldconfig"; "-p"] (ambient s) = None →
       get_lib_installed_path w name s
       = (Raise OSError, with_events s [EvSpawn ["ldconfig"; "-p"] (ambient s)]))
    ∧ (∀ c out, spawn w ["ldconfig"; "-p"] (ambient s) = Some (c, out) →
       PyStr.contains (PyStr.universal_newlines out) name = false →
       get_lib_installed_path w name s
       = (Ok None, with_events s [EvSpawn ["ldconfig"; "-p"] (ambient s)])).
Proof.
  intros w name s. repeat split.
  - intros H. rewrite have_command_run. unfold probe_command, probe_spawn.
    rewrite H. reflexivity.
  - intros c out H. rewrite have_command_run. unfold probe_command, probe_spawn.
    rewrite H. reflexivity.
  - intros H. rewrite get_lib_installed_path_run, H. reflexivity.
  - intros c out H Hc. rewrite get_lib_installed_path_run, H. cbn [snd].
    rewrite Hc. reflexivity.
Qed.

Lemma launch_failure_reaches_caller_witness :
  fst (have_command world_bare "pkg-config" (state_start env_plain)) = Raise OSError
  ∧ fst (have_command world_no_libraries "pkg-config" (state_start env_plain)) = Ok true
  ∧ fst (get_lib_installed_path world_no_libraries "libOpenCL" (state_start env_plain))
    = Ok None.
Proof.
  destruct (launch_failure_reaches_caller world_bare "pkg-config" (state_start env_plain))
    as (H1 & _).
  destruct (launch_failure_reaches_caller world_no_libraries "pkg-config"
              (state_start env_plain)) as (_ & H2 & _).
  destruct (launch_failure_reaches_caller world_no_libraries "libOpenCL"
              (state_start env_plain)) as (_ & _ & _ & H4).
  split; [rewrite H1; reflexivity|].
  split; [rewrite (H2 0 EmptyString); reflexivity|].
  rewrite (H4 0 listing_without_opencl); reflexivity.
Defined.

(** C3, counterexample: where nothing can be started, the probe does not
    answer [False] and the lookup does not answer [None]; both raise. *)
Lemma launch_failure_is_not_absence :
  fst (have_command world_bare "pkg-config" (state_start env_plain)) = Raise OSError
  ∧ fst (get_lib_installed_path world_bare "libOpenCL" (state_start env_plain))
    = Raise OSError
  ∧ ¬ (∀ (w : world) (name : string) (s : state),
         spawn w ["which"; name] (ambient s) = None →
         fst (have_command w name s) = Ok false)
  ∧ ¬ (∀ (w : world) (name : string) (s : state),
         spawn w ["ldconfig"; "-p"] (ambient s) = None →
         fst (get_lib_installed_path w name s) = Ok None).
Proof.
  split; [reflexivity|]. split; [reflexivity|]. split.
  - intros H. specialize (H world_bare "pkg-config" (state_start env_plain) eq_refl).
    discriminate H.
  - intros H. specialize (H world_bare "libOpenCL" (state_start env_plain) eq_refl).
    discriminate H.
Qed.

(** C2, as amended. When the lookup finds a path, the namespec is a colon
    followed by the last component of that path. When the lookup answers
    [None], [os.path.basename] is applied to [None] and its
    [AttributeError] reaches the caller. An exception of the lookup itself
    passes through. In every case the namespec adds no contact with the
    outside to those of the lookup. *)
Theorem namespec_of_lookup :
  ∀ (w : world) (libname : string) (s : state),
    (∀ p, fst (get_lib_installed_path w libname s) = Ok (Some p) →
          fst (get_lib_filename_namespec w libname s) = Ok (":" +:+ PyStr.basename p))
    ∧ (fst (get_lib_installed_path w libname s) = Ok None →
       fst (get_lib_filename_namespec w libname s) = Raise AttributeError)
    ∧ (∀ e, fst (get_lib_installed_path w libname s) = Raise e →
            fst (get_lib_filename_namespec w libname s) = Raise e)
    ∧ snd (get_lib_filename_namespec w libname s)
      = snd (get_lib_installed_path w libname s).
Proof.
  intros w libname s. rewrite get_lib_filename_namespec_run. cbn [fst snd].
  repeat split.
  - intros p ->. reflexivity.
  - intros ->. reflexivity.
  - intros e ->. reflexivity.
Qed.

Lemma namespec_of_lookup_witness :
  fst (get_lib_filename_namespec (world_complete opencv_libs_out) "libOpenCL"
         (state_start env_plain)) = Ok ":libOpenCL.so.1"
  ∧ fst (get_lib_filename_namespec world_no_libraries "libOpenCL"
           (state_start env_plain)) = Raise AttributeError.
Proof.
  destruct (namespec_of_lookup (world_complete opencv_libs_out) "libOpenCL"
              (state_start env_plain)) as (H1 & _).
  destruct (namespec_of_lookup world_no_libraries "libOpenCL"
              (state_start env_plain)) as (_ & H2 & _).
  split.
  - rewrite (H1 "/usr/lib/x86_64-linux-gnu/libOpenCL.so.1"); reflexivity.
  - rewrite H2; reflexivity.
Defined.

(** C2, counterexample: on a machine whose linker cache has no OpenCL the
    lookup answers [None] and the namespec ends in the [AttributeError]
    raised inside [os.path.basename], which the function neither handles
    nor announces. *)
Lemma namespec_crashes_on_none :
  fst (get_lib_installed_path world_no_libraries "libOpenCL" (state_start env_plain))
  = Ok None
  ∧ fst (get_lib_filename_namespec world_no_libraries "libOpenCL" (state_start env_plain))
    = Raise AttributeError
  ∧ ¬ In AttributeError namespec_documented_errors.
Proof. split; [reflexivity|]. split; [reflexivity|]. intros []. Qed.

(** ** LibraryResolver: [have_library] and [have_library_object_file] *)

Section Resolver.

Variable w : world.

Lemma have_library_run (name : string) (s : state) (e : gmap string string) :
  heap s !! os_environ = Some e →
  have_library w name s =
  (fst (probe_library w e name),
   after_probe s (falsy (find_library w (get_lib_short_name name))) e
     (snd (probe_library w e name))).
Proof.
  intros He. unfold have_library, call_find_library, probe_library, after_probe.
  unfold bind at 1 2, log, ret. cbn beta iota.
  destruct (falsy (find_library w (get_lib_short_name name))); [|reflexivity].
  unfold bind. erewrite get_extra_envs_run by exact He.
  rewrite subprocess_call_run. unfold probe_spawn, with_events, with_dict.
  cbn [heap trace sys_path]. rewrite lookup_insert_eq. cbn [from_option id].
  rewrite <- app_assoc.
  destruct (spawn w _ _); reflexivity.
Qed.

Lemma eqb_nonempty (p : string) : p ≠ "" → PyStr.eqb p "" = false.
Proof. intros Hp. unfold PyStr.eqb. apply bool_decide_eq_false_2, Hp. Qed.

Lemma after_probe_environ s asked e evs :
  heap s !! os_environ = Some e →
  heap (after_probe s asked e evs) !! os_environ = Some e.
Proof.
  intros He. destruct asked; cbn; [|exact He].
  rewrite lookup_insert_ne; [exact He|].
  intros E. pose proof (fresh_not_allocated s) as H. rewrite E in H. congruence.
Qed.

Lemma after_probe_trace s asked e evs :
  trace (after_probe s asked e evs) = trace s ++ evs.
Proof. destruct asked; reflexivity. Qed.

Lemma after_probe_sys_path s asked e evs :
  sys_path (after_probe s asked e evs) = sys_path s.
Proof. destruct asked; reflexivity. Qed.

Lemma have_library_steps (name : string) (s : state) (e : gmap string string) :
  heap s !! os_environ = Some e →
  ∃ s', steps (have_library w name) s
          (fst (probe_library w e name)) (snd (probe_library w e name)) s'.
Proof.
  intros He. eexists. split; [apply have_library_run; exact He|].
  split; [rewrite He; apply after_probe_environ; exact He|].
  split; [apply after_probe_trace | apply after_probe_sys_path].
Qed.

Lemma have_library_object_file_steps (libname name : string) (s : state)
    (e : gmap string string) :
  heap s !! os_environ = Some e →
  ∃ s', steps (have_library_object_file w libname name) s
          (fst (probe_object_file w e libname name))
          (snd (probe_object_file w e libname name)) s'.
Proof.
  intros He. unfold have_library_object_file, probe_object_file, steps.
  unfold bind at 1. rewrite (have_library_run libname s e He).
  set (s1 := after_probe s _ e _).
  assert (heap s1 !! os_environ = Some e) as He1 by (apply after_probe_environ, He).
  assert (trace s1 = trace s ++ snd (probe_library w e libname)) as Ht1
    by apply after_probe_trace.
  assert (sys_path s1 = sys_path s) as Hp1 by apply after_probe_sys_path.
  clearbody s1.
  destruct (probe_library w e libname) as [[[|]|x] evs]; cbn [fst snd] in *.
  - unfold bind. rewrite (get_extra_envs_run s1 e He1), popen_read_run.
    unfold probe_spawn, with_events, with_dict. cbn [heap trace sys_path].
    rewrite lookup_insert_eq. cbn [from_option id].
    assert (fresh (dom (heap s1)) ≠ os_environ) as Hne.
    { intros E. pose proof (fresh_not_allocated s1) as H. rewrite E in H. congruence. }
    destruct (spawn w _ _) as [r|]; cbn [fst snd];
      (eexists; split; [reflexivity|]; cbn [heap trace sys_path];
       rewrite lookup_insert_ne by exact Hne; rewrite Ht1, app_assoc; auto with congruence).
  - exists s1. unfold ret. repeat split; congruence.
  - exists s1. repeat split; congruence.
Qed.

End Resolver.

(** C6, as amended. [have_library] asks [find_library] for the canonical
    name, [get_lib_short_name] of the name given. When that answers a
    string that is not empty, the result is [True] and nothing else is
    contacted. When it answers [None] or the empty string,
    [pkg-config --exists] is run with the name as given, under the
    augmented copy of the environment: if it can be started, the result is
    whether it exited with status 0, so a library that neither source
    knows gives [False]; if it cannot be started, the [OSError] of the
    launch reaches the caller and there is no result. [os.environ] is left
    as it was. *)
Theorem have_library_resolves :
  ∀ (w : world) (name : string) (s : state) (e : gmap string string),
    heap s !! os_environ = Some e →
    let short_name := get_lib_short_name name in
    let argv := ["pkg-config"; "--exists"; name] in
    (∀ p, find_library w short_name = Some p → p ≠ "" →
       have_library w name s = (Ok true, with_events s [EvFindLibrary short_name]))
    ∧ (find_library w short_name = None ∨ find_library w short_name = Some "" →
       trace (snd (have_library w name s))
       = trace s ++ [EvFindLibrary short_name; EvSpawn argv (spec_augmented e)]
       ∧ heap (snd (have_library w name s)) !! os_environ = Some e
       ∧ (∀ c out, spawn w argv (spec_augmented e) = Some (c, out) →
            fst (have_library w name s) = Ok (c =? 0)
            ∧ (c = 0 → fst (have_library w name s) = Ok true)
            ∧ (c ≠ 0 → fst (have_library w name s) = Ok false))
       ∧ (spawn w argv (spec_augmented e) = None →
          fst (have_library w name s) = Raise OSError)).
Proof.
  intros w name s e He short_name argv.
  rewrite (have_library_run w name s e He). unfold probe_library, probe_spawn.
  fold short_name argv. split.
  - intros p -> Hp. unfold falsy. rewrite eqb_nonempty by exact Hp. reflexivity.
  - intros Hnone.
    assert (falsy (find_library w short_name) = true) as ->
      by (destruct Hnone as [-> | ->]; reflexivity).
    split; [destruct (spawn w argv _); apply after_probe_trace|].
    split; [destruct (spawn w argv _); apply after_probe_environ, He|].
    split.
    + intros c out ->. cbn [fst snd]. split; [reflexivity|].
      split; [intros ->; reflexivity|].
      intros Hc; apply Z.eqb_neq in Hc; rewrite Hc; reflexivity.
    + intros ->. reflexivity.
Qed.

Lemma have_library_resolves_witness :
  have_library world_resolver "/usr/lib/libopencv_core.so" (state_start env_plain)
  = (Ok true, with_events (state_start env_plain) [EvFindLibrary "opencv_core"])
  ∧ (fst (have_library world_resolver "libavcodec.so" (state_start env_plain)) = Ok true
     ∧ trace (snd (have_library world_resolver "libavcodec.so" (state_start env_plain)))
       = [EvFindLibrary "avcodec";
          EvSpawn ["pkg-config"; "--exists"; "libavcodec.so"] (spec_augmented env_plain)])
  ∧ fst (have_library world_resolver "avcodec" (state_start env_plain)) = Ok false
  ∧ fst (have_library world_resolver "libz.so.1" (state_start env_plain)) = Ok false
  ∧ (fst (have_library world_resolver "madeup_lib_xyz" (state_start env_plain)) = Ok false
     ∧ trace (snd (have_library world_resolver "madeup_lib_xyz" (state_start env_plain)))
       = [EvFindLibrary "madeup_lib_xyz";
          EvSpawn ["pkg-config"; "--exists"; "madeup_lib_xyz"]
            (spec_augmented env_plain)])
  ∧ fst (have_library world_bare "madeup_lib_xyz" (state_start env_plain)) = Raise OSError.
Proof.
  assert (heap (state_start env_plain) !! os_environ = Some env_plain) as He
    by (vm_compute; reflexivity).
  destruct (have_library_resolves world_resolver "/usr/lib/libopencv_core.so"
              (state_start env_plain) env_plain He) as (H1 & _).
  destruct (have_library_resolves world_resolver "libavcodec.so"
              (state_start env_plain) env_plain He) as (_ & H2).
  destruct (have_library_resolves world_resolver "avcodec"
              (state_start env_plain) env_plain He) as (_ & H3).
  destruct (have_library_resolves world_resolver "libz.so.1"
              (state_start env_plain) env_plain He) as (_ & H4).
  destruct (have_library_resolves world_resolver "madeup_lib_xyz"
              (state_start env_plain) env_plain He) as (_ & H5).
  destruct (have_library_resolves world_bare "madeup_lib_xyz"
              (state_start env_plain) env_plain He) as (_ & H6).
  destruct (H2 (or_introl eq_refl)) as (T2 & _ & R2 & _).
  destruct (H3 (or_introl eq_refl)) as (_ & _ & R3 & _).
  destruct (H4 (or_intror eq_refl)) as (_ & _ & R4 & _).
  destruct (H5 (or_introl eq_refl)) as (T5 & _ & R5 & _).
  destruct (H6 (or_introl eq_refl)) as (_ & _ & _ & R6).
  split; [apply (H1 "libopencv_core.so.2.4" eq_refl); discriminate|].
  split; [split; [apply (R2 0 EmptyString eq_refl); reflexivity | exact T2]|].
  split; [apply (R3 1 EmptyString eq_refl); discriminate|].
  split; [apply (R4 1 EmptyString eq_refl); discriminate|].
  split; [split; [apply (R5 1 EmptyString eq_refl); discriminate | exact T5]|].
  apply R6. reflexivity.
Defined.

(** C6, counterexample. Where [pkg-config] cannot be started, a library
    that neither source knows does not give [False]: the call ends in the
    [OSError] of the launch. *)
Lemma have_library_launch_failure_is_not_false :
  find_library world_bare (get_lib_short_name "madeup_lib_xyz") = None
  ∧ spawn world_bare ["pkg-config"; "--exists"; "madeup_lib_xyz"]
      (spec_augmented env_plain) = None
  ∧ fst (have_library world_bare "madeup_lib_xyz" (state_start env_plain)) = Raise OSError
  ∧ ¬ (∀ (w : world) (name : string) (s : state),
         find_library w (get_lib_short_name name) = None →
         (∀ c out, spawn w ["pkg-config"; "--exists"; name] (spec_augmented (ambient s))
                   = Some (c, out) → c ≠ 0) →
         fst (have_library w name s) = Ok false).
Proof.
  split; [reflexivity|]. split; [reflexivity|].
  assert (fst (have_library world_bare "madeup_lib_xyz" (state_start env_plain))
          = Raise OSError) as H by (vm_compute; reflexivity).
  split; [exact H|].
  intros Hall.
  specialize (Hall world_bare "madeup_lib_xyz" (state_start env_plain) eq_refl).
  rewrite H in Hall. discriminate Hall. intros c out [=].
Qed.




(** ** PkgConfigQuery: [pkg_config_res] *)

Section PkgConfig.

Lemma contains_lLI (c : ascii) :
  PyStr.contains "lLI" (String c EmptyString)
  = (Ascii.eqb c "l" || Ascii.eqb c "L" || Ascii.eqb c "I").
Proof.
  unfold PyStr.contains. cbn [PyStr.find PyStr.startswith].
  destruct (Ascii.eqb c "l"), (Ascii.eqb c "L"), (Ascii.eqb c "I"); reflexivity.
Qed.

Lemma eqb_empty (x : string) : PyStr.eqb x "" = bool_decide (x = "").
Proof. reflexivity. Qed.

(** One turn of the loop on a piece that is not empty. *)
Lemma pkg_config_res_loop_cons (x : string) (rest lst : list string) :
  x ≠ "" → indexable x →
  pkg_config_res_loop (x :: rest) lst = pkg_config_res_loop rest (lst ++ [flag_value x]).
Proof.
  intros Hx Hi. cbn [pkg_config_res_loop]. rewrite eqb_empty, bool_decide_eq_false_2 by exact Hx.
  unfold indexable in Hi. unfold flag_value.
  destruct (PyStr.strip x) as [|c r] eqn:Es; [contradiction Hi; reflexivity|].
  cbn [head_char strip_one_dash PyStr.drop] in *.
  destruct (Ascii.eqb c "-").
  - destruct r as [|c' r']; [contradiction Hi; reflexivity|].
    cbn [head_char classify PyStr.drop]. rewrite contains_lLI.
    destruct (Ascii.eqb c' "l"), (Ascii.eqb c' "L"), (Ascii.eqb c' "I"); reflexivity.
  - cbn [head_char classify PyStr.drop]. rewrite contains_lLI.
    destruct (Ascii.eqb c "l"), (Ascii.eqb c "L"), (Ascii.eqb c "I"); reflexivity.
Qed.



End PkgConfig.




(** A piece that is a bare dash, or only whitespace other than spaces, makes
    the loop index an empty string. *)
Lemma pkg_config_res_loop_index_error :
  pkg_config_res_loop ["-I/usr/include"; "-"] [] = Raise IndexError
  ∧ pkg_config_res_loop ["-I/usr/include"; tab] [] = Raise IndexError.
Proof. split; vm_compute; reflexivity. Qed.

(** ** DependencyGate: [check_dependencies] *)

Section Gate.

Variable w : world.
Variable e : gmap string string.
Variable path : list string.

#[local] Abbreviation eval := (eval_requirement w e path).
#[local] Abbreviation gate := (gate_spec w e path).

Lemma gate_app (l1 l2 : list requirement) :
  gate (l1 ++ l2) =
  match gate l1 with
  | (Ok (true, _), evs) => (fst (gate l2), evs ++ snd (gate l2))
  | other => other
  end.
Proof.
  induction l1 as [|r l1 IH]; cbn [app gate_spec].
  - destruct (gate l2); reflexivity.
  - destruct (eval r) as [[[|]|x] evs]; [|reflexivity|reflexivity].
    rewrite IH. destruct (gate l1) as [[[[|] m]|x] evs1]; cbn [fst snd]; try reflexivity.
    rewrite app_assoc. reflexivity.
Qed.

Lemma gate_all_pass (reqs : list requirement) :
  Forall (fun q => fst (eval q) = Ok true) reqs →
  gate reqs = (Ok (true, None), contacts w e path reqs).
Proof.
  induction 1 as [|q reqs Hq _ IH]; [reflexivity|].
  cbn [gate_spec]. destruct (eval q) as [r evs] eqn:E. cbn [fst] in Hq. subst r.
  rewrite IH. unfold contacts. cbn [map concat fst snd]. rewrite E. reflexivity.
Qed.

Lemma gate_first_failure (pre post : list requirement) (r : requirement) :
  Forall (fun q => fst (eval q) = Ok true) pre →
  fst (eval r) = Ok false →
  gate (pre ++ r :: post)
  = (Ok (false, Some (failure_message w r)), contacts w e path (pre ++ [r])).
Proof.
  intros Hpre Hr. rewrite gate_app, (gate_all_pass pre Hpre). cbn [gate_spec].
  destruct (eval r) as [res evs] eqn:E. cbn [fst] in Hr. subst res. cbn [fst snd].
  unfold contacts. rewrite map_app, concat_app. cbn [map concat]. rewrite E, app_nil_r.
  reflexivity.
Qed.

Lemma gate_first_raise (pre post : list requirement) (r : requirement) (x : exn) :
  Forall (fun q => fst (eval q) = Ok true) pre →
  fst (eval r) = Raise x →
  gate (pre ++ r :: post) = (Raise x, contacts w e path (pre ++ [r])).
Proof.
  intros Hpre Hr. rewrite gate_app, (gate_all_pass pre Hpre). cbn [gate_spec].
  destruct (eval r) as [res evs] eqn:E. cbn [fst] in Hr. subst res. cbn [fst snd].
  unfold contacts. rewrite map_app, concat_app. cbn [map concat]. rewrite E, app_nil_r.
  reflexivity.
Qed.

Lemma have_command_steps (x : string) (s : state) :
  heap s !! os_environ = Some e →
  ∃ s', steps (have_command w x) s
          (fst (probe_command w e x)) (snd (probe_command w e x)) s'.
Proof.
  intros He. exists (with_events s (snd (probe_command w e x))).
  split; [|repeat split].
  rewrite have_command_run. unfold ambient. rewrite He. reflexivity.
Qed.

Lemma bind_ok {A B} (m : M A) (k : A → M B) (s s1 : state) (a : A) :
  m s = (Ok a, s1) → bind m k s = k a s1.
Proof. unfold bind. intros ->. reflexivity. Qed.

Lemma bind_raise {A B} (m : M A) (k : A → M B) (s s1 : state) (x : exn) :
  m s = (Raise x, s1) → bind m k s = (Raise x, s1).
Proof. unfold bind. intros ->. reflexivity. Qed.

(** A loop of the gate is the gate over the requirements of its list. *)
Lemma for_each_gate {A} (l : list A) (body : A → M (option (bool * option string)))
    (probe : A → M bool) (req : A → requirement) (s : state) :
  (∀ x s0, heap s0 !! os_environ = Some e →
           ∃ s', steps (probe x) s0 (fst (eval (req x))) (snd (eval (req x))) s') →
  (∀ x, body x =
        (let* ok := probe x in
         if negb ok then ret (Some (false, Some (failure_message w (req x))))
         else ret None)) →
  heap s !! os_environ = Some e →
  ∃ s', steps (for_each l body) s
          (loop_result (fst (gate (map req l)))) (snd (gate (map req l))) s'.
Proof.
  intros Hprobe Hbody. revert s. induction l as [|x l IH]; intros s He.
  - exists s. cbn. unfold steps, ret. rewrite app_nil_r. auto.
  - destruct (Hprobe x s He) as (s1 & Hrun & He1 & Ht1 & Hp1).
    cbn [for_each map gate_spec]. rewrite Hbody.
    destruct (eval (req x)) as [[[|]|ex] evs]; cbn [fst snd] in *.
    + destruct (IH s1) as (s2 & Hrun2 & He2 & Ht2 & Hp2); [congruence|].
      exists s2. split.
      * erewrite bind_ok; [|erewrite bind_ok by exact Hrun; reflexivity]. exact Hrun2.
      * split; [congruence|]. split; [|congruence].
        rewrite Ht2, Ht1, app_assoc. reflexivity.
    + exists s1. split.
      * erewrite bind_ok; [|erewrite bind_ok by exact Hrun; reflexivity]. reflexivity.
      * auto.
    + exists s1. split.
      * erewrite bind_raise; [reflexivity|]. erewrite bind_raise by exact Hrun. reflexivity.
      * auto.
Qed.

End Gate.

(** The import step, with the insertions into [sys.path] before it. *)
Lemma import_step_run (w : world) (e : gmap string string) (s : state)
    (k : M (bool * option string)) :
  k = ret (true, None) →
  ∃ s',
    (let* _ := sys_path_insert 1 ("/usr/local/lib/python" +:+ py_ver w +:+ "/site-packages") in
     let* _ := sys_path_insert 2 ("/usr/local/lib/python" +:+ py_ver w +:+ "/dist-packages") in
     let* _ := sys_path_insert 3 ("/usr/lib/python" +:+ py_ver w +:+ "/site-packages") in
     let* _ := sys_path_insert 4 ("/usr/lib/python" +:+ py_ver w +:+ "/dist-packages") in
     let* _ := match homebrew_site_pkgs w with
               | Some h => sys_path_insert 1 h
               | None => ret tt
               end in
     let* r := try_import_cv2 w in
     match r with Some v => ret v | None => k end) s
    = (fst (gate_spec w e (sys_path s) [ReqImport]), s')
    ∧ heap s' = heap s
    ∧ trace s' = trace s ++ snd (gate_spec w e (sys_path s) [ReqImport]).
Proof.
  intros ->. cbn [gate_spec eval_requirement fst snd].
  unfold bind, sys_path_insert, try_import_cv2, get_sys_path, log, bind, ret, raise.
  cbn [heap trace sys_path]. unfold gate_sys_path.
  destruct (homebrew_site_pkgs w) as [h|]; cbn [heap trace sys_path];
    destruct (import_cv2 w _); cbn [fst snd app];
    eexists; (split; [reflexivity|]); cbn [heap trace]; rewrite ?app_nil_r; auto.
Qed.

Lemma check_dependencies_gate (w : world) (s : state) (e : gmap string string) :
  heap s !! os_environ = Some e →
  ∃ s',
    check_dependencies w s = (fst (gate_spec w e (sys_path s) (documented_order w)), s')
    ∧ heap s' !! os_environ = Some e
    ∧ trace s' = trace s ++ snd (gate_spec w e (sys_path s) (documented_order w)).
Proof.
  intros He. unfold check_dependencies, documented_order.
  cbn [app gate_spec eval_requirement].
  destruct (py_ver_X w =? 2)%nat; cbn [negb fst snd app];
    [|exists s; rewrite app_nil_r; auto].
  (* the tools *)
  destruct (for_each_gate w e (sys_path s) (required_tools w) _
              (have_command w) ReqTool s
              (have_command_steps w e) (fun x => eq_refl) He)
    as (s1 & Hrun1 & He1 & Ht1 & Hp1).
  rewrite gate_app.
  destruct (gate_spec w e (sys_path s) (map ReqTool (required_tools w)))
    as [[[[|] m1]|x1] evs1]; cbn [loop_result fst snd] in *;
    [erewrite bind_ok by exact Hrun1
    |erewrite bind_ok by exact Hrun1; exists s1; split; [reflexivity|split; congruence]
    |erewrite bind_raise by exact Hrun1; exists s1; split; [reflexivity|split; congruence]].
  (* the libraries *)
  assert (heap s1 !! os_environ = Some e) as He1' by congruence.
  destruct (for_each_gate w e (sys_path s) required_libraries _
              (have_library w) ReqLibrary s1
              (fun x s0 => have_library_steps w x s0 e) (fun x => eq_refl) He1')
    as (s2 & Hrun2 & He2 & Ht2 & Hp2).
  rewrite gate_app.
  destruct (gate_spec w e (sys_path s) (map ReqLibrary required_libraries))
    as [[[[|] m2]|x2] evs2]; cbn [loop_result fst snd] in *;
    [erewrite bind_ok by exact Hrun2
    |erewrite bind_ok by exact Hrun2; exists s2; split; [reflexivity|];
       split; [congruence|]; rewrite Ht2, Ht1, app_assoc; reflexivity
    |erewrite bind_raise by exact Hrun2; exists s2; split; [reflexivity|];
       split; [congruence|]; rewrite Ht2, Ht1, app_assoc; reflexivity].
  (* the object files *)
  assert (heap s2 !! os_environ = Some e) as He2' by congruence.
  destruct (for_each_gate w e (sys_path s) required_object_files
              (fun '(x, y) =>
                 let* ok := have_library_object_file w x y in
                 if negb ok
                 then ret (Some (false,
                        Some (x +:+ " library is missing object file " +:+ y)))
                 else ret None)
              (fun p => have_library_object_file w (fst p) (snd p))
              (fun p => ReqObjectFile (fst p) (snd p)) s2
              (fun p s0 => have_library_object_file_steps w (fst p) (snd p) s0 e)
              (fun p => match p with (x, y) => eq_refl end) He2')
    as (s3 & Hrun3 & He3 & Ht3 & Hp3).
  rewrite gate_app.
  destruct (gate_spec w e (sys_path s)
              (map (fun p => ReqObjectFile (fst p) (snd p)) required_object_files))
    as [[[[|] m3]|x3] evs3]; cbn [loop_result fst snd] in *;
    [erewrite bind_ok by exact Hrun3
    |erewrite bind_ok by exact Hrun3; exists s3; split; [reflexivity|];
       split; [congruence|]; rewrite Ht3, Ht2, Ht1, !app_assoc; reflexivity
    |erewrite bind_raise by exact Hrun3; exists s3; split; [reflexivity|];
       split; [congruence|]; rewrite Ht3, Ht2, Ht1, !app_assoc; reflexivity].
  (* the import *)
  destruct (import_step_run w e s3 _ eq_refl) as (s4 & Hrun4 & Hh4 & Ht4).
  assert (sys_path s3 = sys_path s) as Hp by congruence. rewrite Hp in Hrun4, Ht4.
  exists s4. split; [exact Hrun4|]. split; [rewrite Hh4; congruence|].
  rewrite Ht4, Ht3, Ht2, Ht1, !app_assoc. reflexivity.
Qed.

(** Every diagnostic names one requirement of the list only. *)
Lemma failure_messages_distinct (w : world) :
  NoDup (map (failure_message w) (documented_order w)).
Proof.
  unfold documented_order, required_tools, required_libraries, required_object_files.
  destruct (PyStr.startswith (platform w) "linux");
    cbn [map app failure_message fst snd];
    repeat (apply NoDup_cons; split;
            [rewrite ?elem_of_cons, elem_of_nil;
             intros H; repeat (destruct H as [H|H]; [discriminate H|]); exact H|]);
    apply NoDup_nil_2.
Qed.

(** C1. [check_dependencies] walks the requirements in the documented
    order: the major version, the tools, the libraries, the object files,
    the import. At the first requirement that does not hold it returns
    [False] with the diagnostic of that requirement, and the contacts it has
    made are those of the requirements up to and including that one, none of
    a later one. In particular, under a major version other than 2 it
    returns the version diagnostic and leaves the state as it was: no
    subprocess, no library search, no import. When every requirement holds
    it returns [(True, None)]. No two requirements share a diagnostic, and
    [os.environ] is left as it was. *)
Theorem check_dependencies_short_circuits :
  ∀ (w : world) (s : state) (e : gmap string string),
    heap s !! os_environ = Some e →
    documented_order w
    = [ReqVersion]
      ++ map ReqTool
           (["pkg-config"]
            ++ (if PyStr.startswith (platform w) "linux" then ["ldconfig"] else [])
            ++ ["python" +:+ py_ver w +:+ "-config"])
      ++ map ReqLibrary ["opencv"; "avformat"; "avcodec"; "avutil"; "OpenCL"]
      ++ [ReqObjectFile "opencv" "libopencv_ocl.so";
          ReqObjectFile "opencv" "libopencv_core.so";
          ReqObjectFile "opencv" "libopencv_imgproc.so"]
      ++ [ReqImport]
    ∧ (∀ (pre post : list requirement) (r : requirement),
         documented_order w = pre ++ r :: post →
         Forall (fun q => fst (eval_requirement w e (sys_path s) q) = Ok true) pre →
         fst (eval_requirement w e (sys_path s) r) = Ok false →
         fst (check_dependencies w s) = Ok (false, Some (failure_message w r))
         ∧ trace (snd (check_dependencies w s))
           = trace s ++ contacts w e (sys_path s) (pre ++ [r]))
    ∧ (py_ver_X w ≠ 2%nat →
       check_dependencies w s
       = (Ok (false, Some ("Python " +:+ py_ver w +:+ " is not version 2.x")), s))
    ∧ (Forall (fun q => fst (eval_requirement w e (sys_path s) q) = Ok true)
              (documented_order w) →
       fst (check_dependencies w s) = Ok (true, None)
       ∧ trace (snd (check_dependencies w s))
         = trace s ++ contacts w e (sys_path s) (documented_order w))
    ∧ (∀ (pre post : list requirement) (r : requirement) (x : exn),
         documented_order w = pre ++ r :: post →
         Forall (fun q => fst (eval_requirement w e (sys_path s) q) = Ok true) pre →
         fst (eval_requirement w e (sys_path s) r) = Raise x →
         fst (check_dependencies w s) = Raise x
         ∧ trace (snd (check_dependencies w s))
           = trace s ++ contacts w e (sys_path s) (pre ++ [r]))
    ∧ NoDup (map (failure_message w) (documented_order w))
    ∧ heap (snd (check_dependencies w s)) !! os_environ = Some e.
Proof.
  intros w s e He.
  destruct (check_dependencies_gate w s e He) as (s' & Hrun & He' & Ht).
  split; [reflexivity|]. split; [|split; [|split; [|split; [|split]]]].
  - intros pre post r Hord Hpre Hr. rewrite Hrun. cbn [fst snd].
    rewrite Ht, Hord, (gate_first_failure w e (sys_path s) pre post r Hpre Hr). auto.
  - intros Hv. unfold check_dependencies.
    destruct (Nat.eqb_spec (py_ver_X w) 2); [contradiction|]. reflexivity.
  - intros Hall. rewrite Hrun. cbn [fst snd].
    rewrite Ht, (gate_all_pass w e (sys_path s) _ Hall). auto.
  - intros pre post r x Hord Hpre Hr. rewrite Hrun. cbn [fst snd].
    rewrite Ht, Hord, (gate_first_raise w e (sys_path s) pre post r x Hpre Hr). auto.
  - apply failure_messages_distinct.
  - rewrite Hrun. exact He'.
Qed.

Lemma check_dependencies_short_circuits_witness :
  check_dependencies world_python3 (state_start env_plain)
  = (Ok (false, Some "Python 3.4 is not version 2.x"), state_start env_plain)
  ∧ fst (check_dependencies world_no_libraries (state_start env_plain))
    = Ok (false, Some "opencv library is needed to complete the build process")
  ∧ trace (snd (check_dependencies world_no_libraries (state_start env_plain)))
    = [EvSpawn ["which"; "pkg-config"] env_plain;
       EvSpawn ["which"; "ldconfig"] env_plain;
       EvSpawn ["which"; "python2.7-config"] env_plain;
       EvFindLibrary "opencv";
       EvSpawn ["pkg-config"; "--exists"; "opencv"] (spec_augmented env_plain)]
  ∧ fst (check_dependencies (world_complete opencv_libs_out) (state_start env_plain))
    = Ok (true, None).
Proof.
  assert (heap (state_start env_plain) !! os_environ = Some env_plain) as He
    by (vm_compute; reflexivity).
  destruct (check_dependencies_short_circuits world_python3 (state_start env_plain)
              env_plain He) as (_ & _ & H3 & _).
  destruct (check_dependencies_short_circuits world_no_libraries (state_start env_plain)
              env_plain He) as (_ & H2 & _).
  destruct (check_dependencies_short_circuits (world_complete opencv_libs_out)
              (state_start env_plain) env_plain He) as (_ & _ & _ & H4 & _).
  split; [apply H3; discriminate|].
  destruct (H2 [ReqVersion; ReqTool "pkg-config"; ReqTool "ldconfig";
                ReqTool "python2.7-config"]
              (map ReqLibrary ["avformat"; "avcodec"; "avutil"; "OpenCL"]
               ++ [ReqObjectFile "opencv" "libopencv_ocl.so";
                   ReqObjectFile "opencv" "libopencv_core.so";
                   ReqObjectFile "opencv" "libopencv_imgproc.so"; ReqImport])
              (ReqLibrary "opencv")) as (Hres & Htr).
  - vm_compute. reflexivity.
  - repeat constructor.
  - vm_compute. reflexivity.
  - split; [exact Hres|]. split; [rewrite Htr; vm_compute; reflexivity|].
    apply H4. unfold documented_order.
    repeat (apply Forall_cons; split; [vm_compute; reflexivity|]). apply Forall_nil_2.
Defined.

(** * Further properties

    ** The normalizer and [chop_at] *)

Section MoreNormalizer.
Import PyStr PyStrFacts.

Lemma app_assoc_s (a b c : string) : (a +:+ b) +:+ c = a +:+ (b +:+ c).
Proof. induction a as [|x a IH]; [reflexivity|]. rewrite !app_cons, IH. reflexivity. Qed.

Lemma app_nil_r_s (a : string) : a +:+ "" = a.
Proof. induction a as [|x a IH]; [reflexivity|]. rewrite app_cons, IH. reflexivity. Qed.

Lemma length_app_s (a b : string) :
  String.length (a +:+ b) = (String.length a + String.length b)%nat.
Proof. induction a as [|x a IH]; [reflexivity|]. rewrite app_cons. simpl. rewrite IH. reflexivity. Qed.

(** [y] occurs in [x] exactly when [find] finds it. *)
Lemma find_found_iff (x y : string) :
  find x y ≠ -1 ↔ ∃ a b, x = a +:+ y +:+ b.
Proof.
  split.
  - induction x as [|c x IH]; simpl find.
    + destruct (startswith "" y) eqn:E; [|intros H; contradiction H; reflexivity].
      intros _. apply startswith_app in E as [t Ht]. exists "", t. exact Ht.
    + destruct (startswith (String c x) y) eqn:E.
      * intros _. apply startswith_app in E as [t Ht]. exists "", t. exact Ht.
      * destruct (Z.eqb_spec (find x y) (-1)) as [E1|E1];
          [intros H; contradiction H; reflexivity|].
        intros _. destruct (IH E1) as (a & b & ->). exists (String c a), b. reflexivity.
  - intros (a & b & ->). induction a as [|c a IH].
    + rewrite app_nil_l.
      assert (startswith (y +:+ b) y = true) as E by (apply startswith_app; eauto).
      destruct (y +:+ b); simpl find; rewrite E; discriminate.
    + rewrite app_cons. simpl find.
      destruct (startswith _ y); [discriminate|].
      destruct (Z.eqb_spec (find (a +:+ y +:+ b) y) (-1)) as [E1|E1]; [contradiction|].
      destruct (find_range (a +:+ y +:+ b) y); [contradiction | lia].
Qed.

(** X1. [chop_at x y] is [x] when [y] does not occur in it, and otherwise
    what stands before an occurrence of [y]; for a non-empty [y] nothing of
    [y] is left in the result, so cutting again changes nothing. *)
Theorem chop_at_cuts_at_first_occurrence :
  ∀ x y : string,
    (find x y = -1 → chop_at x y = x)
    ∧ (find x y ≠ -1 → ∃ t, x = chop_at x y +:+ y +:+ t)
    ∧ (y ≠ "" → find (chop_at x y) y = -1)
    ∧ chop_at (chop_at x y) y = chop_at x y
    ∧ startswith x (chop_at x y) = true.
Proof.
  intros x y. split; [apply chop_at_id|]. split; [|split; [apply find_chop_at|split]].
  - induction x as [|c x IH]; intros Hf.
    + rewrite chop_at_nil. simpl in Hf.
      destruct (startswith "" y) eqn:E; [|contradiction Hf; reflexivity].
      apply startswith_app in E as [t Ht]. exists t. exact Ht.
    + rewrite chop_at_cons. destruct (startswith (String c x) y) eqn:E.
      * apply startswith_app in E as [t Ht]. exists t. exact Ht.
      * assert (find x y ≠ -1) as Hx.
        { intros Hx. apply Hf. apply find_none_cons. auto. }
        destruct (IH Hx) as [t Ht]. exists t. rewrite app_cons, <- Ht. reflexivity.
  - destruct y as [|d y].
    + assert (∀ z, chop_at z "" = "") as Hz
        by (intros [|? ?]; [apply chop_at_nil | rewrite chop_at_cons; reflexivity]).
      rewrite !Hz. reflexivity.
    + apply chop_at_id, find_chop_at. discriminate.
  - apply chop_at_prefix.
Qed.

Lemma chop_at_cuts_at_first_occurrence_witness :
  chop_at "libopencv_core.so.2.4.so" ".so" = "libopencv_core"
  ∧ ∃ t, "libopencv_core.so.2.4.so" = chop_at "libopencv_core.so.2.4.so" ".so" +:+ ".so" +:+ t.
Proof.
  destruct (chop_at_cuts_at_first_occurrence "libopencv_core.so.2.4.so" ".so")
    as (_ & H & _).
  split; [reflexivity|]. apply H. vm_compute. discriminate.
Defined.

(** X2. A canonical name never holds a slash or one of the three suffixes,
    and is never longer than the name it comes from. *)
Theorem short_name_has_no_slash_no_suffix :
  ∀ name : string,
    slash_free (get_lib_short_name name) = true
    ∧ contains (get_lib_short_name name) ".so" = false
    ∧ contains (get_lib_short_name name) ".dylib" = false
    ∧ contains (get_lib_short_name name) ".a" = false
    ∧ (String.length (get_lib_short_name name) ≤ String.length name)%nat.
Proof.
  intros name. destruct (short_name_shape name) as (H1 & H2 & H3 & H4).
  unfold contains. rewrite H2, H3, H4.
  repeat (split; [first [exact H1 | reflexivity]|]).
  rewrite get_lib_short_name_unfold.
  pose proof (length_chop_suffixes
    (strip_leading "lib" (strip_leading "-l" (basename (strip name))))).
  pose proof (length_strip_leading "lib" (strip_leading "-l" (basename (strip name)))).
  pose proof (length_strip_leading "-l" (basename (strip name))).
  pose proof (length_basename (strip name)).
  pose proof (length_strip name). lia.
Qed.

(** X3. The names the normalizer leaves as they are: those with no
    whitespace at either end, no slash, neither marker in front and none
    of the three suffixes inside; and no others. *)
Theorem short_name_fixed_points :
  ∀ n : string,
    get_lib_short_name n = n
    ↔ (strip n = n ∧ slash_free n = true
       ∧ startswith n "-l" = false ∧ startswith n "lib" = false
       ∧ find n ".so" = -1 ∧ find n ".dylib" = -1 ∧ find n ".a" = -1).
Proof.
  intros n. split.
  - intros Hfix. pose proof (short_name_shape n) as Hs. cbn zeta in Hs. rewrite Hfix in Hs.
    destruct Hs as (H1 & H2 & H3 & H4).
    pose proof (short_name_fixed_iff n) as Hi. cbn zeta in Hi. rewrite !Hfix in Hi.
    destruct (proj1 Hi eq_refl) as (Ha & Hb & Hc). auto 10.
  - intros (Es & Hsl & El & Elib & Hso & Hdy & Ha).
    rewrite get_lib_short_name_unfold, Es, (basename_id n Hsl).
    rewrite (strip_leading_id _ _ El), (strip_leading_id _ _ Elib).
    unfold chop_suffixes.
    rewrite (chop_at_id n ".so" Hso), (chop_at_id n ".dylib" Hdy).
    apply chop_at_id, Ha.
Qed.

Lemma lstrip_app_slash (d f : string) :
  lstrip (d +:+ "/" +:+ f) = lstrip d +:+ "/" +:+ f.
Proof.
  induction d as [|c d IH]; [reflexivity|].
  rewrite app_cons. simpl lstrip. destruct (is_space c); [exact IH|]. reflexivity.
Qed.

Lemma rstrip_slash_cons (f : string) :
  rstrip f = f → rstrip ("/" +:+ f) = "/" +:+ f.
Proof.
  intros H. change ("/" +:+ f) with (String "/" f). simpl rstrip. rewrite H.
  destruct f; reflexivity.
Qed.

Lemma rstrip_app_keep (d t : string) :
  rstrip t = t → t ≠ "" → rstrip (d +:+ t) = d +:+ t.
Proof.
  intros Ht Hne. induction d as [|c d IH]; [exact Ht|].
  rewrite app_cons. simpl rstrip. rewrite IH.
  destruct (d +:+ t) eqn:E; [|reflexivity].
  destruct d; [rewrite app_nil_l in E; contradiction | discriminate E].
Qed.

Lemma strip_fixed_parts (f : string) : strip f = f → lstrip f = f ∧ rstrip f = f.
Proof.
  unfold strip. intros H.
  pose proof (length_rstrip (lstrip f)). pose proof (length_lstrip f).
  pose proof (f_equal String.length H) as Hl.
  assert (lstrip f = f) as E by (apply lstrip_length_eq; lia).
  rewrite E in H. auto.
Qed.

Lemma basename_app_slash (d f : string) :
  slash_free f = true → basename (d +:+ "/" +:+ f) = f.
Proof.
  intros Hf. induction d as [|c d IH].
  - change ("" +:+ "/" +:+ f) with (String "/" f). rewrite basename_cons, Hf. reflexivity.
  - rewrite app_cons, basename_cons.
    assert (slash_free (d +:+ "/" +:+ f) = false) as E.
    { clear IH. induction d as [|c' d IHd]; [reflexivity|].
      rewrite app_cons. simpl. rewrite IHd. apply andb_false_r. }
    rewrite E. exact IH.
Qed.

(** X4. A directory in front does not change the canonical name: a full
    path to a library file is reduced like the bare file name. *)
Theorem short_name_ignores_directory :
  ∀ dir file : string,
    slash_free file = true → strip file = file →
    get_lib_short_name (dir +:+ "/" +:+ file) = get_lib_short_name file.
Proof.
  intros dir file Hsl Hs. destruct (strip_fixed_parts file Hs) as (Hl & Hr).
  rewrite !get_lib_short_name_unfold. do 3 f_equal.
  rewrite Hs, (basename_id file Hsl).
  unfold strip. rewrite lstrip_app_slash.
  rewrite rstrip_app_keep; [apply basename_app_slash, Hsl | apply rstrip_slash_cons, Hr |].
  discriminate.
Qed.

Lemma short_name_ignores_directory_witness :
  get_lib_short_name "/usr/lib/x86_64-linux-gnu/libopencv_core.so"
  = get_lib_short_name "libopencv_core.so".
Proof.
  apply (short_name_ignores_directory "/usr/lib/x86_64-linux-gnu" "libopencv_core.so");
    reflexivity.
Defined.

End MoreNormalizer.

(** ** InstalledPathLookup *)

Section MoreLookup.
Import PyStr PyStrFacts.

(** Every piece of a split is a part of the string that was split. *)
Lemma split_go_pieces (sep : string) (s cur : string) (skip : nat) (q : string) :
  (skip = 0%nat ∨ cur = "") →
  q ∈ split_go sep cur skip s → ∃ a b, cur +:+ s = a +:+ q +:+ b.
Proof.
  revert cur skip. induction s as [|c s IH]; intros cur skip Hinv Hq.
  - cbn [split_go] in Hq. apply list_elem_of_singleton in Hq as ->.
    exists "", "". rewrite !app_nil_r_s. reflexivity.
  - cbn [split_go] in Hq. destruct skip as [|k].
    + destruct (startswith (String c s) sep).
      * apply elem_of_cons in Hq as [-> | Hq].
        -- exists "", (String c s). reflexivity.
        -- destruct (IH "" _ (or_intror eq_refl) Hq) as (a & b & Hab).
           rewrite app_nil_l in Hab.
           exists (cur +:+ String c a), b. rewrite app_assoc_s, app_cons, Hab. reflexivity.
      * destruct (IH _ 0%nat (or_introl eq_refl) Hq) as (a & b & Hab).
        exists a, b. rewrite <- Hab, app_assoc_s. reflexivity.
    + destruct Hinv as [? | ->]; [discriminate|].
      destruct (IH "" k (or_intror eq_refl) Hq) as (a & b & Hab).
      rewrite app_nil_l in Hab |- *. exists (String c a), b. rewrite app_cons, Hab.
      reflexivity.
Qed.

Lemma split_piece_found (s sep q y : string) :
  q ∈ split s sep → startswith q y = true → find s y ≠ -1.
Proof.
  intros Hq Hy. apply (split_go_pieces sep s "" 0%nat q (or_introl eq_refl)) in Hq
    as (a & b & Hab).
  rewrite app_nil_l in Hab. apply startswith_app in Hy as [t ->].
  apply find_found_iff. exists a, (t +:+ b). rewrite Hab, app_assoc_s. reflexivity.
Qed.

Lemma installed_path_scan_none (libname : string) (res : list string) :
  installed_path_scan libname res = Ok None
  ↔ Forall (fun x => startswith x libname = false) res.
Proof.
  induction res as [|x res IH]; cbn [installed_path_scan].
  - split; [constructor | reflexivity].
  - destruct (startswith x libname) eqn:E.
    + split.
      * destruct (split x "=>" !! 1%nat); discriminate.
      * intros H. apply Forall_cons in H as [H _]. congruence.
    + rewrite IH. split; [intros H; constructor; assumption|].
      intros H. apply Forall_cons in H as [_ H]. exact H.
Qed.

Lemma installed_path_scan_first (libname : string) (pre post : list string) (x : string) :
  Forall (fun z => startswith z libname = false) pre →
  startswith x libname = true →
  installed_path_scan libname (pre ++ x :: post)
  = match split x "=>" !! 1%nat with
    | Some p => Ok (Some (strip p))
    | None => Raise IndexError
    end.
Proof.
  intros Hpre Hx. induction Hpre as [|z pre Hz _ IH]; cbn [app installed_path_scan].
  - rewrite Hx. reflexivity.
  - rewrite Hz. exact IH.
Qed.

(** The substring test in front of the scan never changes the answer. *)
Lemma lookup_guard_is_redundant (libname out : string) :
  (if negb (contains out libname) then Ok None
   else installed_path_scan libname (split out newline_tab))
  = installed_path_scan libname (split out newline_tab).
Proof.
  unfold contains. destruct (Z.eqb_spec (find out libname) (-1)) as [E|E]; [|reflexivity].
  cbn [negb]. symmetry. apply installed_path_scan_none, Forall_forall.
  intros q Hq. destruct (startswith q libname) eqn:Hs; [|reflexivity].
  exfalso. exact (split_piece_found _ _ _ _ Hq Hs E).
Qed.

End MoreLookup.

(** X5. Once [ldconfig -p] has run, [get_lib_installed_path] is decided by
    the pieces of its output, read with universal newlines, between
    newline-tab separators alone: it answers [None] exactly when no piece
    begins with the name; otherwise the first such piece decides, giving
    what follows its first [=>], trimmed, or an [IndexError] when that piece
    has no [=>]. *)
Theorem lookup_first_entry_decides :
  ∀ (w : world) (libname : string) (s : state) (c : Z) (out : string),
    spawn w ["ldconfig"; "-p"] (ambient s) = Some (c, out) →
    (fst (get_lib_installed_path w libname s) = Ok None
     ↔ Forall (fun x => PyStr.startswith x libname = false)
              (PyStr.split (PyStr.universal_newlines out) newline_tab))
    ∧ (∀ (pre post : list string) (x : string),
         PyStr.split (PyStr.universal_newlines out) newline_tab = pre ++ x :: post →
         Forall (fun z => PyStr.startswith z libname = false) pre →
         PyStr.startswith x libname = true →
         fst (get_lib_installed_path w libname s)
         = match PyStr.split x "=>" !! 1%nat with
           | Some p => Ok (Some (PyStr.strip p))
           | None => Raise IndexError
           end)
    ∧ snd (get_lib_installed_path w libname s)
      = with_events s [EvSpawn ["ldconfig"; "-p"] (ambient s)].
Proof.
  intros w libname s c out Hsp.
  rewrite get_lib_installed_path_run, Hsp. cbn [fst snd].
  rewrite lookup_guard_is_redundant. split; [apply installed_path_scan_none|].
  split; [|reflexivity].
  intros pre post x -> Hpre Hx. apply installed_path_scan_first; assumption.
Qed.

Lemma lookup_first_entry_decides_witness :
  fst (get_lib_installed_path (world_complete opencv_libs_out) "libOpenCL"
         (state_start env_plain))
  = Ok (Some "/usr/lib/x86_64-linux-gnu/libOpenCL.so.1")
  ∧ fst (get_lib_installed_path (world_complete opencv_libs_out) "OpenCL"
           (state_start env_plain)) = Ok None
  ∧ fst (get_lib_installed_path (world_complete opencv_libs_out) ""
           (state_start env_plain)) = Raise IndexError
  ∧ fst (get_lib_installed_path world_carriage_returns "libfoo"
           (state_start env_plain)) = Ok (Some "/opt/libfoo.so.1")
  ∧ PyStr.split (PyStr.universal_newlines listing_with_carriage_returns) newline_tab
    = ["1 libs found in cache `/etc/ld.so.cache'";
       "libfoo.so.1 (libc6,x86-64) => /opt/libfoo.so.1" +:+ newline].
Proof.
  destruct (lookup_first_entry_decides (world_complete opencv_libs_out) "libOpenCL"
              (state_start env_plain) 0 listing_with_opencl eq_refl) as (_ & H1 & _).
  destruct (lookup_first_entry_decides (world_complete opencv_libs_out) "OpenCL"
              (state_start env_plain) 0 listing_with_opencl eq_refl) as (H2 & _).
  destruct (lookup_first_entry_decides (world_complete opencv_libs_out) ""
              (state_start env_plain) 0 listing_with_opencl eq_refl) as (_ & H3 & _).
  destruct (lookup_first_entry_decides world_carriage_returns "libfoo"
              (state_start env_plain) 0 listing_with_carriage_returns eq_refl)
    as (_ & H4 & _).
  split; [|split; [|split; [|split]]].
  - rewrite (H1 ["2 libs found in cache `/etc/ld.so.cache'";
                 "libz.so.1 (libc6,x86-64) => /lib/x86_64-linux-gnu/libz.so.1"]
                []
                ("libOpenCL.so.1 (libc6,x86-64) => /usr/lib/x86_64-linux-gnu/libOpenCL.so.1"
                 +:+ newline));
      [vm_compute; reflexivity | vm_compute; reflexivity
      | repeat constructor | vm_compute; reflexivity].
  - apply H2. vm_compute. repeat constructor.
  - rewrite (H3 []
                ["libz.so.1 (libc6,x86-64) => /lib/x86_64-linux-gnu/libz.so.1";
                 "libOpenCL.so.1 (libc6,x86-64) => /usr/lib/x86_64-linux-gnu/libOpenCL.so.1"
                 +:+ newline]
                "2 libs found in cache `/etc/ld.so.cache'");
      [vm_compute; reflexivity | vm_compute; reflexivity
      | constructor | vm_compute; reflexivity].
  - rewrite (H4 ["1 libs found in cache `/etc/ld.so.cache'"] []
                ("libfoo.so.1 (libc6,x86-64) => /opt/libfoo.so.1" +:+ newline));
      [vm_compute; reflexivity | vm_compute; reflexivity
      | repeat constructor | vm_compute; reflexivity].
  - vm_compute. reflexivity.
Defined.

(** X6. Whatever [get_lib_filename_namespec] returns is a colon followed
    by a file name without a slash. *)
Theorem namespec_is_colon_and_file_name :
  ∀ (w : world) (libname : string) (s : state) (r : string),
    fst (get_lib_filename_namespec w libname s) = Ok r →
    ∃ f, r = ":" +:+ f ∧ slash_free f = true.
Proof.
  intros w libname s r. rewrite get_lib_filename_namespec_run. cbn [fst].
  destruct (fst (get_lib_installed_path w libname s)) as [[p|]|x]; try discriminate.
  intros [= <-]. exists (PyStr.basename p). split; [reflexivity|].
  apply PyStrFacts.basename_slash_free.
Qed.

Lemma namespec_is_colon_and_file_name_witness :
  ∃ f, ":libOpenCL.so.1" = ":" +:+ f ∧ slash_free f = true.
Proof.
  apply (namespec_is_colon_and_file_name (world_complete opencv_libs_out) "libOpenCL"
           (state_start env_plain)).
  vm_compute. reflexivity.
Defined.

(** ** PkgConfigQuery, once more *)

Section MorePkgConfig.

Lemma not_indexable_iff (t : string) :
  ¬ indexable t ↔ PyStr.strip t = "" ∨ PyStr.strip t = "-".
Proof.
  unfold indexable. destruct (PyStr.strip t) as [|c r]; cbn [strip_one_dash].
  - split; [auto | intros _ H; apply H; reflexivity].
  - destruct (Ascii.eqb_spec c "-") as [->|Hc].
    + destruct r as [|d r].
      * split; [intros _; right; reflexivity | intros _ H; apply H; reflexivity].
      * split; [intros H; exfalso; apply H; discriminate | intros [H|H]; discriminate H].
    + split; [intros H; exfalso; apply H; discriminate|].
      intros [H|H]; [discriminate H|]. injection H as -> _. contradiction Hc. reflexivity.
Qed.

Lemma pkg_config_res_loop_stuck (x : string) (rest lst : list string) :
  unindexable x → pkg_config_res_loop (x :: rest) lst = Raise IndexError.
Proof.
  intros [Hx Hs]. cbn [pkg_config_res_loop].
  rewrite eqb_empty, bool_decide_eq_false_2 by exact Hx.
  destruct Hs as [-> | ->]; reflexivity.
Qed.

Lemma pkg_config_res_loop_outcome (res lst : list string) :
  (Forall (fun t => t ≠ "" → indexable t) res
   ∧ pkg_config_res_loop res lst
     = Ok (lst ++ map flag_value (filter (fun t => t ≠ "") res)))
  ∨ (Exists unindexable res ∧ pkg_config_res_loop res lst = Raise IndexError).
Proof.
  revert lst. induction res as [|x res IH]; intros lst.
  - left. split; [constructor|]. cbn. rewrite app_nil_r. reflexivity.
  - destruct (decide (x = "")) as [->|Hne].
    + cbn [pkg_config_res_loop]. rewrite eqb_empty, bool_decide_eq_true_2 by reflexivity.
      rewrite filter_cons_False by (intros E; apply E; reflexivity).
      destruct (IH lst) as [[HF Hr]|[HE Hr]].
      * left. split; [constructor; [intros E; contradiction E; reflexivity | exact HF]
                     | exact Hr].
      * right. split; [apply Exists_cons_tl, HE | exact Hr].
    + destruct (decide (strip_one_dash (PyStr.strip x) = "")) as [Hs|Hs].
      * right. assert (unindexable x) as Hu.
        { split; [exact Hne|]. apply not_indexable_iff. intros Hi. apply Hi, Hs. }
        split; [apply Exists_cons_hd, Hu | apply pkg_config_res_loop_stuck, Hu].
      * rewrite pkg_config_res_loop_cons by assumption.
        rewrite filter_cons_True by exact Hne. cbn [map].
        destruct (IH (lst ++ [flag_value x])) as [[HF Hr]|[HE Hr]].
        -- left. split; [constructor; [intros _; exact Hs | exact HF]|].
           rewrite Hr, <- app_assoc. reflexivity.
        -- right. split; [apply Exists_cons_tl, HE | exact Hr].
Qed.

Lemma pkg_config_res_run (w : world) (opts : list string) (s : state)
    (e : gmap string string) :
  heap s !! os_environ = Some e →
  pkg_config_res w opts s
  = (match spawn w ("pkg-config" :: opts) (spec_augmented e) with
     | None => Raise OSError
     | Some r => pkg_config_res_loop (output_pieces (snd r)) []
     end,
     with_events (with_dict s (fresh (dom (heap s))) (spec_augmented e))
       [EvSpawn ("pkg-config" :: opts) (spec_augmented e)]).
Proof.
  intros He. unfold pkg_config_res, bind.
  rewrite (get_extra_envs_run s e He), popen_read_run.
  unfold with_dict, with_events. cbn [heap trace sys_path app].
  rewrite lookup_insert_eq. cbn [from_option id].
  destruct (spawn w _ _); reflexivity.
Qed.

End MorePkgConfig.

(** X7. Once [pkg-config] has run, [pkg_config_res] fails only with an
    [IndexError], and does so exactly when some non-empty piece of the
    output is whitespace only or a dash alone. When it returns, the list
    has one value for each non-empty piece; for an output that is blank it
    is empty. The exit status of [pkg-config] plays no part. *)
Theorem pkg_config_res_fails_only_on_bare_pieces :
  ∀ (w : world) (opts : list string) (s : state) (e : gmap string string)
    (c : Z) (out : string),
    heap s !! os_environ = Some e →
    spawn w ("pkg-config" :: opts) (spec_augmented e) = Some (c, out) →
    (fst (pkg_config_res w opts s) = Raise IndexError
     ↔ Exists unindexable (output_pieces out))
    ∧ (∀ x, fst (pkg_config_res w opts s) = Raise x → x = IndexError)
    ∧ (∀ l, fst (pkg_config_res w opts s) = Ok l →
            length l = length (filter (fun t => t ≠ "") (output_pieces out)))
    ∧ (PyStr.strip out = "" → fst (pkg_config_res w opts s) = Ok []).
Proof.
  intros w opts s e c out He Hsp.
  rewrite (pkg_config_res_run w opts s e He), Hsp. cbn [fst snd].
  destruct (pkg_config_res_loop_outcome (output_pieces out) []) as [[HF Hr]|[HE Hr]];
    rewrite Hr; cbn [app].
  - split; [split; [discriminate|]|].
    + intros HE. exfalso. apply Exists_exists in HE as (t & Ht & Hne & Hu).
      rewrite Forall_forall in HF. apply not_indexable_iff in Hu. exact (Hu (HF t Ht Hne)).
    + split; [discriminate|]. split.
      * intros l [= <-]. apply length_map.
      * intros Hb. unfold output_pieces. rewrite Hb. reflexivity.
  - split; [tauto|]. split; [intros x [= <-]; reflexivity|]. split; [discriminate|].
    intros Hb. exfalso. unfold output_pieces in HE. rewrite Hb in HE.
    apply Exists_exists in HE as (t & Ht & Hne & _).
    cbn in Ht. apply list_elem_of_singleton in Ht. contradiction.
Qed.

Lemma pkg_config_res_fails_only_on_bare_pieces_witness :
  fst (pkg_config_res (world_complete "-L/usr/lib - -lfoo") ["--libs"; "foo"]
         (state_start env_plain)) = Raise IndexError
  ∧ fst (pkg_config_res (world_complete newline) ["--libs"; "foo"]
           (state_start env_plain)) = Ok [].
Proof.
  assert (heap (state_start env_plain) !! os_environ = Some env_plain) as He
    by (vm_compute; reflexivity).
  destruct (pkg_config_res_fails_only_on_bare_pieces (world_complete "-L/usr/lib - -lfoo")
              ["--libs"; "foo"] (state_start env_plain) env_plain 0
              "-L/usr/lib - -lfoo" He eq_refl) as (H1 & _).
  destruct (pkg_config_res_fails_only_on_bare_pieces (world_complete newline)
              ["--libs"; "foo"] (state_start env_plain) env_plain 0
              newline He eq_refl) as (_ & _ & _ & H4).
  split; [|apply H4; reflexivity].
  apply H1. apply Exists_cons_tl, Exists_cons_hd.
  split; [discriminate | right; reflexivity].
Defined.

(** ** EnvironmentAugmenter, once more *)

(** X8. Augmentation does not compound: two calls in a row give two
    different dictionaries with the same contents, the search path extended
    once in each, and [os.environ] still as it was. *)
Theorem get_extra_envs_does_not_compound :
  ∀ (s : state) (e : gmap string string),
    heap s !! os_environ = Some e →
    ∃ l1 l2 : nat,
      fst (get_extra_envs s) = Ok l1
      ∧ fst (get_extra_envs (snd (get_extra_envs s))) = Ok l2
      ∧ l1 ≠ l2 ∧ l1 ≠ os_environ ∧ l2 ≠ os_environ
      ∧ heap (snd (get_extra_envs (snd (get_extra_envs s)))) !! l1
        = Some (spec_augmented e)
      ∧ heap (snd (get_extra_envs (snd (get_extra_envs s)))) !! l2
        = Some (spec_augmented e)
      ∧ heap (snd (get_extra_envs (snd (get_extra_envs s)))) !! os_environ = Some e.
Proof.
  intros s e He.
  rewrite (get_extra_envs_run s e He). cbn [fst snd].
  set (l1 := fresh (dom (heap s))).
  assert (l1 ≠ os_environ) as Hne1.
  { intros E. pose proof (fresh_not_allocated s) as H. fold l1 in H. rewrite E in H.
    congruence. }
  assert (heap (with_dict s l1 (spec_augmented e)) !! os_environ = Some e) as He1.
  { cbn. rewrite lookup_insert_ne by exact Hne1. exact He. }
  rewrite (get_extra_envs_run _ e He1). cbn [fst snd].
  set (s1 := with_dict s l1 (spec_augmented e)) in *.
  set (l2 := fresh (dom (heap s1))).
  pose proof (fresh_not_allocated s1) as Hf2. fold l2 in Hf2.
  assert (l2 ≠ os_environ) as Hne2 by (intros E; rewrite E in Hf2; congruence).
  assert (l1 ≠ l2) as Hne.
  { intros E. rewrite <- E in Hf2. subst s1. cbn in Hf2.
    rewrite lookup_insert_eq in Hf2. discriminate. }
  exists l1, l2. repeat (split; [first [reflexivity | assumption]|]).
  cbn [with_dict heap]. split; [|split].
  - rewrite lookup_insert_ne by congruence. subst s1. cbn. apply lookup_insert_eq.
  - apply lookup_insert_eq.
  - rewrite lookup_insert_ne by exact Hne2. exact He1.
Qed.

Lemma get_extra_envs_does_not_compound_witness :
  ∃ l1 l2 : nat,
    l1 ≠ l2
    ∧ heap (snd (get_extra_envs (snd (get_extra_envs (state_start env_with_search_path)))))
        !! l2 = Some (spec_augmented env_with_search_path).
Proof.
  assert (heap (state_start env_with_search_path) !! os_environ
          = Some env_with_search_path) as He by (vm_compute; reflexivity).
  destruct (get_extra_envs_does_not_compound (state_start env_with_search_path)
              env_with_search_path He) as (l1 & l2 & _ & _ & H3 & _ & _ & _ & H7 & _).
  exists l1, l2. split; assumption.
Defined.

(** ** LibraryResolver, once more *)

(** X9. A [pkg-config] that cannot be started is not taken for an absent
    library: [have_library] (when [find_library] has no answer),
    [have_library_object_file] (when the package resolves) and
    [pkg_config_res] all end in the [OSError] of the launch. *)
Theorem pkg_config_launch_failure_raises :
  ∀ (w : world) (name obj : string) (opts : list string) (s : state)
    (e : gmap string string),
    heap s !! os_environ = Some e →
    (falsy (find_library w (get_lib_short_name name)) = true →
     spawn w ["pkg-config"; "--exists"; name] (spec_augmented e) = None →
     fst (have_library w name s) = Raise OSError)
    ∧ (fst (have_library w name s) = Ok true →
       spawn w ["pkg-config"; "--libs"; name] (spec_augmented e) = None →
       fst (have_library_object_file w name obj s) = Raise OSError)
    ∧ (spawn w ("pkg-config" :: opts) (spec_augmented e) = None →
       fst (pkg_config_res w opts s) = Raise OSError).
Proof.
  intros w name obj opts s e He. split; [|split].
  - intros Hf Hsp. rewrite (have_library_run w name s e He).
    unfold probe_library, probe_spawn. rewrite Hf, Hsp. reflexivity.
  - intros Hl Hsp.
    destruct (have_library_object_file_steps w name obj s e He) as (s' & Hrun & _).
    rewrite Hrun. cbn [fst]. rewrite (have_library_run w name s e He) in Hl. cbn [fst] in Hl.
    unfold probe_object_file, probe_spawn. rewrite Hsp.
    destruct (probe_library w e name) as [r evs]. cbn [fst] in Hl. subst r. reflexivity.
  - intros Hsp. rewrite (pkg_config_res_run w opts s e He), Hsp. reflexivity.
Qed.

Lemma pkg_config_launch_failure_raises_witness :
  fst (have_library world_bare "opencv" (state_start env_plain)) = Raise OSError
  ∧ fst (pkg_config_res world_bare ["--cflags"; "opencv"] (state_start env_plain))
    = Raise OSError.
Proof.
  assert (heap (state_start env_plain) !! os_environ = Some env_plain) as He
    by (vm_compute; reflexivity).
  destruct (pkg_config_launch_failure_raises world_bare "opencv" "libopencv_ocl.so"
              ["--cflags"; "opencv"] (state_start env_plain) env_plain He)
    as (H1 & _ & H3).
  split; [apply H1; reflexivity | apply H3; reflexivity].
Defined.

(** ** [brew_pkg_installed] *)

(** X10. [brew_pkg_installed] starts [brew] only after [which brew] has
    exited with status 0; otherwise it answers [False] with that one
    contact. When [brew ls --versions] runs, the answer is whether its
    output, trimmed, is non-empty, whatever its exit status. *)
Theorem brew_pkg_installed_asks_which_first :
  ∀ (w : world) (pkg : string) (s : state) (e : gmap string string),
    heap s !! os_environ = Some e →
    (∀ c out, spawn w ["which"; "brew"] e = Some (c, out) → c ≠ 0 →
       brew_pkg_installed w pkg s
       = (Ok false, with_events s [EvSpawn ["which"; "brew"] e]))
    ∧ (∀ out out' c', spawn w ["which"; "brew"] e = Some (0, out) →
       spawn w ["brew"; "ls"; "--versions"; pkg] (spec_augmented e) = Some (c', out') →
       fst (brew_pkg_installed w pkg s) = Ok (negb (PyStr.eqb (PyStr.strip out') ""))
       ∧ trace (snd (brew_pkg_installed w pkg s))
         = trace s ++ [EvSpawn ["which"; "brew"] e;
                       EvSpawn ["brew"; "ls"; "--versions"; pkg] (spec_augmented e)])
    ∧ (spawn w ["which"; "brew"] e = None →
       fst (brew_pkg_installed w pkg s) = Raise OSError).
Proof.
  intros w pkg s e He.
  assert (ambient s = e) as Ha by (unfold ambient; rewrite He; reflexivity).
  unfold brew_pkg_installed, bind. rewrite have_command_run, Ha.
  unfold probe_command, probe_spawn. split; [|split].
  - intros c out -> Hc. cbn [fst snd]. apply Z.eqb_neq in Hc. rewrite Hc. reflexivity.
  - intros out out' c' -> Hsp. cbn [fst snd Z.eqb].
    assert (heap (with_events s [EvSpawn ["which"; "brew"] e]) !! os_environ = Some e)
      as He1 by exact He.
    rewrite (get_extra_envs_run _ e He1), popen_read_run.
    unfold with_dict, with_events. cbn [heap trace sys_path].
    rewrite lookup_insert_eq. cbn [from_option id]. rewrite Hsp. cbn [fst snd trace].
    rewrite <- app_assoc. auto.
  - intros ->. reflexivity.
Qed.

Lemma brew_pkg_installed_asks_which_first_witness :
  brew_pkg_installed world_without_brew "opencv" (state_start env_plain)
  = (Ok false, with_events (state_start env_plain) [EvSpawn ["which"; "brew"] env_plain])
  ∧ fst (brew_pkg_installed world_with_brew "opencv" (state_start env_plain)) = Ok true
  ∧ fst (brew_pkg_installed world_with_brew "ffmpeg" (state_start env_plain)) = Ok false.
Proof.
  assert (heap (state_start env_plain) !! os_environ = Some env_plain) as He
    by (vm_compute; reflexivity).
  destruct (brew_pkg_installed_asks_which_first world_without_brew "opencv"
              (state_start env_plain) env_plain He) as (H1 & _).
  destruct (brew_pkg_installed_asks_which_first world_with_brew "opencv"
              (state_start env_plain) env_plain He) as (_ & H2 & _).
  destruct (brew_pkg_installed_asks_which_first world_with_brew "ffmpeg"
              (state_start env_plain) env_plain He) as (_ & H3 & _).
  split; [apply (H1 1 EmptyString); [reflexivity | discriminate]|].
  split.
  - destruct (H2 ("/usr/local/bin/brew" +:+ newline) ("opencv 2.4.9" +:+ newline) 0
                eq_refl eq_refl) as (H & _).
    rewrite H. reflexivity.
  - destruct (H3 ("/usr/local/bin/brew" +:+ newline) EmptyString 1
                eq_refl eq_refl) as (H & _).
    rewrite H. reflexivity.
Defined.

(** ** DependencyGate, once more *)

Section MoreGate.

Variable w : world.
Variable e : gmap string string.
Variable path : list string.

Lemma gate_spec_true (reqs : list requirement) (m : option string) :
  fst (gate_spec w e path reqs) = Ok (true, m) →
  m = None ∧ Forall (fun q => fst (eval_requirement w e path q) = Ok true) reqs.
Proof.
  induction reqs as [|r reqs IH]; cbn [gate_spec].
  - intros [= <-]. split; [reflexivity | constructor].
  - destruct (eval_requirement w e path r) as [[[|]|x] evs] eqn:E; cbn [fst];
      [|discriminate|discriminate].
    intros H. destruct (IH H) as (-> & HF). split; [reflexivity|].
    constructor; [rewrite E; reflexivity | exact HF].
Qed.

Lemma gate_spec_false (reqs : list requirement) (m : option string) :
  fst (gate_spec w e path reqs) = Ok (false, m) →
  ∃ pre r post,
    reqs = pre ++ r :: post
    ∧ Forall (fun q => fst (eval_requirement w e path q) = Ok true) pre
    ∧ fst (eval_requirement w e path r) = Ok false
    ∧ m = Some (failure_message w r).
Proof.
  induction reqs as [|r reqs IH]; cbn [gate_spec]; [discriminate|].
  destruct (eval_requirement w e path r) as [[[|]|x] evs] eqn:E; cbn [fst];
    [| |discriminate].
  - intros H. destruct (IH H) as (pre & r' & post & -> & HF & Hr & ->).
    exists (r :: pre), r', post. split; [reflexivity|].
    split; [constructor; [rewrite E; reflexivity | exact HF]|]. auto.
  - intros [= <-]. exists [], r, reqs. rewrite E. repeat split. constructor.
Qed.

End MoreGate.

(** X11. What an answer of [check_dependencies] means. [True] comes with no
    message and only when every requirement of the list holds. [False]
    comes with the diagnostic of a requirement that does not hold while all
    those before it do. No other pair is ever returned. *)
Theorem check_dependencies_answers :
  ∀ (w : world) (s : state) (e : gmap string string) (b : bool) (m : option string),
    heap s !! os_environ = Some e →
    fst (check_dependencies w s) = Ok (b, m) →
    (b = true ∧ m = None
     ∧ Forall (fun q => fst (eval_requirement w e (sys_path s) q) = Ok true)
              (documented_order w))
    ∨ (b = false
       ∧ ∃ pre r post,
           documented_order w = pre ++ r :: post
           ∧ Forall (fun q => fst (eval_requirement w e (sys_path s) q) = Ok true) pre
           ∧ fst (eval_requirement w e (sys_path s) r) = Ok false
           ∧ m = Some (failure_message w r)).
Proof.
  intros w s e b m He.
  destruct (check_dependencies_gate w s e He) as (s' & Hrun & _).
  rewrite Hrun. cbn [fst]. destruct b; intros H.
  - left. destruct (gate_spec_true _ _ _ _ _ H) as (-> & HF). auto.
  - right. split; [reflexivity|]. exact (gate_spec_false _ _ _ _ _ H).
Qed.

Lemma check_dependencies_answers_witness :
  Forall (fun q => fst (eval_requirement (world_complete opencv_libs_out) env_plain
                          (sys_path (state_start env_plain)) q) = Ok true)
         (documented_order (world_complete opencv_libs_out)).
Proof.
  assert (heap (state_start env_plain) !! os_environ = Some env_plain) as He
    by (vm_compute; reflexivity).
  destruct (check_dependencies_answers (world_complete opencv_libs_out)
              (state_start env_plain) env_plain true None He) as [(_ & _ & H)|(H & _)].
  - vm_compute. reflexivity.
  - exact H.
  - discriminate H.
Defined.

Lemma import_step_sys_path (w : world) (s : state) (k : M (bool * option string)) :
  k = ret (true, None) →
  sys_path (snd
    ((let* _ := sys_path_insert 1 ("/usr/local/lib/python" +:+ py_ver w +:+ "/site-packages") in
      let* _ := sys_path_insert 2 ("/usr/local/lib/python" +:+ py_ver w +:+ "/dist-packages") in
      let* _ := sys_path_insert 3 ("/usr/lib/python" +:+ py_ver w +:+ "/site-packages") in
      let* _ := sys_path_insert 4 ("/usr/lib/python" +:+ py_ver w +:+ "/dist-packages") in
      let* _ := match homebrew_site_pkgs w with
                | Some h => sys_path_insert 1 h
                | None => ret tt
                end in
      let* r := try_import_cv2 w in
      match r with Some v => ret v | None => k end) s))
  = gate_sys_path w (sys_path s).
Proof.
  intros ->.
  unfold bind, sys_path_insert, try_import_cv2, get_sys_path, log, bind, ret, raise.
  cbn [heap trace sys_path]. unfold gate_sys_path.
  destruct (homebrew_site_pkgs w) as [h|]; cbn [heap trace sys_path];
    destruct (import_cv2 w _); reflexivity.
Qed.

(** [sys.path] after the gate: with the insertions when the import was
    reached, untouched otherwise. *)
Lemma check_dependencies_sys_path (w : world) (s : state) (e : gmap string string) :
  heap s !! os_environ = Some e →
  sys_path (snd (check_dependencies w s))
  = match fst (gate_spec w e (sys_path s) (requirements_before_import w)) with
    | Ok (true, _) => gate_sys_path w (sys_path s)
    | _ => sys_path s
    end.
Proof.
  intros He. unfold check_dependencies, requirements_before_import.
  cbn [app gate_spec eval_requirement].
  destruct (py_ver_X w =? 2)%nat; cbn [negb fst snd app]; [|reflexivity].
  destruct (for_each_gate w e (sys_path s) (required_tools w) _
              (have_command w) ReqTool s
              (have_command_steps w e) (fun x => eq_refl) He)
    as (s1 & Hrun1 & He1 & Ht1 & Hp1).
  rewrite gate_app.
  destruct (gate_spec w e (sys_path s) (map ReqTool (required_tools w)))
    as [[[[|] m1]|x1] evs1]; cbn [loop_result fst snd] in *;
    [erewrite bind_ok by exact Hrun1
    |erewrite bind_ok by exact Hrun1; exact Hp1
    |erewrite bind_raise by exact Hrun1; exact Hp1].
  assert (heap s1 !! os_environ = Some e) as He1' by congruence.
  destruct (for_each_gate w e (sys_path s) required_libraries _
              (have_library w) ReqLibrary s1
              (fun x s0 => have_library_steps w x s0 e) (fun x => eq_refl) He1')
    as (s2 & Hrun2 & He2 & Ht2 & Hp2).
  rewrite gate_app.
  destruct (gate_spec w e (sys_path s) (map ReqLibrary required_libraries))
    as [[[[|] m2]|x2] evs2]; cbn [loop_result fst snd] in *;
    [erewrite bind_ok by exact Hrun2
    |erewrite bind_ok by exact Hrun2; unfold ret; cbn [snd]; congruence
    |erewrite bind_raise by exact Hrun2; cbn [snd]; congruence].
  assert (heap s2 !! os_environ = Some e) as He2' by congruence.
  destruct (for_each_gate w e (sys_path s) required_object_files
              (fun '(x, y) =>
                 let* ok := have_library_object_file w x y in
                 if negb ok
                 then ret (Some (false,
                        Some (x +:+ " library is missing object file " +:+ y)))
                 else ret None)
              (fun p => have_library_object_file w (fst p) (snd p))
              (fun p => ReqObjectFile (fst p) (snd p)) s2
              (fun p s0 => have_library_object_file_steps w (fst p) (snd p) s0 e)
              (fun p => match p with (x, y) => eq_refl end) He2')
    as (s3 & Hrun3 & He3 & Ht3 & Hp3).
  destruct (gate_spec w e (sys_path s)
              (map (fun p => ReqObjectFile (fst p) (snd p)) required_object_files))
    as [[[[|] m3]|x3] evs3]; cbn [loop_result fst snd] in *;
    [erewrite bind_ok by exact Hrun3
    |erewrite bind_ok by exact Hrun3; unfold ret; cbn [snd]; congruence
    |erewrite bind_raise by exact Hrun3; cbn [snd]; congruence].
  pose proof (import_step_sys_path w s3 _ eq_refl) as H4.
  replace (sys_path s) with (sys_path s3) by congruence. exact H4.
Qed.

(** X12. The insertions into [sys.path] are made when the gate gets as far
    as the import, that is when every requirement before it holds, and they
    stay, whether the import succeeds or not; the first entry keeps its
    place, the Homebrew directory, if any, comes right after it and before
    the four fixed directories. When an earlier requirement fails,
    [sys.path] is as it was. *)
Theorem check_dependencies_leaves_sys_path_extended :
  ∀ (w : world) (s : state) (e : gmap string string),
    heap s !! os_environ = Some e →
    (Forall (fun q => fst (eval_requirement w e (sys_path s) q) = Ok true)
            (requirements_before_import w) →
     sys_path (snd (check_dependencies w s)) = gate_sys_path w (sys_path s))
    ∧ (Exists (fun q => fst (eval_requirement w e (sys_path s) q) ≠ Ok true)
              (requirements_before_import w) →
       sys_path (snd (check_dependencies w s)) = sys_path s)
    ∧ (∀ p0 rest, sys_path s = p0 :: rest →
         gate_sys_path w (sys_path s)
         = p0 :: match homebrew_site_pkgs w with Some h => [h] | None => [] end
              ++ ["/usr/local/lib/python" +:+ py_ver w +:+ "/site-packages";
                  "/usr/local/lib/python" +:+ py_ver w +:+ "/dist-packages";
                  "/usr/lib/python" +:+ py_ver w +:+ "/site-packages";
                  "/usr/lib/python" +:+ py_ver w +:+ "/dist-packages"]
              ++ rest).
Proof.
  intros w s e He. rewrite (check_dependencies_sys_path w s e He). split; [|split].
  - intros HF. rewrite (gate_all_pass w e (sys_path s) _ HF). reflexivity.
  - intros HE.
    destruct (gate_spec w e (sys_path s) (requirements_before_import w))
      as [[[[|] m]|x] evs] eqn:E; cbn [fst]; try reflexivity.
    exfalso. pose proof (gate_spec_true w e (sys_path s) (requirements_before_import w) m) as H.
    rewrite E in H. destruct (H eq_refl) as (_ & HF).
    apply Exists_exists in HE as (q & Hq & Hne). rewrite Forall_forall in HF.
    exact (Hne (HF q Hq)).
  - intros p0 rest ->. unfold gate_sys_path, py_insert.
    destruct (homebrew_site_pkgs w); reflexivity.
Qed.

Lemma check_dependencies_leaves_sys_path_extended_witness :
  sys_path (snd (check_dependencies (world_complete opencv_libs_out)
                   (state_start env_plain)))
  = [""; "/usr/local/lib/python2.7/site-packages";
     "/usr/local/lib/python2.7/dist-packages";
     "/usr/lib/python2.7/site-packages";
     "/usr/lib/python2.7/dist-packages"; "/usr/lib/python2.7"]
  ∧ sys_path (snd (check_dependencies world_no_libraries (state_start env_plain)))
    = [""; "/usr/lib/python2.7"].
Proof.
  assert (heap (state_start env_plain) !! os_environ = Some env_plain) as He
    by (vm_compute; reflexivity).
  destruct (check_dependencies_leaves_sys_path_extended (world_complete opencv_libs_out)
              (state_start env_plain) env_plain He) as (H1 & _ & H3).
  destruct (check_dependencies_leaves_sys_path_extended world_no_libraries
              (state_start env_plain) env_plain He) as (_ & H2 & _).
  split.
  - rewrite H1.
    + rewrite (H3 "" ["/usr/lib/python2.7"] eq_refl). reflexivity.
    + unfold requirements_before_import.
      repeat (apply Forall_cons; split; [vm_compute; reflexivity|]). apply Forall_nil_2.
  - rewrite H2; [reflexivity|].
    unfold requirements_before_import.
    do 4 apply Exists_cons_tl. apply Exists_cons_hd. vm_compute. discriminate.
Defined.

(** ** [build_lst], once more *)

Section MoreBuildLst.

Lemma elem_of_build_lst (a : atom) (items : list pyval) :
  a ∈ build_lst items ↔
  ((∃ s, a = AStr s ∧ PAtom (AStr s) ∈ items) ∨ (∃ l, PList l ∈ items ∧ a ∈ l)).
Proof.
  unfold build_lst. rewrite elem_of_elements, elem_of_build_set.
  split; [intros [H|H]; [apply not_elem_of_empty in H; contradiction | exact H] | auto].
Qed.

Lemma NoDup_build_lst (items : list pyval) : NoDup (build_lst items).
Proof. unfold build_lst. apply NoDup_elements. Qed.

Lemma build_lst_same_elements (items1 items2 : list pyval) :
  (∀ a, a ∈ build_lst items1 ↔ a ∈ build_lst items2) →
  build_lst items1 ≡ₚ build_lst items2.
Proof. intros H. apply NoDup_Permutation; [apply NoDup_build_lst..|exact H]. Qed.

End MoreBuildLst.

(** X13. The result of [build_lst] does not depend, up to its own order, on
    the order of the arguments or on how often one is given. *)
Theorem build_lst_ignores_order_and_repeats :
  ∀ items1 items2 : list pyval,
    (∀ x, x ∈ items1 ↔ x ∈ items2) →
    build_lst items1 ≡ₚ build_lst items2.
Proof.
  intros items1 items2 H. apply build_lst_same_elements. intros a.
  rewrite !elem_of_build_lst. split.
  - intros [(s & -> & Hs)|(l & Hl & Ha)]; [left | right]; [exists s | exists l];
      split; try reflexivity; try assumption; apply H; assumption.
  - intros [(s & -> & Hs)|(l & Hl & Ha)]; [left | right]; [exists s | exists l];
      split; try reflexivity; try assumption; apply H; assumption.
Qed.

Lemma build_lst_ignores_order_and_repeats_witness :
  build_lst [PAtom (AStr "/usr/include"); PList [AStr "a"; AStr "b"]; PAtom (AStr "/usr/include")]
  ≡ₚ build_lst [PList [AStr "a"; AStr "b"]; PAtom (AStr "/usr/include")].
Proof.
  apply build_lst_ignores_order_and_repeats. intros x.
  rewrite !elem_of_cons, !elem_of_nil. tauto.
Defined.

(** X14. Collecting in two steps gives what collecting at once gives: the
    result for the arguments [l1 ++ l2] is, up to order, the result for the
    two lists [build_lst l1] and [build_lst l2]; collecting a result again
    changes nothing; and a list argument counts like its elements given
    one by one, when these are strings. *)
Theorem build_lst_flattens :
  ∀ l1 l2 : list pyval,
    build_lst (l1 ++ l2) ≡ₚ build_lst [PList (build_lst l1); PList (build_lst l2)]
    ∧ build_lst [PList (build_lst l1)] ≡ₚ build_lst l1
    ∧ (∀ names : list string,
         build_lst (PList (map AStr names) :: l1)
         ≡ₚ build_lst (map (fun n => PAtom (AStr n)) names ++ l1)).
Proof.
  intros l1 l2. split; [|split].
  - apply build_lst_same_elements. intros a.
    rewrite !elem_of_build_lst. setoid_rewrite elem_of_app. split.
    + intros [(s & -> & [Hs|Hs])|(l & [Hl|Hl] & Ha)]; right.
      * exists (build_lst l1). split; [apply elem_of_cons; auto|].
        apply elem_of_build_lst. left. eauto.
      * exists (build_lst l2). split; [apply elem_of_cons; right; apply elem_of_cons; auto|].
        apply elem_of_build_lst. left. eauto.
      * exists (build_lst l1). split; [apply elem_of_cons; auto|].
        apply elem_of_build_lst. right. eauto.
      * exists (build_lst l2). split; [apply elem_of_cons; right; apply elem_of_cons; auto|].
        apply elem_of_build_lst. right. eauto.
    + intros [(s & -> & Hs)|(l & Hl & Ha)].
      * repeat (apply elem_of_cons in Hs as [[=]|Hs]). apply elem_of_nil in Hs. contradiction.
      * apply elem_of_cons in Hl as [[= ->]|Hl].
        { apply elem_of_build_lst in Ha as [(s & -> & Hs)|(l' & Hl' & Ha')];
            [left | right]; eauto. }
        apply elem_of_cons in Hl as [[= ->]|Hl]; [|apply elem_of_nil in Hl; contradiction].
        apply elem_of_build_lst in Ha as [(s & -> & Hs)|(l' & Hl' & Ha')];
          [left | right]; eauto.
  - apply build_lst_same_elements. intros a.
    rewrite (elem_of_build_lst a [_]). split.
    + intros [(s & -> & Hs)|(l & Hl & Ha)].
      * apply elem_of_cons in Hs as [[=]|Hs]. apply elem_of_nil in Hs. contradiction.
      * apply elem_of_cons in Hl as [[= ->]|Hl]; [exact Ha|].
        apply elem_of_nil in Hl. contradiction.
    + intros Ha. right. exists (build_lst l1). split; [apply elem_of_cons; auto | exact Ha].
  - intros names. apply build_lst_same_elements. intros a.
    rewrite !elem_of_build_lst. setoid_rewrite elem_of_cons. setoid_rewrite elem_of_app.
    setoid_rewrite list_elem_of_fmap. split.
    + intros [(s & -> & [[=]|Hs])|(l & [[= ->]|Hl] & Ha)].
      * left. eauto.
      * apply list_elem_of_fmap in Ha as (n & -> & Hn). left. exists n.
        split; [reflexivity|]. left. exists n. auto.
      * right. eauto.
    + intros [(s & -> & [(n & [= ->] & Hn)|Hs])|(l & [(n & [=] & _)|Hl] & Ha)].
      * right. exists (map AStr names). split; [auto|]. apply list_elem_of_fmap. eauto.
      * left. eauto.
      * right. eauto.
Qed.

(** ** The module-level code *)

Section Tame.

Variable w : world.

Lemma quiet_refl (s : state) : quiet s s.
Proof.
  split; [reflexivity|]. split; [reflexivity|].
  exists []. rewrite app_nil_r. split; [reflexivity | constructor].
Qed.

Lemma quiet_trans (s1 s2 s3 : state) : quiet s1 s2 → quiet s2 s3 → quiet s1 s3.
Proof.
  intros (H1 & P1 & evs1 & T1 & F1) (H2 & P2 & evs2 & T2 & F2).
  split; [congruence|]. split; [congruence|].
  exists (evs1 ++ evs2). split; [rewrite T2, T1, app_assoc; reflexivity|].
  apply Forall_app; auto.
Qed.

Lemma quiet_with_events (s : state) (argv : list string) (d : gmap string string) :
  head argv ≠ Some "which" → quiet s (with_events s [EvSpawn argv d]).
Proof.
  intros H. split; [reflexivity|]. split; [reflexivity|].
  exists [EvSpawn argv d]. split; [reflexivity|]. constructor; [exact H | constructor].
Qed.

Lemma quiet_with_dict (s : state) (e d : gmap string string) :
  heap s !! os_environ = Some e →
  quiet s (with_dict s (fresh (dom (heap s))) d).
Proof.
  intros He. split; [|split; [reflexivity|]].
  - cbn. apply lookup_insert_ne. intros E.
    pose proof (fresh_not_allocated s) as H. rewrite E in H. congruence.
  - exists []. cbn. rewrite app_nil_r. split; [reflexivity | constructor].
Qed.

Lemma tame_ret {A} (a : A) : tame (ret a).
Proof. intros s e _. apply quiet_refl. Qed.

Lemma tame_raise {A} (x : exn) : tame (@raise A x).
Proof. intros s e _. apply quiet_refl. Qed.

Lemma tame_lift {A} (r : result A) : tame (lift r).
Proof. intros s e _. apply quiet_refl. Qed.

Lemma tame_bind {A B} (m : M A) (f : A → M B) :
  tame m → (∀ a, tame (f a)) → tame (bind m f).
Proof.
  intros Hm Hf s e He. unfold bind. pose proof (Hm s e He) as Hq.
  destruct (m s) as [[a|x] s1]; cbn [snd] in *; [|exact Hq].
  eapply quiet_trans; [exact Hq|]. apply (Hf a s1 e).
  destruct Hq as (H & _). congruence.
Qed.

Lemma tame_try_except {A} (m h : M A) : tame m → tame h → tame (try_except m h).
Proof.
  intros Hm Hh s e He. unfold try_except. pose proof (Hm s e He) as Hq.
  destruct (m s) as [[a|x] s1]; cbn [snd] in *; [exact Hq|].
  eapply quiet_trans; [exact Hq|]. apply (Hh s1 e).
  destruct Hq as (H & _). congruence.
Qed.

Lemma tame_get_extra_envs : tame get_extra_envs.
Proof.
  intros s e He. rewrite (get_extra_envs_run s e He). eapply quiet_with_dict, He.
Qed.

Lemma tame_popen_read (argv : list string) (l : nat) :
  head argv ≠ Some "which" → tame (popen_read w argv l).
Proof. intros H s e _. rewrite popen_read_run. apply quiet_with_events, H. Qed.

Lemma tame_pkg_config_res (opts : list string) : tame (pkg_config_res w opts).
Proof.
  intros s e He. rewrite (pkg_config_res_run w opts s e He). cbn [snd].
  eapply quiet_trans; [eapply quiet_with_dict, He|].
  apply quiet_with_events. discriminate.
Qed.

Lemma tame_get_lib_installed_path (libname : string) :
  tame (get_lib_installed_path w libname).
Proof.
  intros s e _. rewrite get_lib_installed_path_run. apply quiet_with_events. discriminate.
Qed.

Lemma tame_get_lib_filename_namespec (libname : string) :
  tame (get_lib_filename_namespec w libname).
Proof.
  intros s e He. rewrite get_lib_filename_namespec_run. cbn [snd].
  apply (tame_get_lib_installed_path libname s e He).
Qed.

Lemma tame_os_path_dirname (p : option string) : tame (os_path_dirname p).
Proof. destruct p; [apply tame_ret | apply tame_raise]. Qed.

Lemma tame_dict_mem (l : nat) (k : string) : tame (dict_mem l k).
Proof. intros s e _. apply quiet_refl. Qed.

Lemma tame_dict_get (l : nat) (k : string) : tame (dict_get l k).
Proof.
  intros s e _. unfold dict_get. destruct (_ !! k); apply quiet_refl.
Qed.

Lemma tame_find_homebrew_prefix : tame (find_homebrew_prefix w).
Proof.
  unfold find_homebrew_prefix. apply tame_try_except.
  - apply tame_bind; [apply tame_get_extra_envs|]. intros env.
    apply tame_bind; [apply tame_popen_read; discriminate|]. intros out. apply tame_ret.
  - apply tame_bind; [apply tame_dict_mem|]. intros [|]; [|apply tame_ret].
    apply tame_bind; [apply tame_dict_get|]. intros v. apply tame_ret.
Qed.

Lemma python_config_is_not_which :
  head ["python" +:+ py_ver w +:+ "-config"; "--prefix"] ≠ Some "which".
Proof. cbn. discriminate. Qed.

Lemma tame_python_flags (hp : option string) : tame (python_flags w hp).
Proof.
  unfold python_flags.
  apply tame_bind; [apply tame_get_extra_envs|]. intros env.
  apply tame_bind; [apply tame_popen_read, python_config_is_not_which|]. intros out.
  destruct (is_linux w).
  - apply tame_bind; [apply tame_pkg_config_res|]. intros inc.
    apply tame_bind; [apply tame_pkg_config_res|]. intros libs. apply tame_ret.
  - destruct (is_darwin w); apply tame_ret.
Qed.

Lemma tame_opencl_flags (hp : option string) (st : lists) : tame (opencl_flags w hp st).
Proof.
  unfold opencl_flags.
  apply tame_bind; [apply tame_pkg_config_res|]. intros cv.
  destruct (is_linux w).
  - apply tame_bind; [apply tame_get_lib_installed_path|]. intros p.
    apply tame_bind; [apply tame_os_path_dirname|]. intros d.
    apply tame_bind; [apply tame_get_lib_filename_namespec|]. intros ns. apply tame_ret.
  - destruct (is_darwin w); apply tame_ret.
Qed.

Lemma tame_assemble (root_path : string) : tame (assemble w root_path).
Proof.
  unfold assemble.
  apply tame_bind; [apply tame_find_homebrew_prefix|]. intros hp.
  apply tame_bind; [apply tame_python_flags|]. intros [[pi pl] st].
  apply tame_bind; [apply tame_opencl_flags|]. intros [[[cv cld] cll] st'].
  apply tame_ret.
Qed.

Lemma fails_bind {A B} (m : M A) (f : A → M B) (s : state) (e : gmap string string) :
  tame m → heap s !! os_environ = Some e →
  (∀ a s1, heap s1 !! os_environ = Some e → fails (f a) s1) →
  fails (bind m f) s.
Proof.
  intros Hm He Hf. unfold fails, bind. pose proof (Hm s e He) as (Hh & _).
  destruct (m s) as [[a|x] s1]; cbn [snd] in *; [|eauto].
  apply Hf. congruence.
Qed.

Lemma fails_bind_l {A B} (m : M A) (f : A → M B) (s : state) :
  fails m s → fails (bind m f) s.
Proof.
  intros [x Hx]. exists x. unfold bind. destruct (m s) as [[a|y] s1]; cbn [fst] in *;
    [discriminate | congruence].
Qed.

Lemma bind_ok_inv {A B} (m : M A) (f : A → M B) (s : state) (r : B) :
  fst (bind m f s) = Ok r → ∃ a s1, m s = (Ok a, s1) ∧ fst (f a s1) = Ok r.
Proof.
  unfold bind. destruct (m s) as [[a|x] s1]; cbn [fst]; [eauto | discriminate].
Qed.

End Tame.

(** X15. The Homebrew prefix: what [brew --prefix] prints, trimmed, when
    [brew] can be started, whatever its exit status, so a [brew] that
    prints nothing gives the empty prefix and a relative site directory;
    otherwise the value of [HOMEBREW_PREFIX], or [None] without it. The
    launch failure never gets out, and [os.environ] is left as it was. *)
Theorem homebrew_prefix_falls_back_to_environment :
  ∀ (w : world) (s : state) (e : gmap string string),
    heap s !! os_environ = Some e →
    (∀ c out, spawn w ["brew"; "--prefix"] (spec_augmented e) = Some (c, out) →
       fst (find_homebrew_prefix w s) = Ok (Some (PyStr.strip out)))
    ∧ (spawn w ["brew"; "--prefix"] (spec_augmented e) = None →
       fst (find_homebrew_prefix w s) = Ok (e !! "HOMEBREW_PREFIX"))
    ∧ site_pkgs_of_prefix w (Some "")
      = Some ("lib/python" +:+ py_ver w +:+ "/site-packages/")
    ∧ heap (snd (find_homebrew_prefix w s)) !! os_environ = Some e.
Proof.
  intros w s e He.
  pose proof (tame_find_homebrew_prefix w s e He) as (Hh & _).
  split; [|split; [|split; [reflexivity | congruence]]].
  - intros c out Hsp. unfold find_homebrew_prefix, try_except, bind.
    rewrite (get_extra_envs_run s e He), popen_read_run.
    unfold with_dict. cbn [heap]. rewrite lookup_insert_eq. cbn [from_option id].
    rewrite Hsp. reflexivity.
  - intros Hsp. unfold find_homebrew_prefix, try_except, bind.
    rewrite (get_extra_envs_run s e He), popen_read_run.
    unfold with_dict. cbn [heap]. rewrite lookup_insert_eq. cbn [from_option id].
    rewrite Hsp. unfold dict_mem, dict_get, with_events. cbn [heap].
    assert (fresh (dom (heap s)) ≠ os_environ) as Hne.
    { intros E. pose proof (fresh_not_allocated s) as H. rewrite E in H. congruence. }
    rewrite lookup_insert_ne by exact Hne. rewrite He. cbn [from_option id].
    destruct (e !! "HOMEBREW_PREFIX") as [v|] eqn:Ev.
    + rewrite bool_decide_eq_true_2 by eauto.
      cbn [heap]. rewrite lookup_insert_ne by exact Hne. rewrite He. cbn [from_option id].
      rewrite Ev. reflexivity.
    + rewrite bool_decide_eq_false_2 by (intros [? [=]]). reflexivity.
Qed.

Lemma homebrew_prefix_falls_back_to_environment_witness :
  fst (find_homebrew_prefix world_darwin (state_start env_plain)) = Ok (Some "/usr/local")
  ∧ fst (find_homebrew_prefix world_bare
           (state_start (<[ "HOMEBREW_PREFIX" := "/opt/homebrew" ]> env_plain)))
    = Ok (Some "/opt/homebrew")
  ∧ fst (find_homebrew_prefix world_bare (state_start env_plain)) = Ok None.
Proof.
  assert (∀ e, heap (state_start e) !! os_environ = Some e) as He
    by (intros e; apply lookup_singleton_eq).
  destruct (homebrew_prefix_falls_back_to_environment world_darwin
              (state_start env_plain) env_plain (He _)) as (H1 & _).
  destruct (homebrew_prefix_falls_back_to_environment world_bare
              (state_start (<[ "HOMEBREW_PREFIX" := "/opt/homebrew" ]> env_plain))
              _ (He _)) as (_ & H2 & _).
  destruct (homebrew_prefix_falls_back_to_environment world_bare
              (state_start env_plain) env_plain (He _)) as (_ & H3 & _).
  split; [rewrite (H1 0 ("/usr/local" +:+ newline) eq_refl); reflexivity|].
  split; [rewrite (H2 eq_refl); vm_compute; reflexivity|].
  rewrite (H3 eq_refl). vm_compute. reflexivity.
Defined.

(** X16. On Linux the flags are assembled before the gate is asked, and
    the assembly needs an entry for [libOpenCL] in the linker cache: when
    [ldconfig] cannot be started, or no piece of its listing, read with
    universal newlines and cut at each newline followed by a tab, begins
    with [libOpenCL], the module ends in an exception with no contact of
    the gate made: no [which], no library search, no import, hence no
    diagnostic. *)
Theorem linux_script_needs_opencl_entry_before_gate :
  ∀ (w : world) (root_path : string) (s : state) (e : gmap string string),
    heap s !! os_environ = Some e →
    is_linux w = true →
    match spawn w ["ldconfig"; "-p"] e with
    | None => True
    | Some r =>
        Forall (fun x => PyStr.startswith x "libOpenCL" = false)
               (PyStr.split (PyStr.universal_newlines (snd r)) newline_tab)
    end →
    ∃ x evs,
      fst (script w root_path s) = Raise x
      ∧ trace (snd (script w root_path s)) = trace s ++ evs
      ∧ Forall assembly_event evs.
Proof.
  intros w root_path s e He Hlinux Hcache.
  assert (fails (assemble w root_path) s) as [x Hx].
  { unfold assemble.
    apply (fails_bind _ _ s e); [apply tame_find_homebrew_prefix | exact He|].
    intros hp s1 He1.
    apply (fails_bind _ _ s1 e); [apply tame_python_flags | exact He1|].
    intros [[pi pl] st] s2 He2. apply fails_bind_l. unfold opencl_flags.
    apply (fails_bind _ _ s2 e); [apply tame_pkg_config_res | exact He2|].
    intros cv s3 He3. rewrite Hlinux. unfold fails, bind.
    rewrite get_lib_installed_path_run. unfold ambient. rewrite He3. cbn [from_option id].
    destruct (spawn w ["ldconfig"; "-p"] e) as [r|]; [|eauto].
    rewrite lookup_guard_is_redundant.
    rewrite (proj2 (installed_path_scan_none "libOpenCL" _) Hcache). eauto. }
  pose proof (tame_assemble w root_path s e He) as (_ & _ & evs & Ht & Hev).
  exists x, evs. unfold script, bind.
  destruct (assemble w root_path s) as [[a|y] s1]; cbn [fst snd] in *; [discriminate|].
  injection Hx as ->. auto.
Qed.

Lemma linux_script_needs_opencl_entry_before_gate_witness :
  ∃ x evs,
    fst (script world_linux_without_opencl_entry "/src/butterflow" (state_start env_plain))
    = Raise x
    ∧ trace (snd (script world_linux_without_opencl_entry "/src/butterflow"
                    (state_start env_plain)))
      = trace (state_start env_plain) ++ evs
    ∧ Forall assembly_event evs.
Proof.
  apply (linux_script_needs_opencl_entry_before_gate world_linux_without_opencl_entry
           "/src/butterflow" (state_start env_plain) env_plain).
  - apply lookup_singleton_eq.
  - reflexivity.
  - vm_compute. repeat constructor.
Defined.

Section Inversion.

Variable w : world.
Variable root_path : string.

Lemma script_inv (s : state) (o : outcome) :
  fst (script w root_path s) = Ok o →
  ∃ hp e1 e2 st s1 ok err,
    assemble w root_path s = (Ok (hp, e1, e2, st), s1)
    ∧ fst (check_dependencies
             (with_homebrew_site_pkgs w (site_pkgs_of_prefix w hp)) s1) = Ok (ok, err)
    ∧ o = (if negb ok then Exit1 err else Setup e1 e2 st)
    ∧ snd (script w root_path s)
      = snd (check_dependencies
               (with_homebrew_site_pkgs w (site_pkgs_of_prefix w hp)) s1).
Proof.
  unfold script, bind.
  destruct (assemble w root_path s) as [[[[[hp e1] e2] st]|x] s1]; cbn [fst];
    [|discriminate].
  destruct (check_dependencies _ s1) as [[[ok err]|x] s2] eqn:E; cbn [fst snd];
    [|discriminate].
  intros H. exists hp, e1, e2, st, s1, ok, err. rewrite E.
  destruct ok; cbn [negb] in *; unfold ret in *; cbn [fst snd] in *;
    injection H as <-; repeat split; reflexivity.
Qed.

Lemma assemble_inv (s s3 : state) (hp : option string) (e1 e2 : extension) (st : lists) :
  assemble w root_path s = (Ok (hp, e1, e2, st), s3) →
  ∃ pi pl st0 cv cld cll s1 s2,
    find_homebrew_prefix w s = (Ok hp, s1)
    ∧ python_flags w hp s1 = (Ok (pi, pl, st0), s2)
    ∧ opencl_flags w hp st0 s2 = (Ok (cv, cld, cll, st), s3)
    ∧ e1 = make_py_libav_info root_path pi pl st0
    ∧ e2 = make_py_motion root_path pi pl cv cld cll st.
Proof.
  unfold assemble, bind.
  destruct (find_homebrew_prefix w s) as [[hp'|x] s1]; [|discriminate].
  destruct (python_flags w hp' s1) as [[[[pi pl] st0]|x] s2] eqn:E2; [|discriminate].
  destruct (opencl_flags w hp' st0 s2) as [[[[[cv cld] cll] st']|x] s3'] eqn:E3;
    [|discriminate].
  unfold ret. intros [= <- <- <- <- <-]. exists pi, pl, st0, cv, cld, cll, s1, s2.
  repeat split; assumption.
Qed.

Lemma python_flags_darwin_inv (hp : option string) (s s' : state)
    (pi pl : pyval) (st0 : lists) :
  is_linux w = false → is_darwin w = true →
  python_flags w hp s = (Ok (pi, pl, st0), s') →
  ∃ py_prefix,
    pi = as_str (PyPath.join py_prefix ["include"; "python" +:+ py_ver w])
    ∧ pl = none
    ∧ linkflags st0
      = ["-arch"; "x86_64";
         PyPath.join py_prefix ["lib/libpython" +:+ py_ver w +:+ ".dylib"]]
    ∧ includes st0
      = ["/usr/include"; "/usr/local/include"]
        ++ match hp with Some p => [PyPath.join p ["include"]] | None => [] end
    ∧ ldflags st0
      = ["/usr/lib"; "/usr/local/lib"]
        ++ match hp with Some p => [PyPath.join p ["lib"]] | None => [] end
        ++ [PyPath.join py_prefix ["lib"]].
Proof.
  intros Hl Hd. unfold python_flags, bind. rewrite Hl, Hd.
  destruct (get_extra_envs s) as [[env|x] s1]; [|discriminate].
  destruct (popen_read w _ env s1) as [[out|x] s2]; [|discriminate].
  unfold ret. intros [= <- <- <- <-]. exists (PyStr.strip out).
  destruct hp; repeat split; reflexivity.
Qed.

Lemma pkg_config_res_ok_inv (opts : list string) (s s' : state)
    (e : gmap string string) (l : list string) :
  heap s !! os_environ = Some e →
  pkg_config_res w opts s = (Ok l, s') →
  ∃ c out,
    spawn w ("pkg-config" :: opts) (spec_augmented e) = Some (c, out)
    ∧ l = map flag_value (filter (fun t => t ≠ "") (output_pieces out))
    ∧ heap s' !! os_environ = Some e.
Proof.
  intros He Hrun.
  pose proof (tame_pkg_config_res w opts s e He) as (Hh & _).
  rewrite Hrun in Hh. cbn [snd] in Hh.
  rewrite (pkg_config_res_run w opts s e He) in Hrun.
  destruct (spawn w ("pkg-config" :: opts) (spec_augmented e)) as [[c out]|];
    [|discriminate].
  cbn [snd] in Hrun.
  destruct (pkg_config_res_loop_outcome (output_pieces out) []) as [[_ Hr]|[_ Hr]];
    rewrite Hr in Hrun; [|discriminate].
  injection Hrun as <- _. exists c, out.
  split; [reflexivity|]. split; [reflexivity | congruence].
Qed.

Lemma python_flags_linux_inv (hp : option string) (s s' : state)
    (e : gmap string string) (pi pl : pyval) (st0 : lists) :
  is_linux w = true →
  heap s !! os_environ = Some e →
  python_flags w hp s = (Ok (pi, pl, st0), s') →
  ∃ c1 out1 c2 out2,
    spawn w ["pkg-config"; "--cflags"; "python-" +:+ py_ver w] (spec_augmented e)
    = Some (c1, out1)
    ∧ spawn w ["pkg-config"; "--libs"; "python-" +:+ py_ver w] (spec_augmented e)
      = Some (c2, out2)
    ∧ pi = as_list (map flag_value (filter (fun t => t ≠ "") (output_pieces out1)))
    ∧ pl = as_list (map flag_value (filter (fun t => t ≠ "") (output_pieces out2)))
    ∧ st0 = {| linkflags := ["-shared"; "-Wl,--export-dynamic"];
               includes := ["/usr/include"; "/usr/local/include"];
               ldflags := ["/usr/lib"; "/usr/local/lib"] |}.
Proof.
  intros Hl He. unfold python_flags. rewrite Hl. unfold bind at 1.
  pose proof (tame_get_extra_envs s e He) as (H1 & _).
  destruct (get_extra_envs s) as [[env|x] s1]; [|discriminate]. cbn [snd] in H1.
  assert (heap s1 !! os_environ = Some e) as He1 by congruence.
  unfold bind at 1.
  pose proof (tame_popen_read w _ env (python_config_is_not_which w) s1 e He1) as (H2 & _).
  destruct (popen_read w _ env s1) as [[out|x] s2]; [|discriminate]. cbn [snd] in H2.
  assert (heap s2 !! os_environ = Some e) as He2 by congruence.
  unfold bind at 1.
  destruct (pkg_config_res w _ s2) as [[inc|x] s3] eqn:E3; [|discriminate].
  destruct (pkg_config_res_ok_inv _ _ _ _ _ He2 E3) as (c1 & out1 & Hsp1 & -> & He3).
  unfold bind at 1.
  destruct (pkg_config_res w _ s3) as [[libs|x] s4] eqn:E4; [|discriminate].
  destruct (pkg_config_res_ok_inv _ _ _ _ _ He3 E4) as (c2 & out2 & Hsp2 & -> & He4).
  unfold ret. intros [= <- <- <- <-]. exists c1, out1, c2, out2. auto 10.
Qed.

Lemma opencl_flags_darwin_inv (hp : option string) (st0 st : lists) (s s' : state)
    (cv : list string) (cld cll : pyval) :
  is_linux w = false → is_darwin w = true →
  opencl_flags w hp st0 s = (Ok (cv, cld, cll, st), s') →
  cld = none ∧ cll = none
  ∧ linkflags st = linkflags st0 ++ ["-framework"; "OpenCL"]
  ∧ includes st
    = includes st0
      ++ [match site_pkgs_of_prefix w hp with
          | Some hsp => PyPath.join hsp ["numpy/core/include"]
          | None => "/System/Library/Frameworks/" +:+ "Python.framework/Versions/"
                    +:+ py_ver w +:+ "/Extras/lib/" +:+ "python/numpy/core/include"
          end]
  ∧ ldflags st = ldflags st0.
Proof.
  intros Hl Hd. unfold opencl_flags, bind. rewrite Hl, Hd.
  destruct (pkg_config_res w _ s) as [[cv'|x] s1]; [|discriminate].
  unfold ret. intros [= <- <- <- <-].
  destruct (site_pkgs_of_prefix w hp); repeat split; reflexivity.
Qed.

Lemma opencl_flags_linux_inv (hp : option string) (st0 st : lists) (s s' : state)
    (e : gmap string string) (cv : list string) (cld cll : pyval) :
  is_linux w = true →
  heap s !! os_environ = Some e →
  opencl_flags w hp st0 s = (Ok (cv, cld, cll, st), s') →
  ∃ c out p,
    spawn w ["ldconfig"; "-p"] e = Some (c, out)
    ∧ installed_path_scan "libOpenCL"
        (PyStr.split (PyStr.universal_newlines out) newline_tab) = Ok (Some p)
    ∧ cld = as_str (PyPath.dirname p)
    ∧ cll = as_str (":" +:+ PyStr.basename p)
    ∧ st = st0.
Proof.
  intros Hl He. unfold opencl_flags. rewrite Hl. unfold bind at 1.
  pose proof (tame_pkg_config_res w ["--cflags"; "opencv"] s e He) as (Hh1 & _).
  destruct (pkg_config_res w _ s) as [[cv'|x] s1]; [|discriminate]. cbn [snd] in Hh1.
  assert (ambient s1 = e) as Ha1 by (unfold ambient; rewrite Hh1, He; reflexivity).
  unfold bind at 1. rewrite get_lib_installed_path_run, Ha1.
  destruct (spawn w ["ldconfig"; "-p"] e) as [[c out]|] eqn:Esp; [|discriminate].
  cbn [snd fst]. rewrite lookup_guard_is_redundant.
  destruct (installed_path_scan "libOpenCL" _) as [[p|]|x] eqn:Escan;
    [|discriminate|discriminate].
  unfold os_path_dirname. unfold bind at 1. unfold ret at 1. unfold bind at 1.
  rewrite get_lib_filename_namespec_run, get_lib_installed_path_run.
  assert (ambient (with_events s1 [EvSpawn ["ldconfig"; "-p"] e]) = e) as Ha2 by exact Ha1.
  rewrite Ha2, Esp. cbn [fst snd]. rewrite lookup_guard_is_redundant, Escan.
  unfold ret. intros [= <- <- <- <- <-].
  exists c, out, p. auto 10.
Qed.

End Inversion.

Lemma build_lst_one_list (names : list string) (others : list pyval) :
  NoDup names →
  Forall (fun x => is_str x = false ∧ is_list x = false) others →
  build_lst (as_list names :: others) ≡ₚ map AStr names.
Proof.
  intros Hnd Hoth. apply NoDup_Permutation.
  - apply NoDup_build_lst.
  - apply NoDup_fmap_2; [intros a b [= ->]; reflexivity | exact Hnd].
  - intros a. rewrite elem_of_build_lst. rewrite Forall_forall in Hoth. split.
    + intros [(s & -> & Hs)|(l & Hl & Ha)].
      * apply elem_of_cons in Hs as [[=]|Hs]. destruct (Hoth _ Hs) as ([=] & _).
      * apply elem_of_cons in Hl as [[= ->]|Hl]; [exact Ha|].
        destruct (Hoth _ Hl) as (_ & [=]).
    + intros Ha. right. exists (map AStr names). split; [apply elem_of_cons; auto | exact Ha].
Qed.

(** X17. On Darwin the list of link flags is one object: it is handed to
    both [Extension] calls and extended with [-framework OpenCL] between
    them, so by the time [setup] is called the first extension has those
    two flags as well. The include directories of the first extension are
    collected beforehand and lack the numpy directory added later. Neither
    extension gets a library beyond its fixed three. *)
Theorem darwin_link_flags_are_shared :
  ∀ (w : world) (root_path : string) (s : state) (e1 e2 : extension) (st : lists),
    is_linux w = false → is_darwin w = true →
    fst (script w root_path s) = Ok (Setup e1 e2 st) →
    extra_link_args e1 = Linkflags ∧ extra_link_args e2 = Linkflags
    ∧ ∃ (hp : option string) (py_prefix : string) (st0 : lists),
        linkflags st0
        = ["-arch"; "x86_64";
           PyPath.join py_prefix ["lib/libpython" +:+ py_ver w +:+ ".dylib"]]
        ∧ linkflags st = linkflags st0 ++ ["-framework"; "OpenCL"]
        ∧ includes st
          = includes st0
            ++ [match site_pkgs_of_prefix w hp with
                | Some hsp => PyPath.join hsp ["numpy/core/include"]
                | None => "/System/Library/Frameworks/" +:+ "Python.framework/Versions/"
                          +:+ py_ver w +:+ "/Extras/lib/" +:+ "python/numpy/core/include"
                end]
        ∧ include_dirs e1
          = build_lst [as_str (B_MEDIA root_path); as_list (includes st0);
                       as_str (PyPath.join py_prefix ["include"; "python" +:+ py_ver w])]
        ∧ library_dirs e1 = Shared Ldflags
        ∧ ldflags st
          = ["/usr/lib"; "/usr/local/lib"]
            ++ match hp with Some p => [PyPath.join p ["lib"]] | None => [] end
            ++ [PyPath.join py_prefix ["lib"]]
        ∧ libraries e1 ≡ₚ [AStr "avcodec"; AStr "avformat"; AStr "avutil"]
        ∧ libraries e2 ≡ₚ [AStr "opencv_core"; AStr "opencv_ocl"; AStr "opencv_imgproc"].
Proof.
  intros w root_path s e1 e2 st Hl Hd Hs.
  destruct (script_inv w root_path s _ Hs)
    as (hp & e1' & e2' & st' & s1 & ok & err & Has & _ & Ho & _).
  destruct ok; cbn [negb] in Ho; [|discriminate]. injection Ho as <- <- <-.
  destruct (assemble_inv w root_path _ _ _ _ _ _ Has)
    as (pi & pl & st0 & cv & cld & cll & s2 & s3 & _ & Hpy & Hcl & -> & ->).
  destruct (python_flags_darwin_inv w hp _ _ _ _ _ Hl Hd Hpy)
    as (py_prefix & -> & -> & Hlf & Hinc & Hld).
  destruct (opencl_flags_darwin_inv w hp _ _ _ _ _ _ _ Hl Hd Hcl)
    as (-> & -> & Hlf' & Hinc' & Hld').
  split; [reflexivity|]. split; [reflexivity|].
  exists hp, py_prefix, st0. cbn [include_dirs library_dirs libraries].
  repeat (split; [first [assumption | reflexivity | congruence]|]).
  split.
  - apply (build_lst_one_list ["avcodec"; "avformat"; "avutil"] [none]).
    + repeat (apply NoDup_cons; split; [rewrite ?elem_of_cons, elem_of_nil; intros H; repeat (destruct H as [H|H]; [discriminate H|]); exact H|]). apply NoDup_nil_2.
    + repeat constructor.
  - apply (build_lst_one_list ["opencv_core"; "opencv_ocl"; "opencv_imgproc"] [none; none]).
    + repeat (apply NoDup_cons; split; [rewrite ?elem_of_cons, elem_of_nil; intros H; repeat (destruct H as [H|H]; [discriminate H|]); exact H|]). apply NoDup_nil_2.
    + repeat constructor.
Qed.

Lemma darwin_link_flags_are_shared_witness :
  ∃ e1 e2 st,
    fst (script world_darwin "/src/butterflow" (state_start env_plain)) = Ok (Setup e1 e2 st)
    ∧ extra_link_args e1 = extra_link_args e2
    ∧ deref st (extra_link_args e1)
      = ["-arch"; "x86_64";
         "/usr/local/Cellar/python/2.7.8/Frameworks/Python.framework/Versions/2.7/lib/libpython2.7.dylib";
         "-framework"; "OpenCL"].
Proof.
  destruct (script world_darwin "/src/butterflow" (state_start env_plain))
    as [[[m|e1 e2 st]|x] s'] eqn:E; try (vm_compute in E; discriminate E).
  exists e1, e2, st.
  destruct (darwin_link_flags_are_shared world_darwin "/src/butterflow"
              (state_start env_plain) e1 e2 st eq_refl eq_refl)
    as (H1 & H2 & _); [rewrite E; reflexivity|].
  split; [reflexivity|]. split; [congruence|].
  vm_compute in E. injection E as <- <- <- _. reflexivity.
Defined.

(** X18. On Linux, when [setup] is reached: the link flags are [-shared]
    and [-Wl,--export-dynamic] and the two directory lists are the fixed
    ones; the linker cache, its listing read with universal newlines, has
    an entry for [libOpenCL], whose file name, after a colon, is among the
    libraries of the motion extension and whose directory is among its
    library directories; [pkg-config --libs python-X.Y] was run under the
    augmented environment, and the values of all its flags, [-L]
    directories included, are among the libraries of both extensions,
    next to the fixed three of each; and no collection holds [None]. *)
Theorem linux_extensions_use_opencl_namespec :
  ∀ (w : world) (root_path : string) (s : state) (e : gmap string string)
    (e1 e2 : extension) (st : lists),
    heap s !! os_environ = Some e →
    is_linux w = true →
    fst (script w root_path s) = Ok (Setup e1 e2 st) →
    st = {| linkflags := ["-shared"; "-Wl,--export-dynamic"];
            includes := ["/usr/include"; "/usr/local/include"];
            ldflags := ["/usr/lib"; "/usr/local/lib"] |}
    ∧ ∃ (c : Z) (out p : string) (c' : Z) (out' : string),
        let py_libs := map flag_value (filter (fun t => t ≠ "") (output_pieces out')) in
        spawn w ["ldconfig"; "-p"] e = Some (c, out)
        ∧ installed_path_scan "libOpenCL"
            (PyStr.split (PyStr.universal_newlines out) newline_tab) = Ok (Some p)
        ∧ spawn w ["pkg-config"; "--libs"; "python-" +:+ py_ver w] (spec_augmented e)
          = Some (c', out')
        ∧ libraries e1
          = build_lst [as_list ["avcodec"; "avformat"; "avutil"]; as_list py_libs]
        ∧ libraries e2
          = build_lst [as_list ["opencv_core"; "opencv_ocl"; "opencv_imgproc"];
                       as_list py_libs; as_str (":" +:+ PyStr.basename p)]
        ∧ AStr (":" +:+ PyStr.basename p) ∈ libraries e2
        ∧ library_dirs e2
          = Own (build_lst [as_list ["/usr/lib"; "/usr/local/lib"];
                            as_str (PyPath.dirname p)])
        ∧ (∀ n, n ∈ ["opencv_core"; "opencv_ocl"; "opencv_imgproc"] ++ py_libs →
                AStr n ∈ libraries e2)
        ∧ (∀ n, n ∈ ["avcodec"; "avformat"; "avutil"] ++ py_libs →
                AStr n ∈ libraries e1)
        ∧ (ANone ∉ libraries e1) ∧ (ANone ∉ libraries e2)
        ∧ (ANone ∉ include_dirs e1) ∧ (ANone ∉ include_dirs e2).
Proof.
  intros w root_path s e e1 e2 st He Hl Hs.
  destruct (script_inv w root_path s _ Hs)
    as (hp & e1' & e2' & st' & s3 & ok & err & Has & _ & Ho & _).
  destruct ok; cbn [negb] in Ho; [|discriminate]. injection Ho as <- <- <-.
  destruct (assemble_inv w root_path _ _ _ _ _ _ Has)
    as (pi & pl & st0 & cv & cld & cll & s1 & s2 & Hhp & Hpy & Hcl & -> & ->).
  assert (heap s1 !! os_environ = Some e) as He1.
  { pose proof (tame_find_homebrew_prefix w s e He) as (H1 & _). rewrite Hhp in H1.
    cbn [snd] in H1. congruence. }
  destruct (python_flags_linux_inv w hp _ _ e _ _ _ Hl He1 Hpy)
    as (c1 & out1 & c' & out' & _ & Hsp' & -> & -> & ->).
  assert (heap s2 !! os_environ = Some e) as He2.
  { pose proof (tame_python_flags w hp s1 e He1) as (H2 & _). rewrite Hpy in H2.
    cbn [snd] in H2. congruence. }
  destruct (opencl_flags_linux_inv w hp _ _ _ _ e _ _ _ Hl He2 Hcl)
    as (c & out & p & Hsp & Hscan & -> & -> & ->).
  split; [reflexivity|]. exists c, out, p, c', out'. cbn zeta.
  set (libs := map flag_value (filter (fun t => t ≠ "") (output_pieces out'))).
  cbn [libraries library_dirs include_dirs includes ldflags].
  split; [exact Hsp|]. split; [exact Hscan|]. split; [exact Hsp'|].
  split; [reflexivity|]. split; [reflexivity|].
  assert (∀ l : list string, Forall (fun a => ∃ n, a = AStr n) (map AStr l)) as Hstr.
  { intros l. apply Forall_fmap, Forall_forall. intros n _. cbn. eauto. }
  assert (∀ items : list pyval,
            Forall (fun x => match x with
                             | PList l => Forall (fun a => ∃ n, a = AStr n) l
                             | _ => True
                             end) items →
            ANone ∉ build_lst items) as Hnone.
  { intros items Hit [(n & [=] & _)|(l & Hin & Ha)]%elem_of_build_lst.
    rewrite Forall_forall in Hit. specialize (Hit _ Hin). cbn in Hit.
    rewrite Forall_forall in Hit. destruct (Hit _ Ha) as (n & [=]). }
  split; [|split; [reflexivity|split; [|split; [|split; [|split; [|split]]]]]].
  - apply elem_of_build_lst. left. exists (":" +:+ PyStr.basename p).
    split; [reflexivity|]. unfold as_str. rewrite !elem_of_cons. auto.
  - intros n Hn. apply elem_of_build_lst. right. apply elem_of_app in Hn as [Hn|Hn].
    + exists (map AStr cv_libs). split; [unfold as_list; rewrite !elem_of_cons; auto|].
      apply list_elem_of_fmap. eauto.
    + exists (map AStr libs). split; [unfold as_list; rewrite !elem_of_cons; auto|].
      apply list_elem_of_fmap. eauto.
  - intros n Hn. apply elem_of_build_lst. right. apply elem_of_app in Hn as [Hn|Hn].
    + exists (map AStr libav_libs). split; [unfold as_list; rewrite !elem_of_cons; auto|].
      apply list_elem_of_fmap. eauto.
    + exists (map AStr libs). split; [unfold as_list; rewrite !elem_of_cons; auto|].
      apply list_elem_of_fmap. eauto.
  - apply Hnone. unfold as_list, as_str.
    repeat (apply Forall_cons; split; [first [exact I | apply Hstr]|]). apply Forall_nil_2.
  - apply Hnone. unfold as_list, as_str.
    repeat (apply Forall_cons; split; [first [exact I | apply Hstr]|]). apply Forall_nil_2.
  - apply Hnone. unfold as_list, as_str.
    repeat (apply Forall_cons; split; [first [exact I | apply Hstr]|]). apply Forall_nil_2.
  - apply Hnone. unfold as_list, as_str.
    repeat (apply Forall_cons; split; [first [exact I | apply Hstr]|]). apply Forall_nil_2.
Qed.

Lemma linux_extensions_use_opencl_namespec_witness :
  ∃ e1 e2 st,
    fst (script world_linux_carriage_returns "/src/butterflow" (state_start env_plain))
    = Ok (Setup e1 e2 st)
    ∧ AStr ":libOpenCL.so.1" ∈ libraries e2
    ∧ library_dirs e2
      = Own (build_lst [as_list ["/usr/lib"; "/usr/local/lib"];
                        as_str "/usr/lib/x86_64-linux-gnu"])
    ∧ AStr "python2.7" ∈ libraries e1
    ∧ AStr "/usr/lib/python2.7/config-x86_64-linux-gnu" ∈ libraries e1
    ∧ AStr "python2.7" ∈ libraries e2
    ∧ libraries e1
      = build_lst [as_list ["avcodec"; "avformat"; "avutil"];
                   as_list ["/usr/lib/python2.7/config-x86_64-linux-gnu"; "python2.7"]].
Proof.
  destruct (script world_linux_carriage_returns "/src/butterflow" (state_start env_plain))
    as [[[m|e1 e2 st]|x] s'] eqn:E; try (vm_compute in E; discriminate E).
  exists e1, e2, st.
  destruct (linux_extensions_use_opencl_namespec world_linux_carriage_returns
              "/src/butterflow" (state_start env_plain) env_plain e1 e2 st)
    as (_ & c & out & p & c' & out' & Hsp & Hscan & Hsp' & Hl1 & _ & H1 & H2 & H3 & H4 & _).
  - apply lookup_singleton_eq.
  - reflexivity.
  - rewrite E. reflexivity.
  - split; [reflexivity|].
    assert (out = listing_with_opencl_and_carriage_returns) as ->
      by (injection Hsp as _ <-; reflexivity).
    assert (out' = python_libs_out) as -> by (injection Hsp' as _ <-; reflexivity).
    assert (p = "/usr/lib/x86_64-linux-gnu/libOpenCL.so.1") as ->.
    { vm_compute in Hscan. injection Hscan as <-. reflexivity. }
    assert (map flag_value (filter (fun t => t ≠ "") (output_pieces python_libs_out))
            = ["/usr/lib/python2.7/config-x86_64-linux-gnu"; "python2.7"]) as Hpl
      by (vm_compute; reflexivity).
    rewrite Hpl in Hl1, H3, H4.
    split; [exact H1|]. split; [exact H2|].
    split; [apply H4; rewrite elem_of_app, !elem_of_cons; auto 10|].
    split; [apply H4; rewrite elem_of_app, !elem_of_cons; auto 10|].
    split; [apply H3; rewrite elem_of_app, !elem_of_cons; auto 10|].
    exact Hl1.
Defined.

(** X19. When the module does not end in an exception, all the assembly
    contacts come before the first contact of the gate. It ends in
    [exit(1)] only with the diagnostic of a requirement that does not hold
    printed, and reaches [setup] only when every requirement holds. The
    gate runs with the site directory derived from the Homebrew prefix,
    which is the one [brew --prefix] or the environment gave at the start
    of the module. *)
Theorem script_ends_by_the_gate :
  ∀ (w : world) (root_path : string) (s : state) (e : gmap string string) (o : outcome),
    heap s !! os_environ = Some e →
    fst (script w root_path s) = Ok o →
    ∃ (hp : option string) (evs : list event),
      fst (find_homebrew_prefix w s) = Ok hp
      ∧ Forall assembly_event evs
      ∧ trace (snd (script w root_path s))
        = trace s ++ evs
          ++ snd (gate_spec (with_homebrew_site_pkgs w (site_pkgs_of_prefix w hp)) e
                    (sys_path s)
                    (documented_order (with_homebrew_site_pkgs w (site_pkgs_of_prefix w hp))))
      ∧ match o with
        | Exit1 m =>
            ∃ pre r post,
              documented_order w = pre ++ r :: post
              ∧ Forall (fun q => fst (eval_requirement
                                        (with_homebrew_site_pkgs w (site_pkgs_of_prefix w hp))
                                        e (sys_path s) q) = Ok true) pre
              ∧ fst (eval_requirement (with_homebrew_site_pkgs w (site_pkgs_of_prefix w hp))
                       e (sys_path s) r) = Ok false
              ∧ m = Some (failure_message w r)
        | Setup _ _ _ =>
            Forall (fun q => fst (eval_requirement
                                    (with_homebrew_site_pkgs w (site_pkgs_of_prefix w hp))
                                    e (sys_path s) q) = Ok true)
                   (documented_order w)
        end.
Proof.
  intros w root_path s e o He Hs.
  destruct (script_inv w root_path s o Hs)
    as (hp & e1 & e2 & st & s1 & ok & err & Has & Hcd & -> & Hsnd).
  pose proof (tame_assemble w root_path s e He) as (Hh & Hp & evs & Ht & Hev).
  rewrite Has in Hh, Hp, Ht. cbn [snd] in Hh, Hp, Ht.
  assert (heap s1 !! os_environ = Some e) as He1 by congruence.
  destruct (assemble_inv w root_path _ _ _ _ _ _ Has)
    as (pi & pl & st0 & cv & cld & cll & s1' & s2' & Hhp & _).
  set (w' := with_homebrew_site_pkgs w (site_pkgs_of_prefix w hp)) in *.
  destruct (check_dependencies_gate w' s1 e He1) as (s2 & Hrun & _ & Ht2).
  rewrite Hrun in Hcd, Hsnd. cbn [fst snd] in Hcd, Hsnd. rewrite Hp in Hcd, Ht2.
  exists hp, evs. split; [rewrite Hhp; reflexivity|]. split; [exact Hev|].
  split; [rewrite Hsnd, Ht2, Ht, app_assoc; reflexivity|].
  destruct ok; cbn [negb].
  - destruct (gate_spec_true _ _ _ _ _ Hcd) as (_ & HF). exact HF.
  - exact (gate_spec_false _ _ _ _ _ Hcd).
Qed.

Lemma script_ends_by_the_gate_witness :
  (∃ e1 e2 st,
     fst (script world_darwin "/src/butterflow" (state_start env_plain))
     = Ok (Setup e1 e2 st)
     ∧ Forall (fun q => fst (eval_requirement
                               (with_homebrew_site_pkgs world_darwin
                                  (Some "/usr/local/lib/python2.7/site-packages/"))
                               env_plain (sys_path (state_start env_plain)) q) = Ok true)
              (documented_order world_darwin)
     ∧ EvImport [""; "/usr/local/lib/python2.7/site-packages/";
                 "/usr/local/lib/python2.7/site-packages";
                 "/usr/local/lib/python2.7/dist-packages";
                 "/usr/lib/python2.7/site-packages";
                 "/usr/lib/python2.7/dist-packages";
                 "/usr/lib/python2.7"]
       ∈ trace (snd (script world_darwin "/src/butterflow" (state_start env_plain))))
  ∧ ∃ e1 e2 st,
      fst (script world_linux "/src/butterflow" (state_start env_plain))
      = Ok (Setup e1 e2 st)
      ∧ Forall (fun q => fst (eval_requirement world_linux env_plain
                                (sys_path (state_start env_plain)) q) = Ok true)
               (documented_order world_linux).
Proof.
  split.
  - destruct (script world_darwin "/src/butterflow" (state_start env_plain))
      as [[[m|e1 e2 st]|x] s'] eqn:E; try (vm_compute in E; discriminate E).
    exists e1, e2, st. split; [reflexivity|].
    destruct (script_ends_by_the_gate world_darwin "/src/butterflow"
                (state_start env_plain) env_plain (Setup e1 e2 st))
      as (hp & evs & Hhp & _ & Htr & H).
    + apply lookup_singleton_eq.
    + rewrite E. reflexivity.
    + assert (hp = Some "/usr/local") as ->
        by (vm_compute in Hhp; injection Hhp as <-; reflexivity).
      split; [exact H|].
      rewrite E in Htr. cbn [snd] in Htr. cbn [snd]. rewrite Htr.
      apply elem_of_app. right. apply elem_of_app. right.
      apply list_elem_of_In. vm_compute.
      repeat (first [left; reflexivity | right]).
  - destruct (script world_linux "/src/butterflow" (state_start env_plain))
      as [[[m|e1 e2 st]|x] s'] eqn:E; try (vm_compute in E; discriminate E).
    exists e1, e2, st. split; [reflexivity|].
    destruct (script_ends_by_the_gate world_linux "/src/butterflow"
                (state_start env_plain) env_plain (Setup e1 e2 st))
      as (hp & evs & Hhp & _ & _ & H).
    + apply lookup_singleton_eq.
    + rewrite E. reflexivity.
    + assert (hp = None) as -> by (vm_compute in Hhp; injection Hhp as <-; reflexivity).
      cbn beta iota in H. eapply Forall_impl; [exact H|].
      intros q Hq. rewrite <- Hq. destruct q; reflexivity.
Defined.
